(** * Waterkotte EcoTouch bridge: register transport and session handling

    A shallow embedding of [EcotouchBridge] from
    [custom_components/waterkotte_heatpump/pywaterkotte_ha/ecotouch.py]:
    [login], [logout], [read_values], [_read_tags], [write_value],
    [write_values] and [_write_tags], together with the regular
    expressions they apply to the controller's replies.

    Python objects are modelled as follows.
    - [str] is [string]; a reply body is the text returned by
      [resp.text()].
    - A [dict] is an association list in insertion order.
    - The bridge object and the sequence of HTTP requests issued so far
      form the state that every coroutine threads; the heat pump is a
      function from the request history to its reply.
    - An exception is an [outcome]. [_read_tags] and [_write_tags]
      call themselves: they take the number of nested calls that
      Python's recursion limit still allows, and a call beyond it
      raises [RecursionError]. The [while] loop takes fuel; a loop that
      is not over when the fuel is used up has the outcome
      [OutOfFuel]. *)

From Stdlib Require Import String Ascii List ZArith Lia Bool Arith PeanoNat.
From Stdlib Require Import DecimalString.
Import ListNotations.
Local Open Scope string_scope.
Local Open Scope list_scope.

(** ** Characters and string helpers *)

Definition TAB : ascii := ascii_of_nat 9.
Definition NL : ascii := ascii_of_nat 10.
Definition tab : string := String TAB EmptyString.

(** The character class [[A-Z_]]. *)
Definition is_status_char (c : ascii) : bool :=
  let n := nat_of_ascii c in
  ((65 <=? n)%nat && (n <=? 90)%nat) || (n =? 95)%nat.

(** The character class [\d], on ASCII text. *)
Definition is_digit (c : ascii) : bool :=
  let n := nat_of_ascii c in
  (48 <=? n)%nat && (n <=? 57)%nat.

(** Longest prefix of [s] whose characters satisfy [p], and the rest:
    what a greedy [X+] consumes when the next pattern item cannot
    start with a character of the class. *)
Fixpoint span (p : ascii -> bool) (s : string) : string * string :=
  match s with
  | EmptyString => (EmptyString, EmptyString)
  | String c r =>
      if p c then let (a, b) := span p r in (String c a, b)
      else (EmptyString, s)
  end.

(** [str.startswith]. *)
Fixpoint startswith (s p : string) : bool :=
  match p, s with
  | EmptyString, _ => true
  | String a p', String b s' => Ascii.eqb a b && startswith s' p'
  | String _ _, EmptyString => false
  end.

(** The text after the literal [p] when [s] starts with it. *)
Fixpoint strip_prefix (p s : string) : option string :=
  match p, s with
  | EmptyString, _ => Some s
  | String a p', String b s' =>
      if Ascii.eqb a b then strip_prefix p' s' else None
  | String _ _, EmptyString => None
  end.

Definition is_empty (s : string) : bool :=
  match s with EmptyString => true | _ => false end.

(** [re.search] for a pattern without anchors: the match at the
    leftmost position where the pattern matches. *)
Fixpoint re_search {A : Type} (m : string -> option A) (s : string) : option A :=
  match m s with
  | Some x => Some x
  | None =>
      match s with
      | EmptyString => None
      | String _ r => re_search m r
      end
  end.

(** ** Regular expressions of the bridge *)

(** [rf"#{tag}\t(?P<status>[A-Z_]+)\n\d+\t(?P<value>\-?\d+)"] tried at
    the start of [s]; the result is the pair of the groups [status] and
    [value]. A register code consists of a letter and digits, so the
    interpolated code matches itself. *)
Definition match_block_at (tag s : string) : option (string * string) :=
  match strip_prefix ("#" ++ tag ++ tab)%string s with
  | None => None
  | Some r1 =>
      let (status, r2) := span is_status_char r1 in
      if is_empty status then None else
      match r2 with
      | String c r3 =>
          if negb (Ascii.eqb c NL) then None else
          let (idx, r4) := span is_digit r3 in
          if is_empty idx then None else
          match r4 with
          | String c' r5 =>
              if negb (Ascii.eqb c' TAB) then None else
              let (sign, r6) :=
                match r5 with
                | String "-" r => ("-", r)
                | _ => (EmptyString, r5)
                end in
              let (digits, _) := span is_digit r6 in
              if is_empty digits then None else Some (status, (sign ++ digits)%string)
          | EmptyString => None
          end
      | EmptyString => None
      end
  end.

Definition search_block (tag response : string) : option (string * string) :=
  re_search (match_block_at tag) response.

(** [rf"#{tag}\tE_INACTIVETAG"] *)
Definition match_inactive_at (tag s : string) : option unit :=
  if startswith s ("#" ++ tag ++ tab ++ "E_INACTIVETAG")%string then Some tt else None.

Definition search_inactive (tag response : string) : option unit :=
  re_search (match_inactive_at tag) response.

(** [re.search(r"^#([A-Z_]+)", r, re.MULTILINE)]: with [re.MULTILINE]
    the anchor matches at the start of the text and after every
    newline. The result is group 1. *)
Fixpoint search_status (line_start : bool) (r : string) : option string :=
  match r with
  | EmptyString => None
  | String c r' =>
      if line_start && Ascii.eqb c "#" then
        let (run, _) := span is_status_char r' in
        if is_empty run then search_status (Ascii.eqb c NL) r' else Some run
      else search_status (Ascii.eqb c NL) r'
  end.

(** ** Python dictionaries *)

Module PyDict.

Definition t (V : Type) : Type := list (string * V).

Definition empty {V : Type} : t V := [].

(** [d[k]]: [None] stands for [KeyError]. *)
Fixpoint get {V : Type} (d : t V) (k : string) : option V :=
  match d with
  | [] => None
  | (k', v) :: d' => if String.eqb k k' then Some v else get d' k
  end.

(** [d[k] = v]: an existing key keeps its position, a new key goes
    to the end. *)
Fixpoint set {V : Type} (d : t V) (k : string) (v : V) : t V :=
  match d with
  | [] => [(k, v)]
  | (k', v') :: d' =>
      if String.eqb k k' then (k', v) :: d' else (k', v') :: set d' k v
  end.

Definition keys {V : Type} (d : t V) : list string := map fst d.
Definition values {V : Type} (d : t V) : list V := map snd d.
Definition mem {V : Type} (d : t V) (k : string) : bool :=
  match get d k with Some _ => true | None => false end.

End PyDict.

(** ** Exceptions and outcomes *)

(** The exception classes that the bridge raises or that reach it.
    [TooManyUsersException] is declared as a subclass of
    [StatusException]; [ClientError] is what [aiohttp] raises when a
    request gets no response. *)
Inductive exn : Type :=
| InvalidResponseException
| StatusException
| TooManyUsersException
| InvalidValueException
| AssertionError
| ClientError
| TypeError
| KeyError
| IndexError
| ValueError
| UnboundLocalError
| RecursionError.

(** [except StatusException] *)
Definition is_StatusException (e : exn) : bool :=
  match e with
  | StatusException | TooManyUsersException => true
  | _ => false
  end.

Inductive outcome (A : Type) : Type :=
| Ok (a : A)
| Raise (e : exn)
| OutOfFuel.
Arguments Ok {A} a.
Arguments Raise {A} e.
Arguments OutOfFuel {A}.

(** ** Domain values *)

(** The values that descriptors decode to and callers write. A float
    is kept as its number of tenths: the bridge's codecs produce
    [int(raw) / 10]. *)
#[warnings="-register-all"]
Inductive pyval : Type :=
| PyNone
| PyBool (b : bool)
| PyInt (n : Z)
| PyFloat (tenths : Z)
| PyStr (s : string)
| PyList (l : list pyval).

Definition str_of_Z (n : Z) : string :=
  DecimalString.NilZero.string_of_int (Z.to_int n).

Definition join (sep : string) (l : list string) : string :=
  match l with
  | [] => EmptyString
  | x :: r => fold_left (fun acc y => (acc ++ sep ++ y)%string) r x
  end.

(** [repr]; the text of a string is put between single quotes, which
    is what Python does for a text without quotes or escapes. *)
Fixpoint py_repr (v : pyval) : string :=
  match v with
  | PyNone => "None"
  | PyBool true => "True"
  | PyBool false => "False"
  | PyInt n => str_of_Z n
  | PyFloat t =>
      ((if (t <? 0)%Z then "-" else "") ++ str_of_Z (Z.abs t / 10) ++ "."
       ++ str_of_Z (Z.abs t mod 10))%string
  | PyStr s => ("'" ++ s ++ "'")%string
  | PyList l => ("[" ++ join ", " (map py_repr l) ++ "]")%string
  end.

(** [str] *)
Definition py_str (v : pyval) : string :=
  match v with
  | PyStr s => s
  | _ => py_repr v
  end.

(** Truth value of an object in an [if]. *)
Definition py_truth (v : pyval) : bool :=
  match v with
  | PyNone => false
  | PyBool b => b
  | PyInt n => negb (n =? 0)%Z
  | PyFloat t => negb (t =? 0)%Z
  | PyStr s => negb (is_empty s)
  | PyList l => match l with [] => false | _ => true end
  end.

(** [len]: a [TypeError] for an object without a length. *)
Definition py_len (v : pyval) : nat + exn :=
  match v with
  | PyStr s => inl (String.length s)
  | PyList l => inl (List.length l)
  | _ => inr TypeError
  end.

(** ** Property descriptors *)

(** [TagData] is declared in the package's [__init__.py], whose source
    is not part of this development; the record has the members that
    the bridge uses, and every statement below holds for any values
    of them. [name] is the name of
    the [EcotouchTag] member, which is what [__hash__] hashes and what
    keys the result maps. The two codec attributes are called with the
    descriptor itself as first argument; here each descriptor carries
    its own closures. [encode_function] receives the accumulator
    [to_write] and yields it updated. *)
Record TagData : Type := mkTagData {
  name : string;
  tags : list string;
  writeable : bool;
  translate : bool;
  decode_function : list (option string) -> pyval + exn;
  encode_function : pyval -> PyDict.t string -> PyDict.t string + exn;
}.

(** One entry of the caller-facing result:
    [{"value": ..., "status": ...}]. *)
Record Result : Type := mkResult {
  value : pyval;
  status : string;
}.

(** ** The bridge object, the controller and the threaded state *)

Definition cookies : Type := string.

Record EcotouchBridge : Type := mkBridge {
  hostname : string;
  username : string;
  password : string;
  tagsPerRequest : Z;
  auth_cookies : option cookies;
  lang_map : PyDict.t (list string);
}.

(** The HTTP calls of the bridge. [ReadTags] and [WriteTags] carry the
    cookies of the client session and the [t1..tn] (and [v1..vn])
    parameters; [n] is the length of [t1..tn]. The nonce parameters
    [_] and [rnd] are left out. *)
Inductive request : Type :=
| Login (user pass : string)
| Logout
| ReadTags (jar : option cookies) (ts : list string)
| WriteTags (jar : option cookies) (ts : list string) (vs : list string).

(** What a call comes back with: a response (HTTP status, body text,
    cookies) or no response at all. *)
Inductive reply : Type :=
| Response (code : Z) (body : string) (jar : cookies)
| NoResponse.

(** [device] answers the last request of a history (oldest first);
    [log] is the history so far. *)
Record state : Type := mkState {
  self : EcotouchBridge;
  device : list request -> reply;
  log : list request;
}.

Definition M (A : Type) : Type := state -> outcome A * state.

Definition ret {A : Type} (a : A) : M A := fun s => (Ok a, s).

Definition raise {A : Type} (e : exn) : M A := fun s => (Raise e, s).

Definition diverge {A : Type} : M A := fun s => (OutOfFuel, s).

Definition bind {A B : Type} (c : M A) (k : A -> M B) : M B :=
  fun s =>
    match c s with
    | (Ok a, s') => k a s'
    | (Raise e, s') => (Raise e, s')
    | (OutOfFuel, s') => (OutOfFuel, s')
    end.

Declare Scope py_scope.
Delimit Scope py_scope with py.
Notation "x <- c ;; k" := (bind c (fun x => k))
  (at level 61, c at next level, right associativity) : py_scope.
Notation "c ;; k" := (bind c (fun _ => k))
  (at level 61, right associativity) : py_scope.
Local Open Scope py_scope.

(** [try: c except E: h], where [catches] tells whether the clause
    matches the exception. *)
Definition try_except {A : Type} (c : M A) (catches : exn -> bool) (h : exn -> M A) : M A :=
  fun s =>
    match c s with
    | (Raise e, s') => if catches e then h e s' else (Raise e, s')
    | r => r
    end.

Definition lift {A : Type} (r : A + exn) : M A :=
  match r with
  | inl a => ret a
  | inr e => raise e
  end.

Definition get_self : M EcotouchBridge := fun s => (Ok (self s), s).

(** [session.get(...)]: the request is recorded and the controller's
    reply is awaited. *)
Definition http_get (r : request) : M (Z * string * cookies) :=
  fun s =>
    let h := log s ++ [r] in
    let s' := mkState (self s) (device s) h in
    match device s h with
    | Response code body jar => (Ok (code, body, jar), s')
    | NoResponse => (Raise ClientError, s')
    end.

(** ** [EcotouchBridge.__init__] *)

(** [TRANSLATIONS] of [const.py] is a parameter. *)
Definition __init__ (TRANSLATIONS : PyDict.t (PyDict.t (list string)))
    (host : string) (tagsPerRequest : Z) (lang : string) : EcotouchBridge + exn :=
  let lm :=
    if PyDict.mem TRANSLATIONS lang then PyDict.get TRANSLATIONS lang
    else PyDict.get TRANSLATIONS "en" in
  match lm with
  | Some m => inl (mkBridge host "waterkotte" "waterkotte" (Z.min tagsPerRequest 75) None m)
  | None => inr KeyError
  end.

(** ** [get_status_response], [login], [logout] *)

Definition get_status_response (r : string) : M string :=
  match search_status true r with
  | None => raise InvalidResponseException
  | Some g => ret g
  end.

(** [self.username = u; self.password = p] *)
Definition set_credentials (u p : string) : M unit :=
  fun s =>
    let b := self s in
    (Ok tt, mkState (mkBridge (hostname b) u p (tagsPerRequest b)
                       (auth_cookies b) (lang_map b))
                    (device s) (log s)).

(** [self.auth_cookies = c] *)
Definition set_auth_cookies (c : option cookies) : M unit :=
  fun s =>
    let b := self s in
    (Ok tt, mkState (mkBridge (hostname b) (username b) (password b)
                       (tagsPerRequest b) c (lang_map b))
                    (device s) (log s)).

Definition login (username password : string) : M unit :=
  set_credentials username password ;;
  resp <- http_get (Login username password) ;;
  let '(code, content, jar) := resp in
  if negb (code =? 200)%Z then raise AssertionError else
  parsed_response <- get_status_response content ;;
  if negb (String.eqb parsed_response "S_OK") then
    if startswith parsed_response "E_TOO_MANY_USERS"
    then raise TooManyUsersException
    else raise StatusException
  else set_auth_cookies (Some jar).

Definition logout : M unit :=
  _ <- http_get Logout ;;
  set_auth_cookies None.

(** ** Python slices and subscripts *)

(** [l[:k]] *)
Definition slice_to {A : Type} (k : Z) (l : list A) : list A :=
  if (0 <=? k)%Z then firstn (Z.to_nat k) l
  else firstn (Z.to_nat (Z.of_nat (length l) + k)) l.

(** [l[k:]] *)
Definition slice_from {A : Type} (k : Z) (l : list A) : list A :=
  if (0 <=? k)%Z then skipn (Z.to_nat k) l
  else skipn (Z.to_nat (Z.of_nat (length l) + k)) l.

(** [d[k] = v] on a variable that may hold [None]: assigning an item
    of [None] is a [TypeError]. *)
Definition setitem {V : Type} (d : option (PyDict.t V)) (k : string) (v : V)
  : M (option (PyDict.t V)) :=
  match d with
  | None => raise TypeError
  | Some d' => ret (Some (PyDict.set d' k v))
  end.

(** [[d[k] for k in ks]] *)
Fixpoint lookup_all {V : Type} (d : PyDict.t V) (ks : list string) : list V + exn :=
  match ks with
  | [] => inl []
  | k :: r =>
      match PyDict.get d k with
      | None => inr KeyError
      | Some v =>
          match lookup_all d r with
          | inl vs => inl (v :: vs)
          | inr e => inr e
          end
      end
  end.

(** ** [_read_tags] and [_write_tags] *)

Definition raw_values : Type := PyDict.t (option string).
Definition raw_status : Type := PyDict.t string.

(** What [_read_tags] and [_write_tags] return: [None], or a pair
    whose components are dictionaries or [None]. *)
Inductive tags_result : Type :=
| RNone
| RPair (results : option raw_values) (results_status : option raw_status).

(** [a, b = r] *)
Definition unpack (r : tags_result) : M (option raw_values * option raw_status) :=
  match r with
  | RNone => raise TypeError
  | RPair a b => ret (a, b)
  end.

(** The loop [for tag in tags: match = re.search(...) ...], which
    [_read_tags] and [_write_tags] both end with. *)
Fixpoint for_tags (response : string) (tags : list string)
    (results : option raw_values) (results_status : option raw_status)
  : M (option raw_values * option raw_status) :=
  match tags with
  | [] => ret (results, results_status)
  | tag :: rest =>
      match search_block tag response with
      | None =>
          results_status <-
            setitem results_status tag
              (match search_inactive tag response with
               | None => "E_NOTFOUND"
               | Some _ => "E_INACTIVE"
               end) ;;
          results <- setitem results tag None ;;
          for_tags response rest results results_status
      | Some (st, v) =>
          results_status <- setitem results_status tag st ;;
          results <- setitem results tag (Some v) ;;
          for_tags response rest results results_status
      end
  end.

(** The loop [while len(tags) > self.tagsPerRequest: ...] of
    [_read_tags]; [rec] is the recursive call. It yields the variables
    [tags], [results] and [results_status] as the loop leaves them.
    [fuel] bounds the number of iterations. *)
Fixpoint while_chunks
    (rec : list string -> option raw_values -> option raw_status -> M tags_result)
    (fuel : nat) (tags : list string)
    (results : option raw_values) (results_status : option raw_status)
  : M (list string * option raw_values * option raw_status) :=
  match fuel with
  | O => diverge
  | S fuel' =>
      b <- get_self ;;
      if (Z.of_nat (length tags) >? tagsPerRequest b)%Z then
        r <- rec (slice_to (tagsPerRequest b) tags) results results_status ;;
        p <- unpack r ;;
        while_chunks rec fuel' (slice_from (tagsPerRequest b) tags) (fst p) (snd p)
      else ret (tags, results, results_status)
  end.

(** [depth] is the number of nested calls of [_read_tags] that the
    recursion limit still allows, this one included; [fuel] is the
    bound of the [while] loop of every call. *)
Fixpoint _read_tags (depth : nat) (fuel : nat) (tags : list string)
    (results : option raw_values) (results_status : option raw_status)
  : M tags_result :=
  match depth with
  | O => raise RecursionError
  | S depth' =>
      let results :=
        match results with None => Some PyDict.empty | Some _ => results end in
      let results_status :=
        match results_status with None => Some PyDict.empty | Some _ => results_status end in
      l <- while_chunks (_read_tags depth' fuel) fuel tags results results_status ;;
      let '(tags, results, results_status) := l in
      b <- get_self ;;
      resp <- http_get (ReadTags (auth_cookies b) tags) ;;
      let '(_, response, _) := resp in
      if startswith response "#E_NEED_LOGIN" then
        try_except
          (b <- get_self ;;
           login (username b) (password b) ;;
           _read_tags depth' fuel tags results results_status)
          is_StatusException
          (fun _ => ret (RPair None None))
      else if startswith response "#E_TOO_MANY_USERS" then ret RNone
      else
        r <- for_tags response tags results results_status ;;
        ret (RPair (fst r) (snd r))
  end.

(** [value] is indexed by the position of each tag: a shorter
    [value] is an [IndexError]. [depth] is the number of nested calls
    of [_write_tags] that the recursion limit still allows. *)
Fixpoint _write_tags (depth : nat) (tags : list string) (value : list string)
  : M tags_result :=
  match depth with
  | O => raise RecursionError
  | S depth' =>
      if (length value <? length tags)%nat then raise IndexError else
      b <- get_self ;;
      resp <- http_get (WriteTags (auth_cookies b) tags (firstn (length tags) value)) ;;
      let '(_, response, _) := resp in
      if startswith response "#E_NEED_LOGIN" then
        try_except
          (b <- get_self ;;
           login (username b) (password b) ;;
           _write_tags depth' tags value)
          is_StatusException
          (fun _ => ret RNone)
      else if startswith response "#E_TOO_MANY_USERS" then ret RNone
      else
        r <- for_tags response tags (Some PyDict.empty) (Some PyDict.empty) ;;
        ret (RPair (fst r) (snd r))
  end.

(** ** [write_value] and [write_values] *)

(** The [for a_tag in e_status: ...] loop that computes [all_ok]. *)
Definition all_ok (e_status : raw_status) : bool :=
  forallb (fun kv => String.eqb (snd kv) "S_OK") e_status.

(** The statements after [_write_tags] in the body of the loop of
    [write_values]. The [_LOGGER.error] of a mismatch has no effect on
    the result. *)
Definition after_write (a_eco_tag : TagData) (value : pyval)
    (e_values : option raw_values) (e_status : option raw_status)
    (result : PyDict.t Result) : PyDict.t Result + exn :=
  match e_values with
  | None => inl result
  | Some ev =>
      if (0 <? length ev)%nat then
        match e_status with
        | None => inr TypeError
        | Some es =>
            if all_ok es then
              match lookup_all ev (tags a_eco_tag) with
              | inr e => inr e
              | inl str_vals =>
                  match decode_function a_eco_tag str_vals with
                  | inr e => inr e
                  | inl val =>
                      if negb (String.eqb (py_str val) (py_str value)) then inl result
                      else
                        match tags a_eco_tag with
                        | [] => inr IndexError
                        | t0 :: _ =>
                            match PyDict.get es t0 with
                            | None => inr KeyError
                            | Some st =>
                                inl (PyDict.set result (name a_eco_tag) (mkResult val st))
                            end
                        end
                  end
              end
            else inl result
        end
      else inl result
  end.

(** The loop [for a_eco_tag, value in kv_pairs: ...] with the
    variables [to_write] and [result]. *)
Fixpoint write_values_loop (depth : nat) (kv_pairs : list (TagData * pyval))
    (to_write : PyDict.t string) (result : PyDict.t Result)
  : M (PyDict.t Result) :=
  match kv_pairs with
  | [] => ret result
  | (a_eco_tag, value) :: rest =>
      if negb (writeable a_eco_tag) then raise InvalidValueException else
      to_write <- lift (encode_function a_eco_tag value to_write) ;;
      r <- _write_tags depth (PyDict.keys to_write) (PyDict.values to_write) ;;
      p <- unpack r ;;
      result <- lift (after_write a_eco_tag value (fst p) (snd p) result) ;;
      write_values_loop depth rest to_write result
  end.

Definition write_values (depth : nat) (kv_pairs : list (TagData * pyval))
  : M (PyDict.t Result) :=
  write_values_loop depth kv_pairs PyDict.empty PyDict.empty.

Definition write_value (depth : nat) (tag : TagData) (value : pyval)
  : M (PyDict.t Result) :=
  write_values depth [(tag, value)].

(** ** [read_value] and [read_values] *)

(** [temp_values[idx]] for [idx in range(len(temp_values))]: the items
    of a list, the characters of a text; other values have no [len]. *)
Definition py_items (v : pyval) : list pyval + exn :=
  match v with
  | PyList l => inl l
  | PyStr s => inl (map (fun c => PyStr (String c EmptyString)) (list_ascii_of_string s))
  | _ => inr TypeError
  end.

(** The loop [for idx in range(len(temp_values)): ...] that collects
    the labels of the items that are true. *)
Fixpoint translate_loop (value_map : list string) (idx : nat) (items : list pyval)
    (final_value : string) : string + exn :=
  match items with
  | [] => inl final_value
  | x :: r =>
      if py_truth x then
        match nth_error value_map idx with
        | None => inr IndexError
        | Some label => translate_loop value_map (S idx) r (final_value ++ ", " ++ label)%string
        end
      else translate_loop value_map (S idx) r final_value
  end.

Definition translate_value (value_map : list string) (temp_values : pyval) : string + exn :=
  match py_items temp_values with
  | inr e => inr e
  | inl items =>
      match translate_loop value_map 0 items EmptyString with
      | inr e => inr e
      | inl final_value =>
          inl (if (0 <? String.length final_value)%nat
               then String.substring 2 (String.length final_value - 2) final_value
               else final_value)
      end
  end.

(** The variables of [read_values] that its loop assigns: [result] and
    the locals [t_values] and [t_states], which are unbound until a
    first assignment. *)
Record frame : Type := mkFrame {
  result : PyDict.t Result;
  t_values : option (list (option string));
  t_states : option (list string);
}.

(** The body of the [try] for one descriptor: the variables as the
    body leaves them, and the exception that ended it, if any. *)
Definition try_body (lm : PyDict.t (list string))
    (e_values : raw_values) (e_status : option raw_status)
    (a_eco_tag : TagData) (f : frame) : frame * option exn :=
  match lookup_all e_values (tags a_eco_tag) with
  | inr e => (f, Some e)
  | inl tv =>
      let f1 := mkFrame (result f) (Some tv) (t_states f) in
      match (match e_status with
             | None => inr TypeError
             | Some es => lookup_all es (tags a_eco_tag)
             end) with
      | inr e => (f1, Some e)
      | inl ts =>
          let f2 := mkFrame (result f) (Some tv) (Some ts) in
          match decode_function a_eco_tag tv with
          | inr e => (f2, Some e)
          | inl v =>
              match ts with
              | [] => (f2, Some IndexError)
              | st0 :: _ =>
                  let f3 := mkFrame (PyDict.set (result f) (name a_eco_tag) (mkResult v st0))
                                    (Some tv) (Some ts) in
                  if translate a_eco_tag then
                    match tags a_eco_tag with
                    | [] => (f3, Some IndexError)
                    | t0 :: _ =>
                        match PyDict.get lm t0 with
                        | None => (f3, None)
                        | Some value_map =>
                            match translate_value value_map v with
                            | inr e => (f3, Some e)
                            | inl final_value =>
                                (mkFrame (PyDict.set (result f) (name a_eco_tag)
                                            (mkResult (PyStr final_value) st0))
                                         (Some tv) (Some ts), None)
                            end
                        end
                    end
                  else (f3, None)
              end
          end
      end
  end.

(** The clauses [except KeyError] and [except Exception] both only
    log, and between them they catch every exception of the body. The
    logged f-string reads [t_values] and [t_states], and reading an
    unbound local raises [UnboundLocalError] out of the handler. *)
Definition handler (f : frame) (e : exn) : option exn :=
  match t_values f, t_states f with
  | Some _, Some _ => None
  | _, _ => Some UnboundLocalError
  end.

(** The loop [for a_eco_tag in tags: try: ... except ...]. *)
Fixpoint for_eco_tags (lm : PyDict.t (list string))
    (e_values : raw_values) (e_status : option raw_status)
    (tags : list TagData) (f : frame) : PyDict.t Result + exn :=
  match tags with
  | [] => inl (result f)
  | a_eco_tag :: rest =>
      match try_body lm e_values e_status a_eco_tag f with
      | (f', None) => for_eco_tags lm e_values e_status rest f'
      | (f', Some e) =>
          match handler f' e with
          | None => for_eco_tags lm e_values e_status rest f'
          | Some e' => inr e'
          end
      end
  end.

(** [[etag for tag in tags for etag in tag.tags]] *)
Definition flat_tags (l : list TagData) : list string := flat_map tags l.

(** [list_set] stands for [list(set(...))]: the order in which Python
    enumerates a set of texts is not fixed. *)
Definition read_values (list_set : list string -> list string)
    (depth fuel : nat) (tags : list TagData) : M (PyDict.t Result) :=
  let e_tags := list_set (flat_tags tags) in
  r <- _read_tags depth fuel e_tags None None ;;
  p <- unpack r ;;
  let '(e_values, e_status) := p in
  match e_values with
  | None => ret PyDict.empty
  | Some ev =>
      if (0 <? length ev)%nat then
        b <- get_self ;;
        lift (for_eco_tags (lang_map b) ev e_status tags (mkFrame PyDict.empty None None))
      else ret PyDict.empty
  end.

Definition read_value (list_set : list string -> list string)
    (depth fuel : nat) (tag : TagData) : M (option Result) :=
  res <- read_values list_set depth fuel [tag] ;;
  ret (PyDict.get res (name tag)).

(** ** Controllers and descriptors of the examples *)

(** A register listing as the controller sends it:
    [#<code>\t<STATUS>\n<index>\t<value>\n]. *)
Definition block (tag st v : string) : string :=
  ("#" ++ tag ++ tab ++ st ++ String NL ("192" ++ tab ++ v ++ String NL ""))%string.

Definition inactive_block (tag : string) : string :=
  ("#" ++ tag ++ tab ++ "E_INACTIVETAG" ++ String NL "")%string.

(** A controller that answers the [i]-th request of a session with
    the [i]-th reply of a script and is silent once the script is over. *)
Definition scripted (script : list reply) : list request -> reply :=
  fun h => nth (length h - 1) script NoResponse.

(** A controller that accepts every login, reports every register that
    is read as [S_OK] with the raw value [215] and echoes every value
    that is written. *)
Definition plant : list request -> reply :=
  fun h =>
    match last h Logout with
    | Login _ _ => Response 200 ("#S_OK" ++ String NL "#E_OK")%string "IDALToken=1"
    | Logout => Response 200 "#S_OK" ""
    | ReadTags _ ts =>
        Response 200 (String.concat "" (map (fun t => block t "S_OK" "215") ts)) ""
    | WriteTags _ ts vs =>
        Response 200
          (String.concat "" (map (fun tv => block (fst tv) "S_OK" (snd tv)) (combine ts vs))) ""
    end.

(** A controller that reports every session as expired and accepts
    every login. *)
Definition forgetful : list request -> reply :=
  fun h =>
    match last h Logout with
    | Login _ _ => Response 200 "#S_OK" "IDALToken=1"
    | _ => Response 200 "#E_NEED_LOGIN" ""
    end.

Definition bridge0 (tagsPerRequest : Z) : EcotouchBridge :=
  mkBridge "192.168.0.2" "waterkotte" "waterkotte" (Z.min tagsPerRequest 75) None [].

Definition start (tagsPerRequest : Z) (dev : list request -> reply) : state :=
  mkState (bridge0 tagsPerRequest) dev [].

(** The register codes [A1 .. An]. *)
Definition codes (n : nat) : list string :=
  map (fun i => ("A" ++ str_of_Z (Z.of_nat i))%string) (seq 1 n).

(** Modelled from the spec: the default codec of [TagData], whose
    source is not part of this development. Decoding parses the first
    raw value as an integer and divides it by 10; a register without a
    value decodes to [None]. Encoding multiplies by 10 and writes the
    decimal text under the descriptor's first register code. *)
Definition decode_value (vals : list (option string)) : pyval + exn :=
  match vals with
  | [] => inr IndexError
  | None :: _ => inl PyNone
  | Some raw :: _ =>
      match NilZero.int_of_string raw with
      | Some i => inl (PyFloat (Z.of_int i))
      | None => inr ValueError
      end
  end.

Definition encode_value (tag0 : string) (v : pyval) (to_write : PyDict.t string)
  : PyDict.t string + exn :=
  match v with
  | PyFloat t => inl (PyDict.set to_write tag0 (str_of_Z t))
  | PyInt n => inl (PyDict.set to_write tag0 (str_of_Z (10 * n)))
  | _ => inr TypeError
  end.

(** [TagData([code], writeable=w)] with the default codec. *)
Definition numeric (nm code : string) (w : bool) : TagData :=
  mkTagData nm [code] w false decode_value (encode_value code).

Definition TEMPERATURE_OUTSIDE : TagData := numeric "TEMPERATURE_OUTSIDE" "A1" false.
Definition TEMPERATURE_OUTSIDE_1H : TagData := numeric "TEMPERATURE_OUTSIDE_1H" "A2" false.
Definition TEMPERATURE_OUTSIDE_24H : TagData := numeric "TEMPERATURE_OUTSIDE_24H" "A3" false.
Definition TEMPERATURE_ROOM_TARGET : TagData := numeric "TEMPERATURE_ROOM_TARGET" "A100" true.

(** Modelled from the spec: the codec of an enable flag, whose source
    is not part of this development. The raw texts [0] and [1] decode
    to [False] and [True]; any other raw value is a decode error. *)
Definition decode_flag (vals : list (option string)) : pyval + exn :=
  match vals with
  | Some "0" :: _ => inl (PyBool false)
  | Some "1" :: _ => inl (PyBool true)
  | _ => inr ValueError
  end.

Definition encode_flag (tag0 : string) (v : pyval) (to_write : PyDict.t string)
  : PyDict.t string + exn :=
  match v with
  | PyBool b => inl (PyDict.set to_write tag0 (if b then "1" else "0"))
  | _ => inr ValueError
  end.

Definition HOLIDAY_ENABLED : TagData :=
  mkTagData "HOLIDAY_ENABLED" ["D420"] true false decode_flag (encode_flag "D420").

Definition dedup : list string -> list string := nodup string_dec.

(** ** Reading one reply, and the chunks of a read *)

(** The status and the value that the loop of [for_tags] records for
    one register code. *)
Definition tag_status (response tag : string) : string :=
  match search_block tag response with
  | Some (st, _) => st
  | None =>
      match search_inactive tag response with
      | None => "E_NOTFOUND"
      | Some _ => "E_INACTIVE"
      end
  end.

Definition tag_value (response tag : string) : option string :=
  match search_block tag response with
  | Some (_, v) => Some v
  | None => None
  end.

Definition record_values (response : string) (tags : list string) (r : raw_values)
  : raw_values :=
  fold_left (fun d t => PyDict.set d t (tag_value response t)) tags r.

Definition record_status (response : string) (tags : list string) (r : raw_status)
  : raw_status :=
  fold_left (fun d t => PyDict.set d t (tag_status response t)) tags r.

(** The sub-lists that the [while] loop of [_read_tags] hands to the
    recursive call when it runs [n] iterations at most with a chunk
    size [c], and the list that the loop leaves in [tags]. *)
Fixpoint loop_chunks (n c : nat) (tags : list string) : list (list string) :=
  match n with
  | O => []
  | S n' =>
      if (c <? length tags)%nat
      then firstn c tags :: loop_chunks n' c (skipn c tags)
      else []
  end.

Fixpoint loop_rest (n c : nat) (tags : list string) : list string :=
  match n with
  | O => tags
  | S n' =>
      if (c <? length tags)%nat then loop_rest n' c (skipn c tags) else tags
  end.

Definition chunks (c : nat) (tags : list string) : list (list string) :=
  loop_chunks (length tags) c tags ++ [loop_rest (length tags) c tags].

Definition body_of (r : reply) : string :=
  match r with
  | Response _ body _ => body
  | NoResponse => EmptyString
  end.

(** The history and the two dictionaries after one [readTags] call
    per chunk, each reply being recorded for the codes of its chunk. *)
Fixpoint run_chunks (dev : list request -> reply) (jar : option cookies)
    (chs : list (list string)) (h : list request) (r : raw_values) (rs : raw_status)
  : list request * raw_values * raw_status :=
  match chs with
  | [] => (h, r, rs)
  | ch :: rest =>
      let h' := h ++ [ReadTags jar ch] in
      let body := body_of (dev h') in
      run_chunks dev jar rest h' (record_values body ch r) (record_status body ch rs)
  end.

(** The dictionary that [_read_tags] starts from. *)
Definition or_empty {V : Type} (d : option (PyDict.t V)) : PyDict.t V :=
  match d with None => PyDict.empty | Some d' => d' end.

(** A reply body that starts with neither sentinel. *)
Definition plain (body : string) : bool :=
  negb (startswith body "#E_NEED_LOGIN") && negb (startswith body "#E_TOO_MANY_USERS").

(** From the state [s] on, the controller answers every call with a
    response whose body starts with neither sentinel. *)
Definition answers (s : state) : Prop :=
  forall h, exists code body jar,
    device s (log s ++ h) = Response code body jar /\ plain body = true.



(** From the state [s] on, the controller's replies are those of
    [script], one per request, and there is no response once the
    script is over. *)
Definition follows (s : state) (script : list reply) : Prop :=
  forall h, h <> [] -> device s (log s ++ h) = nth (length h - 1) script NoResponse.

(** [k] rounds of a reply [need] to the chunk and a reply [ok] to the
    login that follows, and then the replies [final]. *)
Fixpoint relogin_script (k : nat) (need ok : reply) (final : list reply) : list reply :=
  match k with
  | O => final
  | S k' => need :: ok :: relogin_script k' need ok final
  end.

(** The requests of a chunk that is asked for [k + 1] times, with a
    login after each of the first [k]: the first request carries the
    cookies [jar0], the later ones the cookies [jar] of the logins. *)
Fixpoint relogin_trace (k : nat) (chunk : option cookies -> request) (u p : string)
    (jar0 : option cookies) (jar : cookies) : list request :=
  match k with
  | O => [chunk jar0]
  | S k' => chunk jar0 :: Login u p :: relogin_trace k' chunk u p (Some jar) jar
  end.

(** Every register code of every descriptor of a batch is a key. *)
Definition covers {V : Type} (d : PyDict.t V) (ds : list TagData) : Prop :=
  forall a t, In a ds -> In t (tags a) -> PyDict.mem d t = true.

(** [list_set] enumerates the distinct members of a list. *)
Definition enumerates (list_set : list string -> list string) : Prop :=
  forall l, NoDup (list_set l) /\ forall x, In x (list_set l) <-> In x l.

(** A controller with one answer to everything. *)
Definition steady (body : string) : list request -> reply :=
  fun _ => Response 200 body "".

(** [ceil(n / c)] *)
Definition ceil_div (n c : nat) : nat := ((n + c - 1) / c)%nat.

Definition is_ReadTags (r : request) : bool :=
  match r with ReadTags _ _ => true | _ => false end.

Definition is_WriteTags (r : request) : bool :=
  match r with WriteTags _ _ _ => true | _ => false end.

Definition is_Login (r : request) : bool :=
  match r with Login _ _ => true | _ => false end.

Definition count (p : request -> bool) (h : list request) : nat :=
  length (filter p h).

(** ** Listings *)

(** Letters and digits, of which register codes are made. *)
Definition is_alnum (c : ascii) : bool :=
  let n := nat_of_ascii c in
  ((48 <=? n)%nat && (n <=? 57)%nat) || ((65 <=? n)%nat && (n <=? 90)%nat)
  || ((97 <=? n)%nat && (n <=? 122)%nat).

Definition not_hash (c : ascii) : bool := negb (Ascii.eqb c "#").

Fixpoint all_chars (p : ascii -> bool) (s : string) : bool :=
  match s with
  | EmptyString => true
  | String c r => p c && all_chars p r
  end.

Definition code_ok (t : string) : bool := all_chars is_alnum t.

Definition status_ok (st : string) : bool :=
  negb (is_empty st) && all_chars is_status_char st.

Definition digits_ok (d : string) : bool :=
  negb (is_empty d) && all_chars is_digit d.

(** A decimal integer with an optional minus sign. *)
Definition value_ok (v : string) : bool :=
  match v with
  | String c d => if Ascii.eqb c "-" then digits_ok d else digits_ok v
  | EmptyString => false
  end.

(** What a controller says about one register: a status and a value,
    or that the register is inactive. *)
Inductive cell : Type :=
| Active (st v : string)
| Inactive.

Definition cell_ok (c : cell) : bool :=
  match c with
  | Active st v => status_ok st && value_ok v
  | Inactive => true
  end.

Definition cell_text (tag : string) (c : cell) : string :=
  match c with
  | Active st v => block tag st v
  | Inactive => inactive_block tag
  end.

(** The body of a reply that lists the given registers, one block
    after the other. *)
Fixpoint listing (es : list (string * cell)) : string :=
  match es with
  | [] => EmptyString
  | (t, c) :: r => (cell_text t c ++ listing r)%string
  end.

Fixpoint lookup_cell (t : string) (es : list (string * cell)) : option cell :=
  match es with
  | [] => None
  | (t', c) :: r => if String.eqb t t' then Some c else lookup_cell t r
  end.

Definition entry_ok (e : string * cell) : bool :=
  code_ok (fst e) && cell_ok (snd e).

(** The status and the value that a read records for a cell, or for a
    register that the reply does not list. *)
Definition cell_status (c : option cell) : string :=
  match c with
  | Some (Active st _) => st
  | Some Inactive => "E_INACTIVE"
  | None => "E_NOTFOUND"
  end.

Definition cell_value (c : option cell) : option string :=
  match c with
  | Some (Active _ v) => Some v
  | _ => None
  end.

(** A controller that holds [table] and answers a read with the blocks
    of the requested registers that it holds, in the order of the
    table; every other call is answered with [#S_OK]. *)
Definition controller (table : list (string * cell)) : list request -> reply :=
  fun h =>
    match last h Logout with
    | ReadTags _ ts =>
        Response 200
          (listing (filter (fun e => existsb (String.eqb (fst e)) ts) table)) ""
    | _ => Response 200 "#S_OK" "IDALToken=1"
    end.

(** The controller answers the calls for the chunks [chs], asked one
    after the other from the history [h] on, with plain replies. *)
Fixpoint plain_run (dev : list request -> reply) (jar : option cookies)
    (h : list request) (chs : list (list string)) : Prop :=
  match chs with
  | [] => True
  | ch :: rest =>
      (exists code body j,
         dev (h ++ [ReadTags jar ch]) = Response code body j /\ plain body = true) /\
      plain_run dev jar (h ++ [ReadTags jar ch]) rest
  end.

(** ** The entries of a batch *)

(** The value that [read_values] leaves for a descriptor that decodes
    to [v]: the joined labels when the descriptor is to be translated,
    its first register has labels and the labels can be looked up, and
    [v] itself otherwise. *)
Definition shown_value (lm : PyDict.t (list string)) (a : TagData) (v : pyval) : pyval :=
  if translate a then
    match tags a with
    | [] => v
    | t0 :: _ =>
        match PyDict.get lm t0 with
        | None => v
        | Some value_map =>
            match translate_value value_map v with
            | inl final_value => PyStr final_value
            | inr _ => v
            end
        end
    end
  else v.

(** The entry of a descriptor in the result of [read_values], if it
    gets one: the shown value and the status of the first register. *)
Definition entry_of (lm : PyDict.t (list string)) (ev : raw_values) (es : raw_status)
    (a : TagData) : option Result :=
  match lookup_all ev (tags a), lookup_all es (tags a) with
  | inl tv, inl (st0 :: _) =>
      match decode_function a tv with
      | inl v => Some (mkResult (shown_value lm a v) st0)
      | inr _ => None
      end
  | _, _ => None
  end.

Definition entries_of (lm : PyDict.t (list string)) (ev : raw_values) (es : raw_status)
    (ds : list TagData) : PyDict.t Result :=
  flat_map (fun a => match entry_of lm ev es a with
                     | Some e => [(name a, e)]
                     | None => []
                     end) ds.

(** The labels of the bits that are set. *)
Definition selected (bits : list bool) (labels : list string) : list string :=
  map snd (filter fst (combine bits labels)).

(** ** Positions in a reply *)

(** The text [pre] ends where a line starts: it is empty (and [b]
    tells whether it starts at a line start itself) or ends in a
    newline. *)
Fixpoint at_line_start (b : bool) (pre : string) : bool :=
  match pre with
  | EmptyString => b
  | String c r => at_line_start (Ascii.eqb c NL) r
  end.

(** The text does not go on with a character of [[A-Z_]]. *)
Definition status_ends (post : string) : bool :=
  match post with
  | EmptyString => true
  | String c _ => negb (is_status_char c)
  end.

(** The entry that a descriptor gets when its registers are read from
    a controller that holds [table]: the decoding of what the table
    holds for the descriptor's registers, with the status of the first
    one. *)
Definition entry_of_table (lm : PyDict.t (list string)) (table : list (string * cell))
    (a : TagData) : option Result :=
  match map (fun t => cell_status (lookup_cell t table)) (tags a) with
  | [] => None
  | st0 :: _ =>
      match decode_function a (map (fun t => cell_value (lookup_cell t table)) (tags a)) with
      | inl v => Some (mkResult (shown_value lm a v) st0)
      | inr _ => None
      end
  end.

(** ** Session: [login] and [logout] *)

Lemma http_get_eq (r : request) (s : state) :
  http_get r s =
  (match device s (log s ++ [r]) with
   | Response code body jar => Ok (code, body, jar)
   | NoResponse => Raise ClientError
   end, mkState (self s) (device s) (log s ++ [r])).
Proof.
  unfold http_get. destruct (device s (log s ++ [r])); reflexivity.
Qed.

(** What [login] leaves behind, whatever the controller answers. *)
Lemma login_frame (u p : string) (s : state) :
  let s' := snd (login u p s) in
  device s' = device s /\ log s' = log s ++ [Login u p] /\
  hostname (self s') = hostname (self s) /\
  tagsPerRequest (self s') = tagsPerRequest (self s) /\
  lang_map (self s') = lang_map (self s) /\
  username (self s') = u /\ password (self s') = p.
Proof.
  unfold login, bind, set_credentials. rewrite http_get_eq. cbn.
  destruct (device s (log s ++ [Login u p])) as [code body jar|]; cbn.
  - destruct (code =? 200)%Z; cbn; [|tauto].
    unfold get_status_response.
    destruct (search_status true body) as [g|]; cbn; [|tauto].
    destruct (String.eqb g "S_OK"); cbn; [tauto|].
    destruct (startswith g "E_TOO_MANY_USERS"); cbn; tauto.
  - tauto.
Qed.

(** C10. [login] stores the supplied user name and password whatever
    the outcome of the HTTP call is: they are the bridge's credentials
    after a login that ends in any exception (no response, a status
    other than 200, an unparsable body, a status other than [S_OK]) as
    well as after a successful one. The cookie changes only when
    [login] returns normally, which happens only for a 200 response
    whose status line is [S_OK], and it then becomes that response's
    cookies; in every other case the cookie is the one held before. *)
Theorem login_stores_credentials_first (u p : string) (s : state) :
  let r := login u p s in
  username (self (snd r)) = u /\
  password (self (snd r)) = p /\
  log (snd r) = log s ++ [Login u p] /\
  (fst r = Ok tt ->
     exists body jar,
       device s (log s ++ [Login u p]) = Response 200 body jar /\
       search_status true body = Some "S_OK" /\
       auth_cookies (self (snd r)) = Some jar) /\
  (fst r <> Ok tt -> auth_cookies (self (snd r)) = auth_cookies (self s)).
Proof.
  unfold login, bind, set_credentials. rewrite http_get_eq. cbn.
  destruct (device s (log s ++ [Login u p])) as [code body jar|]; cbn.
  - destruct (Z.eqb_spec code 200) as [->|Hc]; cbn.
    + unfold get_status_response.
      destruct (search_status true body) as [g|] eqn:Hg; cbn.
      * destruct (String.eqb_spec g "S_OK") as [->|Hn]; cbn.
        -- repeat split; try reflexivity.
           ++ intros _. exists body, jar. repeat split; assumption.
           ++ intros H. contradiction H. reflexivity.
        -- destruct (startswith g "E_TOO_MANY_USERS"); cbn;
             repeat split; try reflexivity; intros H; discriminate H.
      * repeat split; try reflexivity; intros H; discriminate H.
    + repeat split; try reflexivity; intros H; discriminate H.
  - repeat split; try reflexivity; intros H; discriminate H.
Qed.

(** C7, as amended. [logout] clears the cookie whenever the logout
    call comes back with a response, whatever its HTTP status and
    body; when the call gets no response the exception leaves
    [logout] before the assignment and the cookie is the one held
    before. *)
Theorem logout_clears_cookie_on_response (s : state) :
  match device s (log s ++ [Logout]) with
  | Response _ _ _ =>
      fst (logout s) = Ok tt /\ auth_cookies (self (snd (logout s))) = None
  | NoResponse =>
      fst (logout s) = Raise ClientError /\
      auth_cookies (self (snd (logout s))) = auth_cookies (self s)
  end.
Proof.
  unfold logout, bind. rewrite http_get_eq.
  destruct (device s (log s ++ [Logout])); cbn; split; reflexivity.
Qed.

(** C7, counterexample. A bridge that holds the cookie [IDALToken=1]
    and whose logout call gets no response still holds that cookie
    after [logout], which ends in [ClientError]. *)
Lemma logout_keeps_cookie_without_response :
  let s := mkState (mkBridge "192.168.0.2" "waterkotte" "waterkotte" 10
                      (Some "IDALToken=1") []) (scripted []) [] in
  fst (logout s) = Raise ClientError /\
  auth_cookies (self (snd (logout s))) = Some "IDALToken=1" /\
  auth_cookies (self (snd (logout s))) <> None.
Proof.
  cbn. repeat split; try reflexivity. discriminate.
Qed.

(** ** Writing *)

(** C6. Writing a descriptor that is not writeable raises
    [InvalidValueException] and leaves the whole state as it was: the
    bridge is unchanged and no request has been added to the log. The
    outcome is the same whatever room the recursion limit leaves and
    does not involve the descriptor's encoder. *)
Theorem write_value_readonly_raises (depth : nat) (tag : TagData) (v : pyval) (s : state) :
  writeable tag = false ->
  write_value depth tag v s = (Raise InvalidValueException, s).
Proof.
  intros H. unfold write_value, write_values. cbn. rewrite H. reflexivity.
Qed.

Lemma write_value_readonly_raises_witness :
  writeable TEMPERATURE_OUTSIDE = false /\
  write_value 5 TEMPERATURE_OUTSIDE (PyFloat 215) (start 10 plant)
  = (Raise InvalidValueException, start 10 plant).
Proof.
  split; [reflexivity|].
  apply (write_value_readonly_raises 5 TEMPERATURE_OUTSIDE (PyFloat 215) (start 10 plant)).
  reflexivity.
Defined.

(** ** Reading: one chunk *)

Lemma for_tags_eq (response : string) (tags : list string)
    (r : raw_values) (rs : raw_status) (s : state) :
  for_tags response tags (Some r) (Some rs) s =
  (Ok (Some (record_values response tags r), Some (record_status response tags rs)), s).
Proof.
  revert r rs. induction tags as [|t tags IH]; intros r rs; [reflexivity|].
  cbn [for_tags record_values record_status fold_left].
  unfold tag_value, tag_status.
  destruct (search_block t response) as [[st v]|]; cbn; apply IH.
Qed.

Lemma read_tags_S (d f : nat) (tags : list string)
    (results : option raw_values) (results_status : option raw_status) :
  _read_tags (S d) f tags results results_status =
  (let results :=
     match results with None => Some PyDict.empty | Some _ => results end in
   let results_status :=
     match results_status with None => Some PyDict.empty | Some _ => results_status end in
   l <- while_chunks (_read_tags d f) f tags results results_status ;;
   let '(tags, results, results_status) := l in
   b <- get_self ;;
   resp <- http_get (ReadTags (auth_cookies b) tags) ;;
   let '(_, response, _) := resp in
   if startswith response "#E_NEED_LOGIN" then
     try_except
       (b <- get_self ;;
        login (username b) (password b) ;;
        _read_tags d f tags results results_status)
       is_StatusException
       (fun _ => ret (RPair None None))
   else if startswith response "#E_TOO_MANY_USERS" then ret RNone
   else
     r <- for_tags response tags results results_status ;;
     ret (RPair (fst r) (snd r))).
Proof. reflexivity. Qed.

Lemma while_chunks_S
    (rec : list string -> option raw_values -> option raw_status -> M tags_result)
    (n : nat) (tags : list string) (r : option raw_values) (rs : option raw_status) :
  while_chunks rec (S n) tags r rs =
  (b <- get_self ;;
   if (Z.of_nat (length tags) >? tagsPerRequest b)%Z then
     x <- rec (slice_to (tagsPerRequest b) tags) r rs ;;
     p <- unpack x ;;
     while_chunks rec n (slice_from (tagsPerRequest b) tags) (fst p) (snd p)
   else ret (tags, r, rs)).
Proof. reflexivity. Qed.

Lemma while_chunks_stop
    (rec : list string -> option raw_values -> option raw_status -> M tags_result)
    (n : nat) (tags : list string) (r : option raw_values) (rs : option raw_status)
    (s : state) :
  (Z.of_nat (length tags) <= tagsPerRequest (self s))%Z ->
  while_chunks rec (S n) tags r rs s = (Ok (tags, r, rs), s).
Proof.
  intros H. rewrite while_chunks_S. unfold bind, get_self.
  destruct (Z.gtb_spec (Z.of_nat (length tags)) (tagsPerRequest (self s))); [lia|].
  reflexivity.
Qed.

Lemma plain_inv (body : string) :
  plain body = true ->
  startswith body "#E_NEED_LOGIN" = false /\ startswith body "#E_TOO_MANY_USERS" = false.
Proof.
  unfold plain. intros H. apply andb_true_iff in H. destruct H as [H1 H2].
  apply negb_true_iff in H1. apply negb_true_iff in H2. auto.
Qed.

(** The body of [_read_tags] after its loop, on a plain reply. *)
Lemma read_tags_one_chunk (d f : nat) (tags : list string)
    (r : option raw_values) (rs : option raw_status) (s : state)
    (code : Z) (body : string) (jar : cookies) :
  (Z.of_nat (length tags) <= tagsPerRequest (self s))%Z ->
  device s (log s ++ [ReadTags (auth_cookies (self s)) tags]) = Response code body jar ->
  plain body = true ->
  _read_tags (S d) (S f) tags r rs s =
  (Ok (RPair (Some (record_values body tags (or_empty r)))
             (Some (record_status body tags (or_empty rs)))),
   mkState (self s) (device s) (log s ++ [ReadTags (auth_cookies (self s)) tags])).
Proof.
  intros Hlen Hdev Hplain. rewrite read_tags_S. cbv zeta.
  unfold bind at 1. rewrite while_chunks_stop by assumption.
  unfold bind at 1. unfold get_self at 1.
  unfold bind at 1. rewrite http_get_eq. rewrite Hdev.
  destruct (plain_inv _ Hplain) as [H1 H2]. rewrite H1, H2.
  unfold bind.
  replace (match r with None => Some PyDict.empty | Some _ => r end)
    with (Some (or_empty r)) by (destruct r; reflexivity).
  replace (match rs with None => Some PyDict.empty | Some _ => rs end)
    with (Some (or_empty rs)) by (destruct rs; reflexivity).
  rewrite for_tags_eq. reflexivity.
Qed.

(** ** Reading: the chunk loop *)

Lemma slice_to_nat {A : Type} (c : nat) (l : list A) :
  slice_to (Z.of_nat c) l = firstn c l.
Proof.
  unfold slice_to. destruct (Z.leb_spec 0 (Z.of_nat c)); [|lia].
  rewrite Nat2Z.id. reflexivity.
Qed.

Lemma slice_from_nat {A : Type} (c : nat) (l : list A) :
  slice_from (Z.of_nat c) l = skipn c l.
Proof.
  unfold slice_from. destruct (Z.leb_spec 0 (Z.of_nat c)); [|lia].
  rewrite Nat2Z.id. reflexivity.
Qed.

Lemma answers_step (s : state) (r : request) :
  answers s -> answers (mkState (self s) (device s) (log s ++ [r])).
Proof.
  intros H h. cbn. rewrite <- app_assoc. apply H.
Qed.

Lemma answers_now (s : state) (r : request) :
  answers s ->
  exists code body jar,
    device s (log s ++ [r]) = Response code body jar /\ plain body = true /\
    body = body_of (device s (log s ++ [r])).
Proof.
  intros H. destruct (H [r]) as (code & body & jar & Hd & Hp).
  exists code, body, jar. rewrite Hd. auto.
Qed.

Lemma while_chunks_run (c d f n : nat) :
  (1 <= c)%nat ->
  forall (tags : list string) (r : raw_values) (rs : raw_status) (s : state),
    answers s ->
    tagsPerRequest (self s) = Z.of_nat c ->
    (length tags <= n)%nat ->
    while_chunks (_read_tags (S d) (S f)) (S n) tags (Some r) (Some rs) s =
    (let '(h, r', rs') :=
       run_chunks (device s) (auth_cookies (self s)) (loop_chunks n c tags) (log s) r rs in
     (Ok (loop_rest n c tags, Some r', Some rs'), mkState (self s) (device s) h)).
Proof.
  intros Hc. induction n as [|n IH]; intros tags r rs s Hans Htpr Hlen.
  - rewrite while_chunks_stop by (rewrite Htpr; lia).
    cbn. destruct s; reflexivity.
  - cbn [loop_chunks loop_rest].
    destruct (Nat.ltb_spec c (length tags)) as [Hlt|Hge].
    + rewrite while_chunks_S. unfold bind at 1. unfold get_self at 1.
      destruct (Z.gtb_spec (Z.of_nat (length tags)) (tagsPerRequest (self s))) as [_|Hn];
        [|rewrite Htpr in Hn; lia].
      rewrite Htpr, slice_to_nat, slice_from_nat.
      destruct (answers_now s (ReadTags (auth_cookies (self s)) (firstn c tags)) Hans)
        as (code & body & jar & Hd & Hp & Hb).
      unfold bind at 1.
      rewrite (read_tags_one_chunk d f (firstn c tags) (Some r) (Some rs) s code body jar);
        [| rewrite Htpr, length_firstn; lia | exact Hd | exact Hp].
      cbn [unpack or_empty]. unfold bind at 1. cbn [ret fst snd].
      rewrite IH.
      * cbn [run_chunks self device log]. rewrite <- Hb. reflexivity.
      * apply answers_step. exact Hans.
      * exact Htpr.
      * cbn. rewrite length_skipn. lia.
    + rewrite while_chunks_stop by (rewrite Htpr; lia).
      cbn. destruct s; reflexivity.
Qed.

Lemma run_chunks_app (dev : list request -> reply) (jar : option cookies)
    (a b : list (list string)) (h : list request) (r : raw_values) (rs : raw_status) :
  run_chunks dev jar (a ++ b) h r rs =
  (let '(h', r', rs') := run_chunks dev jar a h r rs in run_chunks dev jar b h' r' rs').
Proof.
  revert h r rs. induction a as [|ch a IH]; intros h r rs; [reflexivity|].
  cbn. apply IH.
Qed.

Lemma run_chunks_log (dev : list request -> reply) (jar : option cookies)
    (chs : list (list string)) (h : list request) (r : raw_values) (rs : raw_status) :
  fst (fst (run_chunks dev jar chs h r rs)) = h ++ map (ReadTags jar) chs.
Proof.
  revert h r rs. induction chs as [|ch chs IH]; intros h r rs.
  - cbn. rewrite app_nil_r. reflexivity.
  - cbn. rewrite IH, <- app_assoc. reflexivity.
Qed.

Lemma loop_fuel (c : nat) :
  (1 <= c)%nat ->
  forall (n m : nat) (tags : list string),
    (length tags <= n)%nat -> (length tags <= m)%nat ->
    loop_chunks n c tags = loop_chunks m c tags /\
    loop_rest n c tags = loop_rest m c tags.
Proof.
  intros Hc. induction n as [|n IH]; intros m tags Hn Hm.
  - destruct tags; [|cbn in Hn; lia].
    destruct m; split; reflexivity.
  - destruct m as [|m].
    + destruct tags; [|cbn in Hm; lia].
      split; reflexivity.
    + cbn [loop_chunks loop_rest].
      destruct (Nat.ltb_spec c (length tags)) as [Hlt|Hge]; [|auto].
      destruct (IH m (skipn c tags)) as [E1 E2];
        try (rewrite length_skipn; lia).
      rewrite E1, E2. auto.
Qed.

(** A read against a controller that answers plainly: the outcome is
    the one of [run_chunks] over [chunks]. *)
Lemma read_tags_plain (c d f : nat) (tags : list string) (s : state) :
  (1 <= c)%nat ->
  answers s ->
  tagsPerRequest (self s) = Z.of_nat c ->
  (2 <= d)%nat ->
  (length tags + 1 <= f)%nat ->
  _read_tags d f tags None None s =
  (let '(h, r, rs) :=
     run_chunks (device s) (auth_cookies (self s)) (chunks c tags) (log s)
       PyDict.empty PyDict.empty in
   (Ok (RPair (Some r) (Some rs)), mkState (self s) (device s) h)).
Proof.
  intros Hc Hans Htpr Hd2 Hf.
  destruct d as [|[|d]]; try lia.
  destruct f as [|f]; try lia.
  rewrite read_tags_S. cbv zeta. unfold bind at 1.
  rewrite (while_chunks_run c d f f Hc) by (auto; lia).
  unfold chunks. rewrite run_chunks_app.
  destruct (loop_fuel c Hc f (length tags) tags) as [E1 E2]; try lia.
  rewrite E1, E2.
  destruct (run_chunks (device s) (auth_cookies (self s))
              (loop_chunks (length tags) c tags) (log s) PyDict.empty PyDict.empty)
    as [[h r] rs] eqn:Hrun.
  set (last := loop_rest (length tags) c tags).
  set (s1 := mkState (self s) (device s) h).
  assert (Hh : h = log s ++ map (ReadTags (auth_cookies (self s)))
                               (loop_chunks (length tags) c tags)).
  { rewrite <- (run_chunks_log (device s) (auth_cookies (self s)) _ (log s)
                  PyDict.empty PyDict.empty), Hrun. reflexivity. }
  destruct (Hans (map (ReadTags (auth_cookies (self s)))
                      (loop_chunks (length tags) c tags)
                  ++ [ReadTags (auth_cookies (self s)) last]))
    as (code & body & jar & Hd & Hp).
  rewrite app_assoc, <- Hh in Hd.
  unfold bind at 1. unfold get_self at 1.
  unfold bind at 1. rewrite http_get_eq. cbn [self device log s1]. rewrite Hd.
  destruct (plain_inv _ Hp) as [H1 H2]. rewrite H1, H2.
  unfold bind. rewrite for_tags_eq. cbn [run_chunks fst snd ret].
  rewrite Hd. reflexivity.
Qed.

(** ** Dictionaries *)

Module PyDictFacts.
Import PyDict.

Lemma get_set_same {V : Type} (d : t V) (k : string) (v : V) :
  get (set d k v) k = Some v.
Proof.
  induction d as [|[k' v'] d IH]; cbn.
  - rewrite String.eqb_refl. reflexivity.
  - destruct (String.eqb k k') eqn:E; cbn; rewrite E; auto.
Qed.

Lemma get_set_other {V : Type} (d : t V) (k k' : string) (v : V) :
  k <> k' -> get (set d k v) k' = get d k'.
Proof.
  intros Hne. induction d as [|[k0 v0] d IH]; cbn.
  - destruct (String.eqb_spec k' k); [congruence|reflexivity].
  - destruct (String.eqb_spec k k0) as [->|Hk]; cbn.
    + destruct (String.eqb_spec k' k0); [congruence|reflexivity].
    + destruct (String.eqb_spec k' k0); auto.
Qed.

Lemma get_None_iff {V : Type} (d : t V) (k : string) :
  get d k = None <-> ~ In k (keys d).
Proof.
  induction d as [|[k0 v0] d IH]; cbn.
  - tauto.
  - destruct (String.eqb_spec k k0) as [->|Hk].
    + split; [discriminate|]. intros H. exfalso. apply H. auto.
    + rewrite IH. split; intros H; [intros [E|I]; [congruence|auto]|tauto].
Qed.

Lemma keys_set {V : Type} (d : t V) (k : string) (v : V) :
  keys (set d k v) = if mem d k then keys d else keys d ++ [k].
Proof.
  unfold mem, keys. induction d as [|[k0 v0] d IH]; cbn; [reflexivity|].
  destruct (String.eqb_spec k k0) as [->|Hk]; cbn; [reflexivity|].
  rewrite IH. destruct (get d k); reflexivity.
Qed.

Lemma mem_set {V : Type} (d : t V) (k k' : string) (v : V) :
  mem (set d k v) k' = String.eqb k k' || mem d k'.
Proof.
  unfold mem. destruct (String.eqb_spec k k') as [->|Hne].
  - rewrite get_set_same. reflexivity.
  - rewrite get_set_other by assumption. reflexivity.
Qed.

(** Recording a value for each code of a list. *)
Lemma fold_set_get_or {V : Type} (g : string -> V) (ks : list string) (d : t V) (k : string) :
  In k ks \/ get d k = Some (g k) ->
  get (fold_left (fun d t => set d t (g t)) ks d) k = Some (g k).
Proof.
  revert d. induction ks as [|k0 ks IH]; intros d H.
  - destruct H as [[]|H]. exact H.
  - cbn [fold_left]. apply IH.
    destruct (string_dec k0 k) as [->|Hne].
    + right. apply get_set_same.
    + destruct H as [[E|Hin]|Hd]; [contradiction|left; exact Hin|].
      right. rewrite get_set_other by exact Hne. exact Hd.
Qed.

Lemma fold_set_get_in {V : Type} (g : string -> V) (ks : list string) (d : t V) (k : string) :
  In k ks -> get (fold_left (fun d t => set d t (g t)) ks d) k = Some (g k).
Proof. intros H. apply fold_set_get_or. left. exact H. Qed.

Lemma fold_set_get_out {V : Type} (g : string -> V) (ks : list string) (d : t V) (k : string) :
  ~ In k ks -> get (fold_left (fun d t => set d t (g t)) ks d) k = get d k.
Proof.
  revert d. induction ks as [|k0 ks IH]; intros d Hn; [reflexivity|].
  cbn. cbn in Hn. rewrite IH by tauto. apply get_set_other. tauto.
Qed.

Lemma fold_set_keys {V : Type} (g : string -> V) (ks : list string) (d : t V) :
  NoDup ks -> (forall k, In k ks -> ~ In k (keys d)) ->
  keys (fold_left (fun d t => set d t (g t)) ks d) = keys d ++ ks.
Proof.
  revert d. induction ks as [|k0 ks IH]; intros d Hnd Hdis.
  - cbn [fold_left]. rewrite app_nil_r. reflexivity.
  - cbn [fold_left]. inversion Hnd as [|? ? Hk0 Hnd']; subst.
    assert (Hm : mem d k0 = false).
    { unfold mem. destruct (get d k0) eqn:E; [|reflexivity].
      exfalso. apply (Hdis k0 (or_introl eq_refl)).
      destruct (in_dec string_dec k0 (keys d)) as [Hi|Hni]; [exact Hi|].
      apply get_None_iff in Hni. congruence. }
    rewrite IH.
    + rewrite keys_set, Hm, <- app_assoc. reflexivity.
    + exact Hnd'.
    + intros k Hk. rewrite keys_set, Hm. intros Hin.
      apply in_app_or in Hin. destruct Hin as [Hin|[<-|[]]].
      * apply (Hdis k (or_intror Hk)). exact Hin.
      * contradiction.
Qed.

End PyDictFacts.

(** ** The chunks of a read *)

Lemma loop_concat (c n : nat) (tags : list string) :
  concat (loop_chunks n c tags) ++ loop_rest n c tags = tags.
Proof.
  revert tags. induction n as [|n IH]; intros tags; [reflexivity|].
  cbn [loop_chunks loop_rest].
  destruct (c <? length tags)%nat; [|reflexivity].
  cbn [concat]. rewrite <- app_assoc, IH. apply firstn_skipn.
Qed.

Lemma chunks_concat (c : nat) (tags : list string) :
  concat (chunks c tags) = tags.
Proof.
  unfold chunks. rewrite concat_app. cbn [concat]. rewrite app_nil_r.
  apply loop_concat.
Qed.

Lemma ceil_div_small (n c : nat) :
  (1 <= n)%nat -> (n <= c)%nat -> ceil_div n c = 1%nat.
Proof.
  intros H1 H2. unfold ceil_div.
  replace (n + c - 1)%nat with (n - 1 + 1 * c)%nat by lia.
  rewrite Nat.div_add by lia. rewrite Nat.div_small by lia. reflexivity.
Qed.

Lemma ceil_div_step (n c : nat) :
  (1 <= c)%nat -> (c < n)%nat -> ceil_div n c = S (ceil_div (n - c) c).
Proof.
  intros H1 H2. unfold ceil_div.
  replace (n + c - 1)%nat with (n - c + c - 1 + 1 * c)%nat by lia.
  rewrite Nat.div_add by lia. lia.
Qed.

Lemma loop_chunks_length (c : nat) :
  (1 <= c)%nat ->
  forall (n : nat) (tags : list string),
    (1 <= length tags)%nat -> (length tags <= n)%nat ->
    S (length (loop_chunks n c tags)) = ceil_div (length tags) c.
Proof.
  intros Hc. induction n as [|n IH]; intros tags H1 Hn; [lia|].
  cbn [loop_chunks].
  destruct (Nat.ltb_spec c (length tags)) as [Hlt|Hge].
  - cbn [length]. rewrite IH by (rewrite length_skipn; lia).
    rewrite length_skipn. symmetry. apply ceil_div_step; assumption.
  - cbn [length]. symmetry. apply ceil_div_small; assumption.
Qed.

Lemma chunks_length (c : nat) (tags : list string) :
  (1 <= c)%nat -> (1 <= length tags)%nat ->
  length (chunks c tags) = ceil_div (length tags) c.
Proof.
  intros Hc H1. unfold chunks. rewrite length_app. cbn [length].
  rewrite Nat.add_1_r. apply loop_chunks_length; auto.
Qed.

Lemma loop_sizes (c : nat) :
  (1 <= c)%nat ->
  forall (n : nat) (tags : list string),
    (length tags <= n)%nat ->
    Forall (fun ch => length ch = c) (loop_chunks n c tags) /\
    (length (loop_rest n c tags) <= c)%nat /\
    (1 <= length tags -> 1 <= length (loop_rest n c tags))%nat.
Proof.
  intros Hc. induction n as [|n IH]; intros tags Hn.
  - cbn. repeat split; [constructor|lia|auto].
  - cbn [loop_chunks loop_rest].
    destruct (Nat.ltb_spec c (length tags)) as [Hlt|Hge].
    + destruct (IH (skipn c tags)) as (F & L & P); [rewrite length_skipn; lia|].
      repeat split.
      * constructor; [rewrite length_firstn; lia|exact F].
      * exact L.
      * intros _. apply P. rewrite length_skipn. lia.
    + repeat split; [constructor|exact Hge|auto].
Qed.

Lemma chunks_sizes (c : nat) (tags : list string) :
  (1 <= c)%nat -> (1 <= length tags)%nat ->
  Forall (fun ch => 1 <= length ch <= c)%nat (chunks c tags).
Proof.
  intros Hc H1. unfold chunks.
  destruct (loop_sizes c Hc (length tags) tags (le_n _)) as (F & L & P).
  apply Forall_app. split.
  - eapply Forall_impl; [|exact F]. cbn. intros a Ha. lia.
  - constructor; [|constructor]. split; [apply P; exact H1|exact L].
Qed.

(** ** What a plain read records *)

Lemma NoDup_app_parts {A : Type} (l1 l2 : list A) :
  NoDup (l1 ++ l2) ->
  NoDup l1 /\ NoDup l2 /\ (forall a, In a l1 -> ~ In a l2).
Proof.
  intros H. split; [eapply NoDup_app_remove_r; exact H|].
  split; [eapply NoDup_app_remove_l; exact H|].
  induction l1 as [|x l1 IH]; intros a Hin; [destruct Hin|].
  cbn in H. inversion H as [|? ? Hx Hnd]; subst.
  destruct Hin as [->|Hin].
  - intros Hin2. apply Hx. apply in_or_app. right. exact Hin2.
  - apply IH; assumption.
Qed.

Lemma run_chunks_get_out (dev : list request -> reply) (jar : option cookies)
    (chs : list (list string)) (h : list request) (r : raw_values) (rs : raw_status)
    (t : string) :
  ~ In t (concat chs) ->
  PyDict.get (snd (fst (run_chunks dev jar chs h r rs))) t = PyDict.get r t /\
  PyDict.get (snd (run_chunks dev jar chs h r rs)) t = PyDict.get rs t.
Proof.
  revert h r rs. induction chs as [|ch chs IH]; intros h r rs Hn; [split; reflexivity|].
  cbn [run_chunks]. cbn [concat] in Hn.
  destruct (IH (h ++ [ReadTags jar ch])
              (record_values (body_of (dev (h ++ [ReadTags jar ch]))) ch r)
              (record_status (body_of (dev (h ++ [ReadTags jar ch]))) ch rs)) as [E1 E2].
  { intros Hin. apply Hn. apply in_or_app. right. exact Hin. }
  rewrite E1, E2. unfold record_values, record_status.
  split; apply PyDictFacts.fold_set_get_out; intros Hin; apply Hn; apply in_or_app; left; exact Hin.
Qed.

Lemma run_chunks_entry (dev : list request -> reply) (jar : option cookies)
    (chs : list (list string)) (h : list request) (r : raw_values) (rs : raw_status)
    (t : string) :
  NoDup (concat chs) -> In t (concat chs) ->
  exists pre ch post,
    chs = pre ++ ch :: post /\ In t ch /\
    let body := body_of (dev (h ++ map (ReadTags jar) (pre ++ [ch]))) in
    PyDict.get (snd (fst (run_chunks dev jar chs h r rs))) t = Some (tag_value body t) /\
    PyDict.get (snd (run_chunks dev jar chs h r rs)) t = Some (tag_status body t).
Proof.
  revert h r rs. induction chs as [|ch chs IH]; intros h r rs Hnd Hin; [destruct Hin|].
  cbn [concat] in Hnd, Hin. apply NoDup_app_parts in Hnd. destruct Hnd as (Hch & Hrest & Hdis).
  apply in_app_or in Hin. destruct Hin as [Hin|Hin].
  - exists [], ch, chs. split; [reflexivity|]. split; [exact Hin|].
    cbn [run_chunks app map].
    destruct (run_chunks_get_out dev jar chs (h ++ [ReadTags jar ch])
                (record_values (body_of (dev (h ++ [ReadTags jar ch]))) ch r)
                (record_status (body_of (dev (h ++ [ReadTags jar ch]))) ch rs) t)
      as [E1 E2]; [apply Hdis; exact Hin|].
    cbv zeta. rewrite E1, E2. unfold record_values, record_status.
    split; apply PyDictFacts.fold_set_get_in; exact Hin.
  - destruct (IH (h ++ [ReadTags jar ch])
                (record_values (body_of (dev (h ++ [ReadTags jar ch]))) ch r)
                (record_status (body_of (dev (h ++ [ReadTags jar ch]))) ch rs) Hrest Hin)
      as (pre & ch' & post & E & Hin' & G).
    exists (ch :: pre), ch', post. split; [rewrite E; reflexivity|]. split; [exact Hin'|].
    cbn [run_chunks]. cbn [app map]. rewrite <- app_assoc in G. exact G.
Qed.

Lemma run_chunks_keys (dev : list request -> reply) (jar : option cookies)
    (chs : list (list string)) (h : list request) (r : raw_values) (rs : raw_status) :
  NoDup (concat chs) ->
  (forall k, In k (concat chs) -> ~ In k (PyDict.keys r)) ->
  (forall k, In k (concat chs) -> ~ In k (PyDict.keys rs)) ->
  PyDict.keys (snd (fst (run_chunks dev jar chs h r rs))) = PyDict.keys r ++ concat chs /\
  PyDict.keys (snd (run_chunks dev jar chs h r rs)) = PyDict.keys rs ++ concat chs.
Proof.
  revert h r rs. induction chs as [|ch chs IH]; intros h r rs Hnd H1 H2.
  - cbn. rewrite !app_nil_r. split; reflexivity.
  - cbn [concat] in *. apply NoDup_app_parts in Hnd. destruct Hnd as (Hch & Hrest & Hdis).
    cbn [run_chunks].
    assert (K1 : PyDict.keys (record_values (body_of (dev (h ++ [ReadTags jar ch]))) ch r)
                 = PyDict.keys r ++ ch).
    { apply PyDictFacts.fold_set_keys; [exact Hch|].
      intros k Hk. apply H1. apply in_or_app. left. exact Hk. }
    assert (K2 : PyDict.keys (record_status (body_of (dev (h ++ [ReadTags jar ch]))) ch rs)
                 = PyDict.keys rs ++ ch).
    { apply PyDictFacts.fold_set_keys; [exact Hch|].
      intros k Hk. apply H2. apply in_or_app. left. exact Hk. }
    destruct (IH (h ++ [ReadTags jar ch])
                (record_values (body_of (dev (h ++ [ReadTags jar ch]))) ch r)
                (record_status (body_of (dev (h ++ [ReadTags jar ch]))) ch rs) Hrest)
      as [E1 E2].
    + intros k Hk. rewrite K1. intros Hin. apply in_app_or in Hin. destruct Hin as [Hin|Hin].
      * apply (H1 k); [apply in_or_app; right; exact Hk|exact Hin].
      * apply (Hdis k Hin Hk).
    + intros k Hk. rewrite K2. intros Hin. apply in_app_or in Hin. destruct Hin as [Hin|Hin].
      * apply (H2 k); [apply in_or_app; right; exact Hk|exact Hin].
      * apply (Hdis k Hin Hk).
    + rewrite E1, E2, K1, K2, <- !app_assoc. split; reflexivity.
Qed.

Lemma keys_length {V : Type} (d : PyDict.t V) : length (PyDict.keys d) = length d.
Proof. unfold PyDict.keys. apply length_map. Qed.

(** A read of distinct codes against a controller that answers
    plainly: the outcome, the requests and the two dictionaries. *)
Lemma read_tags_plain_summary (c d f : nat) (tags : list string) (s : state) :
  (1 <= c)%nat ->
  NoDup tags ->
  answers s ->
  tagsPerRequest (self s) = Z.of_nat c ->
  (2 <= d)%nat ->
  (length tags + 1 <= f)%nat ->
  exists r rs s',
    _read_tags d f tags None None s = (Ok (RPair (Some r) (Some rs)), s') /\
    self s' = self s /\ device s' = device s /\
    log s' = log s ++ map (ReadTags (auth_cookies (self s))) (chunks c tags) /\
    PyDict.keys r = tags /\ PyDict.keys rs = tags /\
    forall t, In t tags ->
      exists pre ch post,
        chunks c tags = pre ++ ch :: post /\ In t ch /\
        let body :=
          body_of (device s (log s ++ map (ReadTags (auth_cookies (self s))) (pre ++ [ch]))) in
        PyDict.get r t = Some (tag_value body t) /\
        PyDict.get rs t = Some (tag_status body t).
Proof.
  intros Hc Hnd Hans Htpr Hd Hf.
  pose proof (read_tags_plain c d f tags s Hc Hans Htpr Hd Hf) as E.
  pose proof (run_chunks_log (device s) (auth_cookies (self s)) (chunks c tags) (log s)
                PyDict.empty PyDict.empty) as L.
  pose proof (chunks_concat c tags) as C.
  assert (Hnd' : NoDup (concat (chunks c tags))) by (rewrite C; exact Hnd).
  pose proof (run_chunks_keys (device s) (auth_cookies (self s)) (chunks c tags) (log s)
                PyDict.empty PyDict.empty Hnd'
                (fun k _ (H : In k []) => H) (fun k _ (H : In k []) => H)) as K.
  pose proof (fun t => run_chunks_entry (device s) (auth_cookies (self s)) (chunks c tags)
                (log s) PyDict.empty PyDict.empty t Hnd') as G.
  destruct (run_chunks (device s) (auth_cookies (self s)) (chunks c tags) (log s)
              PyDict.empty PyDict.empty) as [[h r] rs].
  cbn [fst snd] in L, K, G. destruct K as [K1 K2]. cbn [PyDict.keys PyDict.empty map app] in K1, K2.
  exists r, rs, (mkState (self s) (device s) h).
  split; [exact E|]. cbn [self device log].
  split; [reflexivity|]. split; [reflexivity|]. split; [exact L|].
  split; [rewrite K1; exact C|]. split; [rewrite K2; exact C|].
  intros t Hin. apply G. rewrite C. exact Hin.
Qed.

(** ** Chunking *)

(** C4, as amended. For a non-empty list of [N] distinct register
    codes, a chunk size [c >= 1] and a controller that answers every
    call with a plain listing, [_read_tags] (with room for two nested
    calls and [N + 1] units of fuel for its loop) returns normally and has
    issued exactly [ceil(N / c)] [readTags] calls, one per chunk and
    in order; the chunks are non-empty, hold [c] codes at most and
    concatenate to the requested list; the two returned dictionaries
    have exactly the requested codes as keys, in the requested order,
    and the entry of each code is the status and value found for it
    in the reply to the chunk that carried it. *)
Theorem read_tags_issues_ceil_chunks (c d f : nat) (tags : list string) (s : state) :
  (1 <= c)%nat ->
  (1 <= length tags)%nat ->
  NoDup tags ->
  answers s ->
  tagsPerRequest (self s) = Z.of_nat c ->
  (2 <= d)%nat ->
  (length tags + 1 <= f)%nat ->
  exists r rs s',
    _read_tags d f tags None None s = (Ok (RPair (Some r) (Some rs)), s') /\
    log s' = log s ++ map (ReadTags (auth_cookies (self s))) (chunks c tags) /\
    length (log s') = (length (log s) + ceil_div (length tags) c)%nat /\
    concat (chunks c tags) = tags /\
    Forall (fun ch => 1 <= length ch <= c)%nat (chunks c tags) /\
    PyDict.keys r = tags /\ PyDict.keys rs = tags /\
    length r = length tags /\
    forall t, In t tags ->
      exists pre ch post,
        chunks c tags = pre ++ ch :: post /\ In t ch /\
        let body :=
          body_of (device s (log s ++ map (ReadTags (auth_cookies (self s))) (pre ++ [ch]))) in
        PyDict.get r t = Some (tag_value body t) /\
        PyDict.get rs t = Some (tag_status body t).
Proof.
  intros Hc HN Hnd Hans Htpr Hd Hf.
  destruct (read_tags_plain_summary c d f tags s Hc Hnd Hans Htpr Hd Hf)
    as (r & rs & s' & E & _ & _ & L & K1 & K2 & G).
  exists r, rs, s'. split; [exact E|]. split; [exact L|].
  split; [rewrite L, length_app, length_map, chunks_length by assumption; reflexivity|].
  split; [apply chunks_concat|]. split; [apply chunks_sizes; assumption|].
  split; [exact K1|]. split; [exact K2|].
  split; [rewrite <- keys_length, K1; reflexivity|]. exact G.
Qed.

Lemma answers_steady (b : EcotouchBridge) (body : string) (h0 : list request) :
  plain body = true -> answers (mkState b (steady body) h0).
Proof.
  intros H h. exists 200%Z, body, EmptyString. split; [reflexivity|exact H].
Qed.

Lemma NoDup_by_nodup (l : list string) : nodup string_dec l = l -> NoDup l.
Proof. intros H. rewrite <- H. apply NoDup_nodup. Qed.

Lemma read_tags_issues_ceil_chunks_witness :
  exists r rs s',
    _read_tags 2 138 (codes 137) None None (start 10 (steady (block "A1" "S_OK" "215")))
    = (Ok (RPair (Some r) (Some rs)), s') /\
    length (log s') = 14%nat /\
    PyDict.keys r = codes 137 /\ PyDict.keys rs = codes 137 /\ length r = 137%nat.
Proof.
  destruct (read_tags_issues_ceil_chunks 10 2 138 (codes 137)
              (start 10 (steady (block "A1" "S_OK" "215"))))
    as (r & rs & s' & E & _ & N & _ & _ & K1 & K2 & Len & _).
  - lia.
  - vm_compute. lia.
  - apply NoDup_by_nodup. vm_compute. reflexivity.
  - apply answers_steady. vm_compute. reflexivity.
  - reflexivity.
  - lia.
  - vm_compute. lia.
  - exists r, rs, s'. split; [exact E|]. split; [exact N|].
    split; [exact K1|]. split; [exact K2|exact Len].
Defined.

(** C4, counterexample. A read of no register code at all with chunk
    size 10 still issues one [readTags] call (with [n = 0]), whereas
    [ceil(0 / 10)] is 0. *)
Lemma read_of_nothing_issues_one_call :
  let run := _read_tags 2 1 [] None None (start 10 plant) in
  fst run = Ok (RPair (Some []) (Some [])) /\
  log (snd run) = [ReadTags None []] /\
  ceil_div (length (@nil string)) 10 = 0%nat /\
  length (log (snd run)) <> ceil_div (length (@nil string)) 10.
Proof.
  vm_compute. repeat split; discriminate.
Qed.

(** The example of the specification: 137 codes read in chunks of 10
    make 14 calls and 137 entries. *)
Example read_137_codes_in_chunks_of_10 :
  let run := _read_tags 2 138 (codes 137) None None (start 10 plant) in
  length (log (snd run)) = 14%nat /\
  ceil_div 137 10 = 14%nat /\
  match fst run with
  | Ok (RPair (Some r) (Some rs)) =>
      PyDict.keys r = codes 137 /\ PyDict.keys rs = codes 137 /\ length r = 137%nat
  | _ => False
  end.
Proof.
  vm_compute. repeat split; reflexivity.
Qed.

(** ** Decoding a batch *)

Lemma lookup_all_total {V : Type} (d : PyDict.t V) (ks : list string) :
  (forall t, In t ks -> PyDict.mem d t = true) ->
  exists vs, lookup_all d ks = inl vs /\ length vs = length ks.
Proof.
  induction ks as [|k ks IH]; intros H.
  - exists []. split; reflexivity.
  - destruct IH as (vs & E & L); [intros t Ht; apply H; right; exact Ht|].
    specialize (H k (or_introl eq_refl)). unfold PyDict.mem in H.
    cbn [lookup_all]. destruct (PyDict.get d k) as [v|]; [|discriminate].
    rewrite E. exists (v :: vs). split; [reflexivity|cbn; rewrite L; reflexivity].
Qed.

(** One descriptor of the loop of [read_values] when its registers
    are all there: both locals end up bound, nothing leaves [result],
    and the descriptor enters it exactly when its values decode. *)
Lemma try_body_covered (lm : PyDict.t (list string)) (ev : raw_values) (es : raw_status)
    (a : TagData) (f : frame) :
  (forall t, In t (tags a) -> PyDict.mem ev t = true) ->
  (forall t, In t (tags a) -> PyDict.mem es t = true) ->
  let f' := fst (try_body lm ev (Some es) a f) in
  t_values f' <> None /\ t_states f' <> None /\
  (forall k, PyDict.mem (result f) k = true -> PyDict.mem (result f') k = true) /\
  (tags a <> [] ->
   forall raw v, lookup_all ev (tags a) = inl raw -> decode_function a raw = inl v ->
     PyDict.mem (result f') (name a) = true) /\
  (forall k, PyDict.mem (result f') k = true ->
     PyDict.mem (result f) k = true \/
     (k = name a /\ exists raw v,
        lookup_all ev (tags a) = inl raw /\ decode_function a raw = inl v)).
Proof.
  intros Hev Hes.
  destruct (lookup_all_total ev (tags a) Hev) as (tv & Etv & Ltv).
  destruct (lookup_all_total es (tags a) Hes) as (ts & Ets & Lts).
  set (P := fun f' : frame =>
    t_values f' <> None /\ t_states f' <> None /\
    (forall k, PyDict.mem (result f) k = true -> PyDict.mem (result f') k = true) /\
    (tags a <> [] ->
     forall raw v, lookup_all ev (tags a) = inl raw -> decode_function a raw = inl v ->
       PyDict.mem (result f') (name a) = true) /\
    (forall k, PyDict.mem (result f') k = true ->
       PyDict.mem (result f) k = true \/
       (k = name a /\ exists raw v,
          lookup_all ev (tags a) = inl raw /\ decode_function a raw = inl v))).
  change (P (fst (try_body lm ev (Some es) a f))).
  assert (Keep : forall tss,
             tss <> None ->
             (tags a = [] \/ exists e, decode_function a tv = inr e) ->
             P (mkFrame (result f) (Some tv) tss)).
  { intros tss H2 Hwhy. unfold P. cbn.
    split; [discriminate|]. split; [exact H2|]. split; [auto|]. split; [|auto].
    intros Hne raw v Hraw Hv. destruct Hwhy as [Hnil|[e He]]; [contradiction|].
    rewrite Etv in Hraw. inversion Hraw; subst. congruence. }
  assert (Fin : forall v w st0,
             decode_function a tv = inl v ->
             P (mkFrame (PyDict.set (result f) (name a) (mkResult w st0))
                        (Some tv) (Some ts))).
  { intros v w st0 Hd. unfold P. cbn.
    split; [discriminate|]. split; [discriminate|]. split; [|split].
    - intros k Hk. rewrite PyDictFacts.mem_set, Hk. apply orb_true_r.
    - intros _ raw v0 _ _. rewrite PyDictFacts.mem_set, String.eqb_refl. reflexivity.
    - intros k Hk. rewrite PyDictFacts.mem_set in Hk.
      apply orb_true_iff in Hk. destruct Hk as [Hk|Hk]; [|left; exact Hk].
      right. apply String.eqb_eq in Hk. split; [symmetry; exact Hk|].
      exists tv, v. split; [exact Etv|exact Hd]. }
  unfold try_body. rewrite Etv, Ets.
  destruct (decode_function a tv) as [v|e] eqn:Hdec.
  - destruct ts as [|st0 ts'] eqn:Hts.
    + cbn [fst]. apply Keep; [discriminate|]. left.
      destruct (tags a); [reflexivity|cbn in Lts; discriminate].
    + destruct (translate a).
      * destruct (tags a) as [|t0 rest] eqn:Ht; [cbn in Lts; discriminate|].
        destruct (PyDict.get lm t0) as [value_map|]; [|cbn [fst]; eapply Fin; reflexivity].
        destruct (translate_value value_map v); cbn [fst]; eapply Fin; reflexivity.
      * cbn [fst]. eapply Fin; reflexivity.
  - cbn [fst]. apply Keep; [discriminate|]. right. exists e. reflexivity.
Qed.

Lemma handler_bound (f : frame) (e : exn) :
  t_values f <> None -> t_states f <> None -> handler f e = None.
Proof.
  unfold handler. destruct (t_values f); [|congruence].
  destruct (t_states f); [|congruence]. reflexivity.
Qed.

(** The loop of [read_values] over a batch whose registers are all
    among the values read. *)
Lemma for_eco_tags_covered (lm : PyDict.t (list string)) (ev : raw_values) (es : raw_status)
    (ds : list TagData) :
  covers ev ds -> covers es ds ->
  forall f : frame,
  exists res,
    for_eco_tags lm ev (Some es) ds f = inl res /\
    (forall k, PyDict.mem (result f) k = true -> PyDict.mem res k = true) /\
    (forall a, In a ds -> tags a <> [] ->
       forall raw v, lookup_all ev (tags a) = inl raw -> decode_function a raw = inl v ->
         PyDict.mem res (name a) = true) /\
    (forall k, PyDict.mem res k = true ->
       PyDict.mem (result f) k = true \/
       exists a raw v, In a ds /\ name a = k /\
         lookup_all ev (tags a) = inl raw /\ decode_function a raw = inl v).
Proof.
  induction ds as [|a ds IH]; intros Cev Ces f.
  - exists (result f). cbn. repeat split; auto; intros a [].
  - assert (Cev' : covers ev ds) by (intros x t Hx Ht; apply (Cev x t); [right|]; assumption).
    assert (Ces' : covers es ds) by (intros x t Hx Ht; apply (Ces x t); [right|]; assumption).
    pose proof (try_body_covered lm ev es a f
                  (fun t Ht => Cev a t (or_introl eq_refl) Ht)
                  (fun t Ht => Ces a t (or_introl eq_refl) Ht)) as T.
    cbn [for_eco_tags].
    destruct (try_body lm ev (Some es) a f) as [f' oe]. cbn [fst] in T.
    destruct T as (Tv & Ts & Tmono & Tin & Tout).
    destruct (IH Cev' Ces' f') as (res & E & Mono & Inn & Out).
    assert (E' : match oe with
                 | Some e =>
                     match handler f' e with
                     | Some e' => inr e'
                     | None => for_eco_tags lm ev (Some es) ds f'
                     end
                 | None => for_eco_tags lm ev (Some es) ds f'
                 end = inl res).
    { destruct oe as [e|]; [rewrite handler_bound by assumption|]; exact E. }
    exists res. split; [exact E'|]. split; [|split].
    + intros k Hk. apply Mono, Tmono, Hk.
    + intros x [<-|Hx] Hne raw v Hraw Hv.
      * apply Mono. eapply Tin; eassumption.
      * eapply Inn; eassumption.
    + intros k Hk. destruct (Out k Hk) as [Hk'|(x & raw & v & Hx & Hn & Hraw & Hv)].
      * destruct (Tout k Hk') as [Hf|(Hn & raw & v & Hraw & Hv)]; [left; exact Hf|].
        right. exists a, raw, v. subst k. repeat split; auto. left. reflexivity.
      * right. exists x, raw, v. repeat split; auto. right. exact Hx.
Qed.

Lemma mem_of_key {V : Type} (d : PyDict.t V) (k : string) :
  In k (PyDict.keys d) -> PyDict.mem d k = true.
Proof.
  intros H. unfold PyDict.mem. destruct (PyDict.get d k) eqn:E; [reflexivity|].
  apply PyDictFacts.get_None_iff in E. contradiction.
Qed.

(** [read_values] once the registers of the batch have been read. *)
Lemma read_values_covered (list_set : list string -> list string) (d f : nat)
    (ds : list TagData) (s s' : state) (r : raw_values) (rs : raw_status) :
  _read_tags d f (list_set (flat_tags ds)) None None s = (Ok (RPair (Some r) (Some rs)), s') ->
  covers r ds -> covers rs ds ->
  exists res,
    read_values list_set d f ds s = (Ok res, s') /\
    (forall a, In a ds -> tags a <> [] ->
       forall raw v, lookup_all r (tags a) = inl raw -> decode_function a raw = inl v ->
         PyDict.mem res (name a) = true) /\
    (forall k, PyDict.mem res k = true ->
       exists a raw v, In a ds /\ name a = k /\
         lookup_all r (tags a) = inl raw /\ decode_function a raw = inl v).
Proof.
  intros E Cr Crs.
  destruct (for_eco_tags_covered (lang_map (self s')) r rs ds Cr Crs
              (mkFrame PyDict.empty None None)) as (res & Eres & _ & Inn & Out).
  unfold read_values. unfold bind at 1. rewrite E.
  unfold bind at 1. cbn [unpack ret].
  destruct (Nat.ltb_spec 0 (length r)) as [Hpos|Hzero].
  - exists res. split; [unfold bind, get_self; rewrite Eres; reflexivity|].
    split; [exact Inn|].
    intros k Hk. destruct (Out k Hk) as [Hk'|H]; [discriminate Hk'|exact H].
  - exists PyDict.empty. split; [reflexivity|].
    split; [|intros k Hk; discriminate Hk].
    intros a Ha Hne. exfalso. destruct (tags a) as [|t rest] eqn:Ht; [contradiction|].
    assert (Hm : PyDict.mem r t = true) by (apply (Cr a t Ha); rewrite Ht; left; reflexivity).
    destruct r; [discriminate Hm|cbn in Hzero; lia].
Qed.

(** C8. Whenever the raw read of a batch has returned the value and
    status of every register of the batch, [read_values] returns
    normally whatever the decoders of the batch do: an exception of a
    descriptor's [decode_function] is caught in the loop. Every
    descriptor of the batch that has a register and whose raw values
    decode is a key of the returned map, whichever other descriptors
    failed to decode; a descriptor is absent from the map when the
    decoding of every descriptor of that name raised. *)
Theorem read_values_isolates_decode_errors (list_set : list string -> list string)
    (d f : nat) (ds : list TagData) (s s' : state) (r : raw_values) (rs : raw_status) :
  _read_tags d f (list_set (flat_tags ds)) None None s = (Ok (RPair (Some r) (Some rs)), s') ->
  covers r ds -> covers rs ds ->
  exists res,
    read_values list_set d f ds s = (Ok res, s') /\
    (forall a, In a ds -> tags a <> [] ->
       forall raw v, lookup_all r (tags a) = inl raw -> decode_function a raw = inl v ->
         PyDict.mem res (name a) = true) /\
    (forall a, In a ds ->
       (forall a' raw, In a' ds -> name a' = name a -> lookup_all r (tags a') = inl raw ->
          exists e, decode_function a' raw = inr e) ->
       PyDict.mem res (name a) = false).
Proof.
  intros E Cr Crs.
  destruct (read_values_covered list_set d f ds s s' r rs E Cr Crs) as (res & Ev & Inn & Out).
  exists res. split; [exact Ev|]. split; [exact Inn|].
  intros a Ha Hfail. destruct (PyDict.mem res (name a)) eqn:Hm; [|reflexivity].
  destruct (Out (name a) Hm) as (a' & raw & v & Ha' & Hn & Hraw & Hv).
  destruct (Hfail a' raw Ha' Hn Hraw) as [e He]. congruence.
Qed.

Lemma read_values_isolates_decode_errors_witness :
  exists res s',
    read_values dedup 2 3 [HOLIDAY_ENABLED; TEMPERATURE_OUTSIDE]
      (start 10 (steady (block "D420" "S_OK" "2" ++ block "A1" "S_OK" "215")%string))
    = (Ok res, s') /\
    PyDict.mem res "TEMPERATURE_OUTSIDE" = true /\
    PyDict.mem res "HOLIDAY_ENABLED" = false.
Proof.
  pose (s0 := start 10 (steady (block "D420" "S_OK" "2" ++ block "A1" "S_OK" "215")%string)).
  destruct (read_values_isolates_decode_errors dedup 2 3
              [HOLIDAY_ENABLED; TEMPERATURE_OUTSIDE] s0
              (snd (_read_tags 2 3 ["D420"; "A1"] None None s0))
              [("D420", Some "2"); ("A1", Some "215")]
              [("D420", "S_OK"); ("A1", "S_OK")])
    as (res & Ev & Inn & Out).
  - vm_compute. reflexivity.
  - intros a t [<-|[<-|[]]] [<-|[]]; reflexivity.
  - intros a t [<-|[<-|[]]] [<-|[]]; reflexivity.
  - exists res, (snd (_read_tags 2 3 ["D420"; "A1"] None None s0)).
    split; [exact Ev|]. split.
    + apply (Inn TEMPERATURE_OUTSIDE (or_intror (or_introl eq_refl)))
        with (raw := [Some "215"]) (v := PyFloat 215); [discriminate|reflexivity|reflexivity].
    + apply (Out HOLIDAY_ENABLED (or_introl eq_refl)).
      intros a' raw [<-|[<-|[]]] Hn Hraw; [|discriminate Hn].
      vm_compute in Hraw. injection Hraw as <-. exists ValueError. reflexivity.
Defined.

(** A batch in which the flag register carries the raw value [2]. *)
Example read_values_skips_undecodable_flag :
  fst (read_values dedup 2 3 [HOLIDAY_ENABLED; TEMPERATURE_OUTSIDE]
         (start 10 (steady (block "D420" "S_OK" "2" ++ block "A1" "S_OK" "215")%string)))
  = Ok [("TEMPERATURE_OUTSIDE", mkResult (PyFloat 215) "S_OK")].
Proof. vm_compute. reflexivity. Qed.

(** Against a controller that answers plainly the raw read does
    return every register of the batch, and so [read_values] returns
    normally with every descriptor that decodes. *)
Lemma read_values_plain (list_set : list string -> list string) (c d f : nat)
    (ds : list TagData) (s : state) :
  (1 <= c)%nat ->
  enumerates list_set ->
  answers s ->
  tagsPerRequest (self s) = Z.of_nat c ->
  (2 <= d)%nat ->
  (length (list_set (flat_tags ds)) + 1 <= f)%nat ->
  exists r rs res s',
    _read_tags d f (list_set (flat_tags ds)) None None s = (Ok (RPair (Some r) (Some rs)), s') /\
    covers r ds /\ covers rs ds /\
    read_values list_set d f ds s = (Ok res, s') /\
    (forall a, In a ds -> tags a <> [] ->
       forall raw v, lookup_all r (tags a) = inl raw -> decode_function a raw = inl v ->
         PyDict.mem res (name a) = true).
Proof.
  intros Hc Hset Hans Htpr Hd Hf.
  destruct (Hset (flat_tags ds)) as [Hnd Hmem].
  destruct (read_tags_plain_summary c d f (list_set (flat_tags ds)) s Hc Hnd Hans Htpr Hd Hf)
    as (r & rs & s' & E & _ & _ & _ & K1 & K2 & _).
  assert (Cr : covers r ds).
  { intros a t Ha Ht. apply mem_of_key. rewrite K1. apply Hmem.
    unfold flat_tags. apply in_flat_map. exists a. split; assumption. }
  assert (Crs : covers rs ds).
  { intros a t Ha Ht. apply mem_of_key. rewrite K2. apply Hmem.
    unfold flat_tags. apply in_flat_map. exists a. split; assumption. }
  destruct (read_values_covered list_set d f ds s s' r rs E Cr Crs) as (res & Ev & Inn & _).
  exists r, rs, res, s'. repeat split; assumption.
Qed.

Lemma enumerates_dedup : enumerates dedup.
Proof.
  intros l. split; [apply NoDup_nodup|]. intros x. apply nodup_In.
Qed.

(** ** Registers without a value *)

(** The example of the specification: the listing lacks the block of
    the second of three registers. *)
Example read_three_registers_one_missing :
  let body := (block "A1" "S_OK" "215" ++ block "A3" "S_OK" "-37")%string in
  let s := start 10 (scripted [Response 200 body ""]) in
  fst (_read_tags 2 4 ["A1"; "A2"; "A3"] None None s)
  = Ok (RPair (Some [("A1", Some "215"); ("A2", None); ("A3", Some "-37")])
              (Some [("A1", "S_OK"); ("A2", "E_NOTFOUND"); ("A3", "S_OK")])) /\
  fst (read_values dedup 2 4
         [TEMPERATURE_OUTSIDE; TEMPERATURE_OUTSIDE_1H; TEMPERATURE_OUTSIDE_24H] s)
  = Ok [("TEMPERATURE_OUTSIDE", mkResult (PyFloat 215) "S_OK");
        ("TEMPERATURE_OUTSIDE_1H", mkResult PyNone "E_NOTFOUND");
        ("TEMPERATURE_OUTSIDE_24H", mkResult (PyFloat (-37)) "S_OK")].
Proof.
  vm_compute. split; reflexivity.
Qed.

(** ** Termination of the chunk loop *)









Lemma for_tags_ends (body : string) (tags : list string)
    (r : option raw_values) (rs : option raw_status) (s : state) :
  fst (for_tags body tags r rs s) <> OutOfFuel /\
  fst (for_tags body tags r rs s) <> Raise RecursionError.
Proof.
  revert r rs. induction tags as [|t tags IH]; intros r rs;
    [cbn; split; discriminate|].
  cbn [for_tags].
  destruct (search_block t body) as [[st v]|]; unfold bind, setitem;
    destruct rs as [rs|]; cbn; try (split; discriminate);
    destruct r as [r|]; cbn; try (split; discriminate); apply IH.
Qed.



(** ** Chunk sizes below 1 *)







(** ** Too many users *)

(** A chunk reply that starts with the too-many-users sentinel makes
    [_read_tags] return [None]; [read_values] unpacks that into two
    variables, which is a [TypeError]. One request has been made. *)
Lemma read_values_too_many_users (list_set : list string -> list string) (d f : nat)
    (ds : list TagData) (s : state) (code : Z) (body : string) (jar : cookies) :
  let e_tags := list_set (flat_tags ds) in
  (Z.of_nat (length e_tags) <= tagsPerRequest (self s))%Z ->
  device s (log s ++ [ReadTags (auth_cookies (self s)) e_tags]) = Response code body jar ->
  startswith body "#E_NEED_LOGIN" = false ->
  startswith body "#E_TOO_MANY_USERS" = true ->
  _read_tags (S d) (S f) e_tags None None s
  = (Ok RNone, mkState (self s) (device s)
                 (log s ++ [ReadTags (auth_cookies (self s)) e_tags])) /\
  read_values list_set (S d) (S f) ds s
  = (Raise TypeError, mkState (self s) (device s)
                        (log s ++ [ReadTags (auth_cookies (self s)) e_tags])).
Proof.
  intros e_tags Hlen Hd H1 H2.
  assert (E : _read_tags (S d) (S f) e_tags None None s
              = (Ok RNone, mkState (self s) (device s)
                             (log s ++ [ReadTags (auth_cookies (self s)) e_tags]))).
  { rewrite read_tags_S. cbv zeta.
    unfold bind at 1. rewrite while_chunks_stop by assumption.
    unfold bind at 1. unfold get_self at 1.
    unfold bind at 1. rewrite http_get_eq, Hd, H1, H2. reflexivity. }
  split; [exact E|].
  unfold read_values. fold e_tags. unfold bind at 1. rewrite E. reflexivity.
Qed.

(** C2, at the failing input. The controller answers the one chunk of
    a read, or the call of a write, with [#E_TOO_MANY_USERS]:
    [_read_tags] and [_write_tags] return [None] and the callers end
    in a [TypeError], after a single request. [login], given the same
    body, raises [TooManyUsersException]. *)
Theorem too_many_users_ends_in_TypeError :
  let s := start 10 (scripted [Response 200 "#E_TOO_MANY_USERS" ""]) in
  fst (_read_tags 5 5 ["A1"] None None s) = Ok RNone /\
  fst (read_values dedup 5 5 [TEMPERATURE_OUTSIDE] s) = Raise TypeError /\
  log (snd (read_values dedup 5 5 [TEMPERATURE_OUTSIDE] s)) = [ReadTags None ["A1"]] /\
  fst (_write_tags 5 ["A100"] ["215"] s) = Ok RNone /\
  fst (write_value 5 TEMPERATURE_ROOM_TARGET (PyFloat 215) s) = Raise TypeError /\
  log (snd (write_value 5 TEMPERATURE_ROOM_TARGET (PyFloat 215) s))
  = [WriteTags None ["A100"] ["215"]] /\
  fst (login "waterkotte" "waterkotte" s) = Raise TooManyUsersException /\
  is_StatusException TypeError = false.
Proof.
  vm_compute. repeat split; reflexivity.
Qed.

(** ** The echo of a write *)

Lemma write_tags_S (f : nat) (tags value : list string) :
  _write_tags (S f) tags value =
  (if (length value <? length tags)%nat then raise IndexError else
   b <- get_self ;;
   resp <- http_get (WriteTags (auth_cookies b) tags (firstn (length tags) value)) ;;
   let '(_, response, _) := resp in
   if startswith response "#E_NEED_LOGIN" then
     try_except
       (b <- get_self ;;
        login (username b) (password b) ;;
        _write_tags f tags value)
       is_StatusException
       (fun _ => ret RNone)
   else if startswith response "#E_TOO_MANY_USERS" then ret RNone
   else
     r <- for_tags response tags (Some PyDict.empty) (Some PyDict.empty) ;;
     ret (RPair (fst r) (snd r))).
Proof. reflexivity. Qed.

(** [_write_tags] on a plain reply. *)
Lemma write_tags_plain (f : nat) (tags value : list string) (s : state)
    (code : Z) (body : string) (jar : cookies) :
  length value = length tags ->
  device s (log s ++ [WriteTags (auth_cookies (self s)) tags value]) = Response code body jar ->
  plain body = true ->
  _write_tags (S f) tags value s =
  (Ok (RPair (Some (record_values body tags PyDict.empty))
             (Some (record_status body tags PyDict.empty))),
   mkState (self s) (device s) (log s ++ [WriteTags (auth_cookies (self s)) tags value])).
Proof.
  intros Hlen Hd Hp. rewrite write_tags_S.
  rewrite Hlen, Nat.ltb_irrefl. rewrite <- Hlen, firstn_all.
  unfold bind at 1. unfold get_self at 1.
  unfold bind at 1. rewrite http_get_eq, Hd.
  destruct (plain_inv _ Hp) as [H1 H2]. rewrite H1, H2.
  unfold bind. rewrite for_tags_eq. reflexivity.
Qed.

Lemma keys_values_length {V : Type} (d : PyDict.t V) :
  length (PyDict.values d) = length (PyDict.keys d).
Proof. unfold PyDict.values, PyDict.keys. rewrite !length_map. reflexivity. Qed.





(** ** Re-login *)

Lemma follows_scripted (b : EcotouchBridge) (script : list reply) :
  follows (mkState b (scripted script) []) script.
Proof. intros h _. reflexivity. Qed.

Lemma follows_head (s : state) (x : reply) (script : list reply) (r : request) :
  follows s (x :: script) -> device s (log s ++ [r]) = x.
Proof. intros H. rewrite (H [r]) by discriminate. reflexivity. Qed.

Lemma follows_tail (s s' : state) (x : reply) (script : list reply) (r : request) :
  follows s (x :: script) ->
  device s' = device s -> log s' = log s ++ [r] ->
  follows s' script.
Proof.
  intros H Hd Hl h Hne. rewrite Hd, Hl, <- app_assoc.
  rewrite (H ([r] ++ h)) by discriminate.
  destruct h as [|r0 h]; [contradiction|]. cbn. rewrite Nat.sub_0_r. reflexivity.
Qed.

(** A login that the controller accepts. *)
Lemma login_accepted (u p : string) (s : state) (body : string) (jar : cookies) :
  device s (log s ++ [Login u p]) = Response 200 body jar ->
  search_status true body = Some "S_OK" ->
  login u p s =
  (Ok tt, mkState (mkBridge (hostname (self s)) u p (tagsPerRequest (self s))
                     (Some jar) (lang_map (self s)))
                  (device s) (log s ++ [Login u p])).
Proof.
  intros Hd Hs. unfold login, bind, set_credentials. rewrite http_get_eq. cbn.
  rewrite Hd. cbn. unfold get_status_response. rewrite Hs. reflexivity.
Qed.

(** A login that the controller answers with another status. *)
Lemma login_rejected (u p : string) (s : state) (body g : string) (jar : cookies) :
  device s (log s ++ [Login u p]) = Response 200 body jar ->
  search_status true body = Some g ->
  g <> "S_OK" ->
  exists e,
    is_StatusException e = true /\
    login u p s =
    (Raise e, mkState (mkBridge (hostname (self s)) u p (tagsPerRequest (self s))
                         (auth_cookies (self s)) (lang_map (self s)))
                      (device s) (log s ++ [Login u p])).
Proof.
  intros Hd Hs Hg. unfold login, bind, set_credentials. rewrite http_get_eq. cbn.
  rewrite Hd. cbn. unfold get_status_response. rewrite Hs. cbn.
  destruct (String.eqb_spec g "S_OK") as [->|_]; [contradiction|]. cbn.
  destruct (startswith g "E_TOO_MANY_USERS");
    [exists TooManyUsersException|exists StatusException]; split; reflexivity.
Qed.

Lemma count_app (p : request -> bool) (a b : list request) :
  count p (a ++ b) = (count p a + count p b)%nat.
Proof. unfold count. rewrite filter_app, length_app. reflexivity. Qed.

Lemma relogin_trace_counts (k : nat) (chunk : option cookies -> request) (u p : string)
    (jar0 : option cookies) (jar : cookies) :
  (forall c, is_Login (chunk c) = false) ->
  count is_Login (relogin_trace k chunk u p jar0 jar) = k /\
  length (relogin_trace k chunk u p jar0 jar) = (2 * k + 1)%nat.
Proof.
  intros Hc. revert jar0. induction k as [|k IH]; intros jar0.
  - unfold count. cbn. rewrite Hc. split; reflexivity.
  - destruct (IH (Some jar)) as [A B]. unfold count in *. cbn. rewrite Hc. cbn.
    rewrite A, B. split; lia.
Qed.

(** [k] needs-login replies to a chunk, each followed by an accepted
    login, and then a plain reply: [_read_tags] logs in [k] times,
    asks for the chunk [k + 1] times and returns what the last reply
    lists. Each new attempt is a nested call, so the recursion limit
    has to leave room for [k + 1] of them. *)
Lemma read_tags_relogin (k : nat) :
  forall (d f : nat) (s : state) (tags : list string)
         (r : option raw_values) (rs : option raw_status)
         (c1 : Z) (need : string) (j1 : cookies) (ok : string) (jar : cookies)
         (code : Z) (body : string) (jar' : cookies),
    (Z.of_nat (length tags) <= tagsPerRequest (self s))%Z ->
    startswith need "#E_NEED_LOGIN" = true ->
    search_status true ok = Some "S_OK" ->
    plain body = true ->
    follows s (relogin_script k (Response c1 need j1) (Response 200 ok jar)
                 [Response code body jar']) ->
    exists s',
      _read_tags (k + S d) (S f) tags r rs s =
      (Ok (RPair (Some (record_values body tags (or_empty r)))
                 (Some (record_status body tags (or_empty rs)))), s') /\
      log s' = log s ++ relogin_trace k (fun c => ReadTags c tags)
                          (username (self s)) (password (self s))
                          (auth_cookies (self s)) jar /\
      username (self s') = username (self s) /\
      password (self s') = password (self s).
Proof.
  induction k as [|k IH];
    intros d f s tags r rs c1 need j1 ok jar code body jar' Hlen Hneed Hok Hp Hf.
  - cbn [relogin_script] in Hf. cbn [Nat.add relogin_trace].
    rewrite (read_tags_one_chunk d f tags r rs s code body jar' Hlen
               (follows_head s _ _ _ Hf) Hp).
    eexists. split; [reflexivity|]. cbn. repeat split; reflexivity.
  - cbn [relogin_script] in Hf. cbn [relogin_trace Nat.add].
    rewrite read_tags_S. cbv zeta.
    unfold bind at 1. rewrite while_chunks_stop by assumption.
    unfold bind at 1. unfold get_self at 1.
    unfold bind at 1. rewrite http_get_eq.
    rewrite (follows_head s _ _ _ Hf). rewrite Hneed.
    set (s1 := mkState (self s) (device s)
                 (log s ++ [ReadTags (auth_cookies (self s)) tags])).
    assert (Hf1 : follows s1 (Response 200 ok jar
                              :: relogin_script k (Response c1 need j1) (Response 200 ok jar)
                                   [Response code body jar'])).
    { eapply follows_tail; [exact Hf|reflexivity|reflexivity]. }
    unfold try_except. unfold bind at 1. unfold get_self at 1. unfold bind at 1.
    rewrite (login_accepted _ _ s1 ok jar (follows_head s1 _ _ _ Hf1) Hok).
    set (s2 := mkState _ (device s1) _).
    assert (Hf2 : follows s2 (relogin_script k (Response c1 need j1) (Response 200 ok jar)
                                [Response code body jar'])).
    { eapply follows_tail; [exact Hf1|reflexivity|reflexivity]. }
    destruct (IH d f s2 tags
                (match r with None => Some PyDict.empty | Some _ => r end)
                (match rs with None => Some PyDict.empty | Some _ => rs end)
                c1 need j1 ok jar code body jar' Hlen Hneed Hok Hp Hf2)
      as (s' & E & L & U & P).
    rewrite E.
    exists s'. split; [destruct r, rs; reflexivity|].
    split; [|split; [exact U|exact P]].
    rewrite L. subst s2 s1. cbn [log self username password auth_cookies].
    rewrite <- !app_assoc. reflexivity.
Qed.

Lemma removelast_relogin_trace (k : nat) (chunk : option cookies -> request) (u p : string)
    (jar0 : option cookies) (jar : cookies) :
  removelast (relogin_trace (S k) chunk u p jar0 jar)
  = chunk jar0 :: Login u p :: removelast (relogin_trace k chunk u p (Some jar) jar).
Proof.
  cbn [relogin_trace]. destruct k; reflexivity.
Qed.

(** [k] needs-login replies, each followed by an accepted login, when
    the recursion limit leaves room for [k] nested calls only: the
    call that would send the chunk for the [k + 1]-th time raises
    [RecursionError], which the [except StatusException] clauses on
    the way out do not catch. *)
Lemma read_tags_relogin_overflow (k : nat) :
  forall (f : nat) (s : state) (tags : list string)
         (r : option raw_values) (rs : option raw_status)
         (c1 : Z) (need : string) (j1 : cookies) (ok : string) (jar : cookies)
         (rest : list reply),
    (Z.of_nat (length tags) <= tagsPerRequest (self s))%Z ->
    startswith need "#E_NEED_LOGIN" = true ->
    search_status true ok = Some "S_OK" ->
    follows s (relogin_script k (Response c1 need j1) (Response 200 ok jar) rest) ->
    exists s',
      _read_tags k (S f) tags r rs s = (Raise RecursionError, s') /\
      log s' = log s ++ removelast (relogin_trace k (fun c => ReadTags c tags)
                                      (username (self s)) (password (self s))
                                      (auth_cookies (self s)) jar).
Proof.
  induction k as [|k IH];
    intros f s tags r rs c1 need j1 ok jar rest Hlen Hneed Hok Hf.
  - exists s. split; [reflexivity|]. cbn. rewrite app_nil_r. reflexivity.
  - cbn [relogin_script] in Hf. rewrite removelast_relogin_trace.
    rewrite read_tags_S. cbv zeta.
    unfold bind at 1. rewrite while_chunks_stop by assumption.
    unfold bind at 1. unfold get_self at 1.
    unfold bind at 1. rewrite http_get_eq.
    rewrite (follows_head s _ _ _ Hf). rewrite Hneed.
    set (s1 := mkState (self s) (device s)
                 (log s ++ [ReadTags (auth_cookies (self s)) tags])).
    assert (Hf1 : follows s1 (Response 200 ok jar
                              :: relogin_script k (Response c1 need j1) (Response 200 ok jar)
                                   rest)).
    { eapply follows_tail; [exact Hf|reflexivity|reflexivity]. }
    unfold try_except. unfold bind at 1. unfold get_self at 1. unfold bind at 1.
    rewrite (login_accepted _ _ s1 ok jar (follows_head s1 _ _ _ Hf1) Hok).
    set (s2 := mkState _ (device s1) _).
    assert (Hf2 : follows s2 (relogin_script k (Response c1 need j1) (Response 200 ok jar)
                                rest)).
    { eapply follows_tail; [exact Hf1|reflexivity|reflexivity]. }
    destruct (IH f s2 tags
                (match r with None => Some PyDict.empty | Some _ => r end)
                (match rs with None => Some PyDict.empty | Some _ => rs end)
                c1 need j1 ok jar rest Hlen Hneed Hok Hf2)
      as (s' & E & L).
    rewrite E. cbn [is_StatusException].
    exists s'. split; [reflexivity|].
    rewrite L. subst s2 s1. cbn [log self username password auth_cookies].
    rewrite <- !app_assoc. reflexivity.
Qed.

(** A needs-login reply followed by a login that the controller
    answers with a status other than [S_OK]: [_read_tags] returns the
    pair of [None]s after this one login, without asking for the
    chunk again. The bridge is left as it was. *)
Lemma read_tags_relogin_rejected_state (d f : nat) (s : state) (tags : list string)
    (r : option raw_values) (rs : option raw_status)
    (c1 : Z) (need : string) (j1 : cookies) (bad g : string) (jar : cookies) :
  let call := ReadTags (auth_cookies (self s)) tags in
  let relogin := Login (username (self s)) (password (self s)) in
  (Z.of_nat (length tags) <= tagsPerRequest (self s))%Z ->
  device s (log s ++ [call]) = Response c1 need j1 ->
  startswith need "#E_NEED_LOGIN" = true ->
  device s (log s ++ [call; relogin]) = Response 200 bad jar ->
  search_status true bad = Some g ->
  g <> "S_OK" ->
  _read_tags (S d) (S f) tags r rs s =
  (Ok (RPair None None), mkState (self s) (device s) (log s ++ [call; relogin])).
Proof.
  intros call relogin Hlen Hd0 Hneed Hd1 Hbad Hg.
  rewrite read_tags_S. cbv zeta.
  unfold bind at 1. rewrite while_chunks_stop by assumption.
  unfold bind at 1. unfold get_self at 1.
  unfold bind at 1. rewrite http_get_eq. fold call. rewrite Hd0, Hneed.
  set (s1 := mkState (self s) (device s) (log s ++ [call])).
  unfold try_except. unfold bind at 1. unfold get_self at 1. unfold bind at 1.
  assert (Hd1' : device s1 (log s1 ++ [Login (username (self s1)) (password (self s1))])
                 = Response 200 bad jar).
  { unfold s1. cbn [device log self]. rewrite <- app_assoc. exact Hd1. }
  destruct (login_rejected (username (self s1)) (password (self s1)) s1 bad g jar
              Hd1' Hbad Hg) as (e & He & El).
  rewrite El, He. unfold ret, s1, call, relogin. cbn [self device log].
  rewrite <- app_assoc. destruct s as [[h u p t a l] dev lg]. reflexivity.
Qed.

Lemma read_tags_relogin_rejected (d f : nat) (s : state) (tags : list string)
    (r : option raw_values) (rs : option raw_status)
    (c1 : Z) (need : string) (j1 : cookies) (bad g : string) (jar : cookies)
    (rest : list reply) :
  (Z.of_nat (length tags) <= tagsPerRequest (self s))%Z ->
  startswith need "#E_NEED_LOGIN" = true ->
  search_status true bad = Some g ->
  g <> "S_OK" ->
  follows s (Response c1 need j1 :: Response 200 bad jar :: rest) ->
  exists s',
    _read_tags (S d) (S f) tags r rs s = (Ok (RPair None None), s') /\
    log s' = log s ++ [ReadTags (auth_cookies (self s)) tags;
                       Login (username (self s)) (password (self s))].
Proof.
  intros Hlen Hneed Hbad Hg Hf.
  eexists. split.
  - apply (read_tags_relogin_rejected_state d f s tags r rs c1 need j1 bad g jar Hlen).
    + apply (follows_head s _ _ _ Hf).
    + exact Hneed.
    + rewrite (Hf [_; _]) by discriminate. reflexivity.
    + exact Hbad.
    + exact Hg.
  - reflexivity.
Qed.

(** The same [k] rounds for a write. *)
Lemma write_tags_relogin (k : nat) :
  forall (d : nat) (s : state) (tags value : list string)
         (c1 : Z) (need : string) (j1 : cookies) (ok : string) (jar : cookies)
         (code : Z) (body : string) (jar' : cookies),
    length value = length tags ->
    startswith need "#E_NEED_LOGIN" = true ->
    search_status true ok = Some "S_OK" ->
    plain body = true ->
    follows s (relogin_script k (Response c1 need j1) (Response 200 ok jar)
                 [Response code body jar']) ->
    exists s',
      _write_tags (k + S d) tags value s =
      (Ok (RPair (Some (record_values body tags PyDict.empty))
                 (Some (record_status body tags PyDict.empty))), s') /\
      log s' = log s ++ relogin_trace k (fun c => WriteTags c tags value)
                          (username (self s)) (password (self s))
                          (auth_cookies (self s)) jar /\
      username (self s') = username (self s) /\
      password (self s') = password (self s).
Proof.
  induction k as [|k IH];
    intros d s tags value c1 need j1 ok jar code body jar' Hlen Hneed Hok Hp Hf.
  - cbn [relogin_script] in Hf. cbn [Nat.add relogin_trace].
    rewrite (write_tags_plain d tags value s code body jar' Hlen
               (follows_head s _ _ _ Hf) Hp).
    eexists. split; [reflexivity|]. cbn. repeat split; reflexivity.
  - cbn [relogin_script] in Hf. cbn [relogin_trace Nat.add].
    rewrite write_tags_S.
    rewrite Hlen, Nat.ltb_irrefl. rewrite <- Hlen, firstn_all.
    unfold bind at 1. unfold get_self at 1.
    unfold bind at 1. rewrite http_get_eq.
    rewrite (follows_head s _ _ _ Hf). rewrite Hneed.
    set (s1 := mkState (self s) (device s)
                 (log s ++ [WriteTags (auth_cookies (self s)) tags value])).
    assert (Hf1 : follows s1 (Response 200 ok jar
                              :: relogin_script k (Response c1 need j1) (Response 200 ok jar)
                                   [Response code body jar'])).
    { eapply follows_tail; [exact Hf|reflexivity|reflexivity]. }
    unfold try_except. unfold bind at 1. unfold get_self at 1. unfold bind at 1.
    rewrite (login_accepted _ _ s1 ok jar (follows_head s1 _ _ _ Hf1) Hok).
    set (s2 := mkState _ (device s1) _).
    assert (Hf2 : follows s2 (relogin_script k (Response c1 need j1) (Response 200 ok jar)
                                [Response code body jar'])).
    { eapply follows_tail; [exact Hf1|reflexivity|reflexivity]. }
    destruct (IH d s2 tags value c1 need j1 ok jar code body jar' Hlen Hneed Hok Hp Hf2)
      as (s' & E & L & U & P).
    rewrite E.
    exists s'. split; [reflexivity|].
    split; [|split; [exact U|exact P]].
    rewrite L. subst s2 s1. cbn [log self username password auth_cookies].
    rewrite <- !app_assoc. reflexivity.
Qed.

Lemma write_tags_relogin_overflow (k : nat) :
  forall (s : state) (tags value : list string)
         (c1 : Z) (need : string) (j1 : cookies) (ok : string) (jar : cookies)
         (rest : list reply),
    length value = length tags ->
    startswith need "#E_NEED_LOGIN" = true ->
    search_status true ok = Some "S_OK" ->
    follows s (relogin_script k (Response c1 need j1) (Response 200 ok jar) rest) ->
    exists s',
      _write_tags k tags value s = (Raise RecursionError, s') /\
      log s' = log s ++ removelast (relogin_trace k (fun c => WriteTags c tags value)
                                      (username (self s)) (password (self s))
                                      (auth_cookies (self s)) jar).
Proof.
  induction k as [|k IH];
    intros s tags value c1 need j1 ok jar rest Hlen Hneed Hok Hf.
  - exists s. split; [reflexivity|]. cbn. rewrite app_nil_r. reflexivity.
  - cbn [relogin_script] in Hf. rewrite removelast_relogin_trace.
    rewrite write_tags_S.
    rewrite Hlen, Nat.ltb_irrefl. rewrite <- Hlen, firstn_all.
    unfold bind at 1. unfold get_self at 1.
    unfold bind at 1. rewrite http_get_eq.
    rewrite (follows_head s _ _ _ Hf). rewrite Hneed.
    set (s1 := mkState (self s) (device s)
                 (log s ++ [WriteTags (auth_cookies (self s)) tags value])).
    assert (Hf1 : follows s1 (Response 200 ok jar
                              :: relogin_script k (Response c1 need j1) (Response 200 ok jar)
                                   rest)).
    { eapply follows_tail; [exact Hf|reflexivity|reflexivity]. }
    unfold try_except. unfold bind at 1. unfold get_self at 1. unfold bind at 1.
    rewrite (login_accepted _ _ s1 ok jar (follows_head s1 _ _ _ Hf1) Hok).
    set (s2 := mkState _ (device s1) _).
    assert (Hf2 : follows s2 (relogin_script k (Response c1 need j1) (Response 200 ok jar)
                                rest)).
    { eapply follows_tail; [exact Hf1|reflexivity|reflexivity]. }
    destruct (IH s2 tags value c1 need j1 ok jar rest Hlen Hneed Hok Hf2) as (s' & E & L).
    rewrite E. cbn [is_StatusException].
    exists s'. split; [reflexivity|].
    rewrite L. subst s2 s1. cbn [log self username password auth_cookies].
    rewrite <- !app_assoc. reflexivity.
Qed.

(** A rejected login during a write: [_write_tags] returns [None]
    after this one login, without sending the values again. *)
Lemma write_tags_relogin_rejected (f : nat) (s : state) (tags value : list string)
    (c1 : Z) (need : string) (j1 : cookies) (bad g : string) (jar : cookies)
    (rest : list reply) :
  length value = length tags ->
  startswith need "#E_NEED_LOGIN" = true ->
  search_status true bad = Some g ->
  g <> "S_OK" ->
  follows s (Response c1 need j1 :: Response 200 bad jar :: rest) ->
  exists s',
    _write_tags (S f) tags value s = (Ok RNone, s') /\
    log s' = log s ++ [WriteTags (auth_cookies (self s)) tags value;
                       Login (username (self s)) (password (self s))].
Proof.
  intros Hlen Hneed Hbad Hg Hf.
  rewrite write_tags_S.
  rewrite Hlen, Nat.ltb_irrefl. rewrite <- Hlen, firstn_all.
  unfold bind at 1. unfold get_self at 1.
  unfold bind at 1. rewrite http_get_eq.
  rewrite (follows_head s _ _ _ Hf). rewrite Hneed.
  set (s1 := mkState (self s) (device s)
               (log s ++ [WriteTags (auth_cookies (self s)) tags value])).
  assert (Hf1 : follows s1 (Response 200 bad jar :: rest)).
  { eapply follows_tail; [exact Hf|reflexivity|reflexivity]. }
  unfold try_except. unfold bind at 1. unfold get_self at 1. unfold bind at 1.
  destruct (login_rejected (username (self s1)) (password (self s1)) s1 bad g jar
              (follows_head s1 _ _ _ Hf1) Hbad Hg) as (e & He & El).
  rewrite El, He. eexists. split; [reflexivity|].
  cbn. rewrite <- app_assoc. reflexivity.
Qed.

Lemma relogin_trace_chunks (k : nat) (chunk : option cookies -> request) (u p : string)
    (jar0 : option cookies) (jar : cookies) (q : request -> bool) :
  (forall c, q (chunk c) = true) ->
  q (Login u p) = false ->
  count q (relogin_trace k chunk u p jar0 jar) = S k.
Proof.
  intros Hc Hl. revert jar0. induction k as [|k IH]; intros jar0.
  - unfold count. cbn. rewrite Hc. reflexivity.
  - specialize (IH (Some jar)). unfold count in *. cbn. rewrite Hc, Hl. cbn.
    rewrite IH. reflexivity.
Qed.

Lemma removelast_trace_counts (k : nat) (chunk : option cookies -> request) (u p : string)
    (jar0 : option cookies) (jar : cookies) (q : request -> bool) :
  (forall c, q (chunk c) = true) ->
  q (Login u p) = false ->
  count q (removelast (relogin_trace k chunk u p jar0 jar)) = k /\
  length (removelast (relogin_trace k chunk u p jar0 jar)) = (2 * k)%nat.
Proof.
  intros Hc Hl. revert jar0. induction k as [|k IH]; intros jar0.
  - split; reflexivity.
  - rewrite removelast_relogin_trace. destruct (IH (Some jar)) as [A B].
    unfold count in *. cbn [filter length]. rewrite Hc, Hl. cbn [length].
    rewrite A, B. split; lia.
Qed.

(** C1, counterexample. The controller answers the chunk with the
    needs-login sentinel twice, accepting the login each time, and
    lists the register on the third request. The read returns the
    listed value: the bridge has logged in twice and has sent the
    chunk three times, and no error has been raised after the second
    needs-login reply. *)
Lemma second_needs_login_is_retried_again :
  let s := start 10 (scripted [Response 200 "#E_NEED_LOGIN" "";
                               Response 200 "#S_OK" "IDALToken=1";
                               Response 200 "#E_NEED_LOGIN" "";
                               Response 200 "#S_OK" "IDALToken=2";
                               Response 200 (block "A1" "S_OK" "215") ""]) in
  let run := _read_tags 5 5 ["A1"] None None s in
  fst run = Ok (RPair (Some [("A1", Some "215")]) (Some [("A1", "S_OK")])) /\
  log (snd run) = [ReadTags None ["A1"]; Login "waterkotte" "waterkotte";
                   ReadTags (Some "IDALToken=1") ["A1"]; Login "waterkotte" "waterkotte";
                   ReadTags (Some "IDALToken=2") ["A1"]] /\
  count is_Login (log (snd run)) = 2%nat /\
  count is_ReadTags (log (snd run)) = 3%nat /\
  (forall e, fst run <> Raise e).
Proof.
  vm_compute. repeat split; try reflexivity. intros e H. discriminate H.
Qed.

(** A controller that reports every session as expired: the logins go
    on until the recursion limit is reached. *)
Example relogin_ends_at_the_recursion_limit :
  let run := _read_tags 60 1 ["A1"] None None (start 10 forgetful) in
  fst run = Raise RecursionError /\
  count is_Login (log (snd run)) = 60%nat /\
  count is_ReadTags (log (snd run)) = 60%nat.
Proof. vm_compute. repeat split; reflexivity. Qed.

(** ** Parsing a listing *)

Lemma append_assoc (a b c : string) : ((a ++ b) ++ c = a ++ (b ++ c))%string.
Proof. induction a as [|x a IH]; cbn; [reflexivity|rewrite IH; reflexivity]. Qed.

Lemma strip_prefix_app (p x : string) : strip_prefix p (p ++ x)%string = Some x.
Proof.
  induction p as [|c p IH]; [destruct x; reflexivity|].
  cbn [append strip_prefix]. rewrite Ascii.eqb_refl. exact IH.
Qed.

Lemma startswith_strip (s p : string) :
  startswith s p = match strip_prefix p s with Some _ => true | None => false end.
Proof.
  revert s. induction p as [|c p IH]; intros s; [destruct s; reflexivity|].
  destruct s as [|d s]; [reflexivity|].
  cbn [startswith strip_prefix].
  destruct (Ascii.eqb c d); cbn [andb]; [apply IH|reflexivity].
Qed.

Lemma span_app (p : ascii -> bool) (a : string) (c : ascii) (x : string) :
  all_chars p a = true -> p c = false ->
  span p (a ++ String c x)%string = (a, String c x).
Proof.
  intros Ha Hc. induction a as [|d a IH]; cbn.
  - rewrite Hc. reflexivity.
  - cbn in Ha. apply andb_true_iff in Ha. destruct Ha as [Hd Ha].
    rewrite Hd, (IH Ha). reflexivity.
Qed.

Lemma span_all (p : ascii -> bool) (a : string) :
  all_chars p a = true -> span p a = (a, EmptyString).
Proof.
  intros Ha. induction a as [|d a IH]; cbn; [reflexivity|].
  cbn in Ha. apply andb_true_iff in Ha. destruct Ha as [Hd Ha].
  rewrite Hd, (IH Ha). reflexivity.
Qed.

Lemma all_chars_app (p : ascii -> bool) (a b : string) :
  all_chars p (a ++ b)%string = all_chars p a && all_chars p b.
Proof.
  induction a as [|c a IH]; cbn; [reflexivity|]. rewrite IH, andb_assoc. reflexivity.
Qed.

Lemma all_chars_impl (p q : ascii -> bool) (s : string) :
  (forall c, p c = true -> q c = true) -> all_chars p s = true -> all_chars q s = true.
Proof.
  intros H. induction s as [|c s IH]; cbn; [reflexivity|].
  intros Hs. apply andb_true_iff in Hs. destruct Hs as [Hc Hs].
  rewrite (H c Hc), (IH Hs). reflexivity.
Qed.

Lemma sign_split (r5 : string) :
  match r5 with
  | String "-" r => ("-"%string, r)
  | _ => (EmptyString, r5)
  end =
  match r5 with
  | String c r => if Ascii.eqb c "-" then ("-"%string, r) else (EmptyString, r5)
  | EmptyString => (EmptyString, r5)
  end.
Proof.
  destruct r5 as [|[b0 b1 b2 b3 b4 b5 b6 b7] r]; [reflexivity|].
  destruct b0, b1, b2, b3, b4, b5, b6, b7; reflexivity.
Qed.

Lemma block_app (t st v rest : string) :
  (block t st v ++ rest)%string =
  (("#" ++ t ++ tab) ++ st
   ++ String NL (String "1" (String "9" (String "2" (String TAB (v ++ String NL rest))))))%string.
Proof.
  unfold block, tab. repeat (rewrite append_assoc; cbn [append]). reflexivity.
Qed.

Lemma inactive_block_app (t rest : string) :
  (inactive_block t ++ rest)%string =
  (("#" ++ t ++ tab) ++ "E_INACTIVETAG" ++ String NL rest)%string.
Proof.
  unfold inactive_block, tab. repeat (rewrite append_assoc; cbn [append]). reflexivity.
Qed.

Lemma digit_not_minus (c : ascii) : is_digit c = true -> Ascii.eqb c "-" = false.
Proof.
  destruct c as [b0 b1 b2 b3 b4 b5 b6 b7].
  destruct b0, b1, b2, b3, b4, b5, b6, b7; cbn; intros H; try reflexivity; discriminate H.
Qed.

Lemma NL_not_status : is_status_char NL = false.
Proof. reflexivity. Qed.

Lemma NL_not_digit : is_digit NL = false.
Proof. reflexivity. Qed.

(** The block pattern matches a block of the same register and yields
    its status and value. *)
Lemma match_block_at_own (t st v rest : string) :
  status_ok st = true -> value_ok v = true ->
  match_block_at t (block t st v ++ rest)%string = Some (st, v).
Proof.
  intros Hst Hv. unfold status_ok in Hst. apply andb_true_iff in Hst.
  destruct Hst as [Hne Hall].
  unfold match_block_at. rewrite block_app, strip_prefix_app.
  rewrite (span_app is_status_char st NL _ Hall NL_not_status).
  apply negb_true_iff in Hne. rewrite Hne.
  rewrite Ascii.eqb_refl. cbn [negb].
  change (span is_digit (String "1" (String "9" (String "2"
            (String TAB (v ++ String NL rest)%string)))))
    with (let (a, b) := span is_digit (String TAB (v ++ String NL rest)%string) in
          (String "1" (String "9" (String "2" a)), b)).
  change (span is_digit (String TAB (v ++ String NL rest)%string))
    with (EmptyString, String TAB (v ++ String NL rest)%string).
  cbn [is_empty]. rewrite Ascii.eqb_refl. cbn [negb].
  rewrite sign_split.
  destruct v as [|c d]; [discriminate Hv|]. cbn [append]. cbn [value_ok] in Hv.
  destruct (Ascii.eqb c "-") eqn:Ec.
  - apply Ascii.eqb_eq in Ec. subst c.
    unfold digits_ok in Hv. apply andb_true_iff in Hv. destruct Hv as [Hd1 Hd2].
    rewrite (span_app is_digit d NL rest Hd2 NL_not_digit).
    apply negb_true_iff in Hd1. rewrite Hd1. reflexivity.
  - unfold digits_ok in Hv. apply andb_true_iff in Hv. destruct Hv as [_ Hd2].
    change (String c (d ++ String NL rest)%string)
      with (String c d ++ String NL rest)%string.
    rewrite (span_app is_digit (String c d) NL rest Hd2 NL_not_digit).
    reflexivity.
Qed.

Lemma listing_head (es : list (string * cell)) :
  listing es = EmptyString \/ exists x, listing es = String "#" x.
Proof.
  destruct es as [|[t c] r]; [left; reflexivity|right].
  cbn [listing]. destruct c as [st v|]; cbn; eexists; reflexivity.
Qed.

(** The block pattern does not match the block of an inactive
    register: no value line follows the status line. *)
Lemma match_block_at_inactive (t : string) (es : list (string * cell)) :
  match_block_at t (inactive_block t ++ listing es)%string = None.
Proof.
  unfold match_block_at. rewrite inactive_block_app, strip_prefix_app.
  rewrite (span_app is_status_char "E_INACTIVETAG" NL _ eq_refl NL_not_status).
  cbn [is_empty]. rewrite Ascii.eqb_refl. cbn [negb].
  destruct (listing_head es) as [E|[x E]]; rewrite E; reflexivity.
Qed.

Lemma match_inactive_at_own (t rest : string) :
  match_inactive_at t (inactive_block t ++ rest)%string = Some tt.
Proof.
  unfold match_inactive_at. rewrite startswith_strip, inactive_block_app.
  replace (("#" ++ t ++ tab) ++ "E_INACTIVETAG" ++ String NL rest)%string
    with (("#" ++ t ++ tab ++ "E_INACTIVETAG") ++ String NL rest)%string
    by (repeat (rewrite append_assoc; cbn [append]); reflexivity).
  rewrite strip_prefix_app. reflexivity.
Qed.

Lemma alnum_not_tab (c : ascii) : is_alnum c = true -> Ascii.eqb c TAB = false.
Proof.
  destruct c as [b0 b1 b2 b3 b4 b5 b6 b7].
  destruct b0, b1, b2, b3, b4, b5, b6, b7; cbn; intros H; try reflexivity; discriminate H.
Qed.

(** Two different register codes never match each other's blocks:
    the tab that ends a code is not a character of a code. *)
Lemma strip_prefix_other_code (t t' x y : string) :
  code_ok t = true -> code_ok t' = true -> t <> t' ->
  strip_prefix (t ++ tab ++ y)%string (t' ++ tab ++ x)%string = None.
Proof.
  revert t'. induction t as [|c t IH]; intros t' Ht Ht' Hne.
  - destruct t' as [|c' t']; [contradiction|].
    cbn in Ht'. apply andb_true_iff in Ht'. destruct Ht' as [Hc' _].
    cbn [append tab strip_prefix]. unfold tab. cbn [append strip_prefix].
    rewrite Ascii.eqb_sym, (alnum_not_tab c' Hc'). reflexivity.
  - cbn in Ht. apply andb_true_iff in Ht. destruct Ht as [Hc Ht].
    destruct t' as [|c' t'].
    + unfold tab. cbn [append strip_prefix]. rewrite (alnum_not_tab c Hc). reflexivity.
    + cbn in Ht'. apply andb_true_iff in Ht'. destruct Ht' as [_ Ht'].
      cbn [append strip_prefix].
      destruct (Ascii.eqb_spec c c') as [->|]; [|reflexivity].
      apply IH; [exact Ht|exact Ht'|congruence].
Qed.

Lemma cell_text_app (t : string) (c : cell) (rest : string) :
  exists x, (cell_text t c ++ rest)%string = ("#" ++ t ++ tab ++ x)%string.
Proof.
  destruct c as [st v|]; cbn [cell_text].
  - rewrite block_app. eexists. repeat (rewrite append_assoc; cbn [append]). reflexivity.
  - rewrite inactive_block_app. eexists.
    repeat (rewrite append_assoc; cbn [append]). reflexivity.
Qed.

Lemma match_block_at_other (t t' : string) (c : cell) (rest : string) :
  code_ok t = true -> code_ok t' = true -> t <> t' ->
  match_block_at t (cell_text t' c ++ rest)%string = None.
Proof.
  intros Ht Ht' Hne. unfold match_block_at.
  destruct (cell_text_app t' c rest) as [x E]. rewrite E.
  cbn [append strip_prefix]. rewrite Ascii.eqb_refl.
  replace (t ++ tab)%string with (t ++ tab ++ "")%string
    by (unfold tab; reflexivity).
  rewrite (strip_prefix_other_code t t' x "" Ht Ht' Hne). reflexivity.
Qed.

Lemma match_inactive_at_other (t t' : string) (c : cell) (rest : string) :
  code_ok t = true -> code_ok t' = true -> t <> t' ->
  match_inactive_at t (cell_text t' c ++ rest)%string = None.
Proof.
  intros Ht Ht' Hne. unfold match_inactive_at. rewrite startswith_strip.
  destruct (cell_text_app t' c rest) as [x E]. rewrite E.
  cbn [append strip_prefix]. rewrite Ascii.eqb_refl.
  rewrite (strip_prefix_other_code t t' x "E_INACTIVETAG" Ht Ht' Hne). reflexivity.
Qed.

(** [re.search] passes over a stretch of text without [#] when the
    pattern starts with [#]. *)
Lemma re_search_skip {A : Type} (m : string -> option A) (a b : string) :
  (forall c s, Ascii.eqb c "#" = false -> m (String c s) = None) ->
  all_chars not_hash a = true ->
  re_search m (a ++ b)%string = re_search m b.
Proof.
  intros Hm. induction a as [|c a IH]; intros Ha; [reflexivity|].
  cbn in Ha. apply andb_true_iff in Ha. destruct Ha as [Hc Ha].
  unfold not_hash in Hc. apply negb_true_iff in Hc.
  cbn [append re_search]. rewrite (Hm c _ Hc). apply IH. exact Ha.
Qed.

Lemma match_block_at_needs_hash (t : string) (c : ascii) (s : string) :
  Ascii.eqb c "#" = false -> match_block_at t (String c s) = None.
Proof.
  intros H. unfold match_block_at. cbn [append strip_prefix].
  rewrite Ascii.eqb_sym, H. reflexivity.
Qed.

Lemma match_inactive_at_needs_hash (t : string) (c : ascii) (s : string) :
  Ascii.eqb c "#" = false -> match_inactive_at t (String c s) = None.
Proof.
  intros H. unfold match_inactive_at. cbn [append startswith].
  rewrite Ascii.eqb_sym, H. reflexivity.
Qed.

Lemma alnum_not_hash (c : ascii) : is_alnum c = true -> not_hash c = true.
Proof.
  destruct c as [b0 b1 b2 b3 b4 b5 b6 b7].
  destruct b0, b1, b2, b3, b4, b5, b6, b7; cbn; intros H; try reflexivity; discriminate H.
Qed.

Lemma status_char_not_hash (c : ascii) : is_status_char c = true -> not_hash c = true.
Proof.
  destruct c as [b0 b1 b2 b3 b4 b5 b6 b7].
  destruct b0, b1, b2, b3, b4, b5, b6, b7; cbn; intros H; try reflexivity; discriminate H.
Qed.

Lemma digit_not_hash (c : ascii) : is_digit c = true -> not_hash c = true.
Proof.
  destruct c as [b0 b1 b2 b3 b4 b5 b6 b7].
  destruct b0, b1, b2, b3, b4, b5, b6, b7; cbn; intros H; try reflexivity; discriminate H.
Qed.

Lemma value_not_hash (v : string) : value_ok v = true -> all_chars not_hash v = true.
Proof.
  destruct v as [|c d]; [discriminate|]. cbn [value_ok].
  destruct (Ascii.eqb c "-") eqn:Ec; unfold digits_ok; intros H;
    apply andb_true_iff in H; destruct H as [_ H].
  - apply Ascii.eqb_eq in Ec. subst c. cbn [all_chars].
    rewrite (all_chars_impl _ _ d digit_not_hash H). reflexivity.
  - apply (all_chars_impl _ _ _ digit_not_hash H).
Qed.

(** A block starts with [#] and has no other [#]. *)
Lemma cell_text_body (t : string) (c : cell) :
  code_ok t = true -> cell_ok c = true ->
  exists body, cell_text t c = String "#" body /\ all_chars not_hash body = true.
Proof.
  intros Ht Hc. pose proof (all_chars_impl _ _ t alnum_not_hash Ht) as Ht'.
  destruct c as [st v|]; cbn [cell_text].
  - cbn [cell_ok] in Hc. apply andb_true_iff in Hc. destruct Hc as [Hst Hv].
    unfold status_ok in Hst. apply andb_true_iff in Hst. destruct Hst as [_ Hst].
    pose proof (all_chars_impl _ _ st status_char_not_hash Hst) as Hst'.
    pose proof (value_not_hash v Hv) as Hv'.
    unfold block, tab. cbn [append]. eexists. split; [reflexivity|].
    rewrite all_chars_app, Ht'. cbn [andb all_chars].
    rewrite all_chars_app, Hst'. cbn [andb all_chars append].
    rewrite all_chars_app, Hv'. reflexivity.
  - unfold inactive_block, tab. cbn [append]. eexists. split; [reflexivity|].
    rewrite all_chars_app, Ht'. reflexivity.
Qed.

(** Searching a listing block by block. *)
Lemma re_search_cell {A : Type} (m : string -> option A) (t : string) (c : cell)
    (rest : string) :
  (forall c s, Ascii.eqb c "#" = false -> m (String c s) = None) ->
  code_ok t = true -> cell_ok c = true ->
  re_search m (cell_text t c ++ rest)%string =
  match m (cell_text t c ++ rest)%string with
  | Some x => Some x
  | None => re_search m rest
  end.
Proof.
  intros Hm Ht Hc. destruct (cell_text_body t c Ht Hc) as (body & E & Hb).
  rewrite E. cbn [append re_search].
  destruct (m (String "#" (body ++ rest)%string)); [reflexivity|].
  apply re_search_skip; assumption.
Qed.

Lemma lookup_cell_absent (t : string) (es : list (string * cell)) :
  ~ In t (map fst es) -> lookup_cell t es = None.
Proof.
  induction es as [|[t' c] r IH]; intros H; [reflexivity|].
  cbn in H. cbn [lookup_cell].
  destruct (String.eqb_spec t t') as [->|_]; [exfalso; apply H; left; reflexivity|].
  apply IH. tauto.
Qed.

Lemma search_block_listing (t : string) (es : list (string * cell)) :
  code_ok t = true ->
  forallb entry_ok es = true ->
  NoDup (map fst es) ->
  search_block t (listing es) =
  match lookup_cell t es with
  | Some (Active st v) => Some (st, v)
  | _ => None
  end.
Proof.
  intros Ht. unfold search_block.
  induction es as [|[t' c] r IH]; intros Hok Hnd; [reflexivity|].
  cbn [forallb] in Hok. apply andb_true_iff in Hok. destruct Hok as [He Hok].
  unfold entry_ok in He. cbn [fst snd] in He. apply andb_true_iff in He.
  destruct He as [Ht' Hc].
  cbn [map fst] in Hnd. inversion Hnd as [|? ? Hnot Hnd']; subst.
  cbn [listing lookup_cell].
  rewrite (re_search_cell _ t' c _ (match_block_at_needs_hash t) Ht' Hc).
  destruct (String.eqb_spec t t') as [<-|Hne].
  - destruct c as [st v|]; cbn [cell_text].
    + cbn [cell_ok] in Hc. apply andb_true_iff in Hc. destruct Hc as [Hst Hv].
      rewrite (match_block_at_own t st v _ Hst Hv). reflexivity.
    + rewrite match_block_at_inactive. rewrite (IH Hok Hnd').
      rewrite (lookup_cell_absent t r Hnot). reflexivity.
  - rewrite (match_block_at_other t t' c _ Ht Ht' Hne). apply IH; assumption.
Qed.

Lemma search_inactive_listing (t : string) (es : list (string * cell)) :
  code_ok t = true ->
  forallb entry_ok es = true ->
  (lookup_cell t es = None -> search_inactive t (listing es) = None) /\
  (lookup_cell t es = Some Inactive -> search_inactive t (listing es) = Some tt).
Proof.
  intros Ht. unfold search_inactive.
  induction es as [|[t' c] r IH]; intros Hok; [split; [reflexivity|discriminate]|].
  cbn [forallb] in Hok. apply andb_true_iff in Hok. destruct Hok as [He Hok].
  unfold entry_ok in He. cbn [fst snd] in He. apply andb_true_iff in He.
  destruct He as [Ht' Hc].
  cbn [listing lookup_cell].
  rewrite (re_search_cell _ t' c _ (match_inactive_at_needs_hash t) Ht' Hc).
  destruct (String.eqb_spec t t') as [<-|Hne].
  - split; [discriminate|]. intros E. injection E as ->. cbn [cell_text].
    rewrite match_inactive_at_own. reflexivity.
  - rewrite (match_inactive_at_other t t' c _ Ht Ht' Hne). apply IH. exact Hok.
Qed.

Lemma listing_cells (t : string) (es : list (string * cell)) :
  code_ok t = true ->
  forallb entry_ok es = true ->
  NoDup (map fst es) ->
  tag_status (listing es) t = cell_status (lookup_cell t es) /\
  tag_value (listing es) t = cell_value (lookup_cell t es).
Proof.
  intros Ht Hok Hnd. unfold tag_status, tag_value.
  rewrite (search_block_listing t es Ht Hok Hnd).
  destruct (search_inactive_listing t es Ht Hok) as [Hnone Hin].
  destruct (lookup_cell t es) as [[st v|]|]; cbn.
  - split; reflexivity.
  - rewrite (Hin eq_refl). split; reflexivity.
  - rewrite (Hnone eq_refl). split; reflexivity.
Qed.

(** Reading a register out of a listing gives back what the listing
    holds for it: the status and value of its block, [E_INACTIVE] for
    an inactive register, [E_NOTFOUND] for a register that is not
    listed. The codes of the listing are distinct and made of letters
    and digits, each status is a non-empty run of [A-Z_] and each
    value a decimal integer. *)
Theorem listing_read_back (t : string) (es : list (string * cell)) :
  code_ok t = true ->
  forallb entry_ok es = true ->
  NoDup (map fst es) ->
  tag_status (listing es) t = cell_status (lookup_cell t es) /\
  tag_value (listing es) t = cell_value (lookup_cell t es).
Proof. exact (listing_cells t es). Qed.

Lemma listing_read_back_witness :
  let es := [("A1", Active "S_OK" "215"); ("D420", Inactive); ("A3", Active "S_OK" "-37")] in
  (tag_status (listing es) "A3", tag_value (listing es) "A3") = ("S_OK", Some "-37") /\
  (tag_status (listing es) "D420", tag_value (listing es) "D420") = ("E_INACTIVE", None) /\
  (tag_status (listing es) "A30", tag_value (listing es) "A30") = ("E_NOTFOUND", None).
Proof.
  cbv zeta. split; [|split].
  - destruct (listing_read_back "A3"
                [("A1", Active "S_OK" "215"); ("D420", Inactive); ("A3", Active "S_OK" "-37")])
      as [A B]; [reflexivity|reflexivity|apply NoDup_by_nodup; reflexivity|].
    rewrite A, B. reflexivity.
  - destruct (listing_read_back "D420"
                [("A1", Active "S_OK" "215"); ("D420", Inactive); ("A3", Active "S_OK" "-37")])
      as [A B]; [reflexivity|reflexivity|apply NoDup_by_nodup; reflexivity|].
    rewrite A, B. reflexivity.
  - destruct (listing_read_back "A30"
                [("A1", Active "S_OK" "215"); ("D420", Inactive); ("A3", Active "S_OK" "-37")])
      as [A B]; [reflexivity|reflexivity|apply NoDup_by_nodup; reflexivity|].
    rewrite A, B. reflexivity.
Defined.

(** ** Reading from a controller that lists its registers *)

Lemma alnum_not_underscore (c : ascii) : is_alnum c = true -> Ascii.eqb c "_" = false.
Proof.
  destruct c as [b0 b1 b2 b3 b4 b5 b6 b7].
  destruct b0, b1, b2, b3, b4, b5, b6, b7; cbn; intros H; try reflexivity; discriminate H.
Qed.

Lemma code_then_tab_not_E_ (t x y : string) :
  code_ok t = true ->
  startswith (t ++ String TAB x)%string (String "E" (String "_" y)) = false.
Proof.
  intros Ht. destruct t as [|c0 t]; [reflexivity|].
  cbn [append startswith]. destruct (Ascii.eqb "E" c0); [|reflexivity]. cbn [andb].
  cbn in Ht. apply andb_true_iff in Ht. destruct Ht as [_ Ht].
  destruct t as [|c1 t]; [reflexivity|].
  cbn in Ht. apply andb_true_iff in Ht. destruct Ht as [Hc1 _].
  cbn [append startswith].
  rewrite (Ascii.eqb_sym "_" c1), (alnum_not_underscore c1 Hc1). reflexivity.
Qed.

(** A listing never starts with a sentinel: the second character of
    both sentinels after [#E] is an underscore. *)
Lemma plain_listing (es : list (string * cell)) :
  forallb entry_ok es = true -> plain (listing es) = true.
Proof.
  destruct es as [|[t c] r]; [reflexivity|].
  cbn [forallb]. intros H. apply andb_true_iff in H. destruct H as [He _].
  unfold entry_ok in He. cbn [fst snd] in He. apply andb_true_iff in He.
  destruct He as [Ht _]. cbn [listing].
  destruct (cell_text_app t c (listing r)) as [x E]. rewrite E. clear E.
  unfold plain, tab.
  change ("#" ++ t ++ String TAB "" ++ x)%string with (String "#" (t ++ String TAB x)%string).
  change (startswith (String "#" (t ++ String TAB x)%string) "#E_NEED_LOGIN")
    with (Ascii.eqb "#" "#" && startswith (t ++ String TAB x)%string "E_NEED_LOGIN").
  change (startswith (String "#" (t ++ String TAB x)%string) "#E_TOO_MANY_USERS")
    with (Ascii.eqb "#" "#" && startswith (t ++ String TAB x)%string "E_TOO_MANY_USERS").
  rewrite !(code_then_tab_not_E_ t x _ Ht). reflexivity.
Qed.

Lemma forallb_filter {A : Type} (p q : A -> bool) (l : list A) :
  forallb p l = true -> forallb p (filter q l) = true.
Proof.
  induction l as [|a l IH]; [reflexivity|]. cbn. intros H.
  apply andb_true_iff in H. destruct H as [Ha Hl].
  destruct (q a); cbn; [rewrite Ha|]; auto.
Qed.

Lemma NoDup_keys_filter {A : Type} (q : string * A -> bool) (l : list (string * A)) :
  NoDup (map fst l) -> NoDup (map fst (filter q l)).
Proof.
  induction l as [|a l IH]; [intros; constructor|]. cbn. intros H.
  inversion H as [|? ? Hn Hd]; subst. destruct (q a); cbn; [|auto].
  constructor; [|auto]. intros Hin. apply Hn.
  apply in_map_iff in Hin. destruct Hin as (e & Ee & He).
  apply filter_In in He. apply in_map_iff. exists e. tauto.
Qed.

Lemma lookup_cell_filter (t : string) (ts : list string) (es : list (string * cell)) :
  In t ts ->
  lookup_cell t (filter (fun e => existsb (String.eqb (fst e)) ts) es) = lookup_cell t es.
Proof.
  intros Hin. induction es as [|[t' c] r IH]; [reflexivity|].
  cbn [filter fst lookup_cell].
  destruct (String.eqb_spec t t') as [<-|Hne].
  - assert (E : existsb (String.eqb t) ts = true).
    { apply existsb_exists. exists t. split; [exact Hin|apply String.eqb_refl]. }
    rewrite E. cbn [lookup_cell]. rewrite String.eqb_refl. reflexivity.
  - destruct (existsb (String.eqb t') ts); [|exact IH].
    cbn [lookup_cell]. destruct (String.eqb_spec t t'); [contradiction|exact IH].
Qed.

Lemma answers_controller (b : EcotouchBridge) (table : list (string * cell))
    (h0 : list request) :
  forallb entry_ok table = true -> answers (mkState b (controller table) h0).
Proof.
  intros Hok h. cbn [device log]. unfold controller.
  destruct (last (h0 ++ h) Logout); try (eexists; eexists; eexists; split; reflexivity).
  eexists. eexists. eexists. split; [reflexivity|].
  apply plain_listing, forallb_filter, Hok.
Qed.

(** A dictionary is determined by its keys and its entries. *)
Lemma dict_by_keys {V : Type} (g : string -> V) (d : PyDict.t V) :
  NoDup (PyDict.keys d) ->
  (forall k, In k (PyDict.keys d) -> PyDict.get d k = Some (g k)) ->
  d = map (fun k => (k, g k)) (PyDict.keys d).
Proof.
  induction d as [|[k v] d IH]; intros Hnd Hget; [reflexivity|].
  cbn [PyDict.keys map fst] in *. inversion Hnd as [|? ? Hn Hd]; subst.
  pose proof (Hget k (or_introl eq_refl)) as Hk. cbn [PyDict.get] in Hk.
  rewrite String.eqb_refl in Hk. injection Hk as ->.
  f_equal. apply IH; [exact Hd|].
  intros k' Hk'. specialize (Hget k' (or_intror Hk')). cbn [PyDict.get] in Hget.
  destruct (String.eqb_spec k' k) as [E|_]; [|exact Hget].
  exfalso. apply Hn. rewrite <- E. exact Hk'.
Qed.

(** The raw read of distinct registers from a controller that holds
    [table], with the state it ends in. *)
Lemma read_tags_table (c d f : nat) (tags : list string)
    (table : list (string * cell)) (b : EcotouchBridge) (h0 : list request) :
  (1 <= c)%nat ->
  tagsPerRequest b = Z.of_nat c ->
  NoDup tags ->
  forallb code_ok tags = true ->
  forallb entry_ok table = true ->
  NoDup (map fst table) ->
  (2 <= d)%nat ->
  (length tags + 1 <= f)%nat ->
  exists s',
    _read_tags d f tags None None (mkState b (controller table) h0) =
    (Ok (RPair (Some (map (fun t => (t, cell_value (lookup_cell t table))) tags))
               (Some (map (fun t => (t, cell_status (lookup_cell t table))) tags))), s') /\
    self s' = b.
Proof.
  intros Hc Htpr Hnd Hcodes Hok Hkeys Hd Hf.
  set (s := mkState b (controller table) h0).
  destruct (read_tags_plain_summary c d f tags s Hc Hnd (answers_controller b table h0 Hok)
              Htpr Hd Hf) as (r & rs & s' & E & Hself & _ & _ & K1 & K2 & G).
  exists s'. split; [|exact Hself]. rewrite E.
  assert (Each : forall t, In t tags ->
            PyDict.get r t = Some (cell_value (lookup_cell t table)) /\
            PyDict.get rs t = Some (cell_status (lookup_cell t table))).
  { intros t Hin. destruct (G t Hin) as (pre & ch & post & _ & Hch & Gr & Grs).
    cbv zeta in Gr, Grs. cbn [device log s] in Gr, Grs.
    unfold controller in Gr, Grs.
    rewrite map_app, app_assoc in Gr, Grs. cbn [map] in Gr, Grs.
    rewrite last_last in Gr, Grs. cbn [body_of] in Gr, Grs.
    assert (Ht : code_ok t = true).
    { rewrite forallb_forall in Hcodes. apply Hcodes. exact Hin. }
    destruct (listing_cells t
                (filter (fun e => existsb (String.eqb (fst e)) ch) table) Ht
                (forallb_filter _ _ _ Hok) (NoDup_keys_filter _ _ Hkeys)) as [A B].
    rewrite (lookup_cell_filter t ch table Hch) in A, B.
    rewrite B in Gr. rewrite A in Grs. split; assumption. }
  assert (Er : r = map (fun t => (t, cell_value (lookup_cell t table))) tags).
  { rewrite (dict_by_keys (fun t => cell_value (lookup_cell t table)) r);
      rewrite K1; [reflexivity|exact Hnd|].
    intros k Hk. apply Each. exact Hk. }
  assert (Ers : rs = map (fun t => (t, cell_status (lookup_cell t table))) tags).
  { rewrite (dict_by_keys (fun t => cell_status (lookup_cell t table)) rs);
      rewrite K2; [reflexivity|exact Hnd|].
    intros k Hk. apply Each. exact Hk. }
  rewrite <- Er, <- Ers. reflexivity.
Qed.


(** A read of distinct codes from a controller that lists what it
    holds returns, for each requested code and in the requested
    order, the status and value that the controller holds:
    [E_INACTIVE] and [None] for an inactive register, [E_NOTFOUND] and
    [None] for a register that the controller does not hold. *)
Theorem read_tags_returns_the_table (c d f : nat) (tags : list string)
    (table : list (string * cell)) (b : EcotouchBridge) (h0 : list request) :
  (1 <= c)%nat ->
  tagsPerRequest b = Z.of_nat c ->
  NoDup tags ->
  forallb code_ok tags = true ->
  forallb entry_ok table = true ->
  NoDup (map fst table) ->
  (2 <= d)%nat ->
  (length tags + 1 <= f)%nat ->
  fst (_read_tags d f tags None None (mkState b (controller table) h0)) =
  Ok (RPair (Some (map (fun t => (t, cell_value (lookup_cell t table))) tags))
            (Some (map (fun t => (t, cell_status (lookup_cell t table))) tags))).
Proof.
  intros Hc Htpr Hnd Hcodes Hok Hkeys Hd Hf.
  destruct (read_tags_table c d f tags table b h0 Hc Htpr Hnd Hcodes Hok Hkeys Hd Hf)
    as (s' & E & _).
  rewrite E. reflexivity.
Qed.

Lemma read_tags_returns_the_table_witness :
  fst (_read_tags 2 4 ["A1"; "A2"; "A3"] None None
         (mkState (bridge0 2)
            (controller [("A3", Inactive); ("A1", Active "S_OK" "215")]) [])) =
  Ok (RPair (Some [("A1", Some "215"); ("A2", None); ("A3", None)])
            (Some [("A1", "S_OK"); ("A2", "E_NOTFOUND"); ("A3", "E_INACTIVE")])).
Proof.
  apply (read_tags_returns_the_table 2 2 4 ["A1"; "A2"; "A3"]
           [("A3", Inactive); ("A1", Active "S_OK" "215")] (bridge0 2) []).
  - lia.
  - reflexivity.
  - apply NoDup_by_nodup. reflexivity.
  - reflexivity.
  - reflexivity.
  - apply NoDup_by_nodup. reflexivity.
  - lia.
  - cbn. lia.
Defined.

(** ** A chunk that fails *)

(** One call for a list that fits a chunk and gets no response. *)
Lemma read_tags_one_chunk_no_response (d f : nat) (tags : list string)
    (r : option raw_values) (rs : option raw_status) (s : state) :
  (Z.of_nat (length tags) <= tagsPerRequest (self s))%Z ->
  device s (log s ++ [ReadTags (auth_cookies (self s)) tags]) = NoResponse ->
  _read_tags (S d) (S f) tags r rs s =
  (Raise ClientError,
   mkState (self s) (device s) (log s ++ [ReadTags (auth_cookies (self s)) tags])).
Proof.
  intros Hlen Hd. rewrite read_tags_S. cbv zeta.
  unfold bind at 1. rewrite while_chunks_stop by assumption.
  unfold bind at 1. unfold get_self at 1.
  unfold bind at 1. rewrite http_get_eq, Hd. reflexivity.
Qed.

(** One call for a list that fits a chunk and is answered with the
    too-many-users sentinel. *)
Lemma read_tags_one_chunk_too_many (d f : nat) (tags : list string)
    (r : option raw_values) (rs : option raw_status) (s : state)
    (code : Z) (body : string) (jar : cookies) :
  (Z.of_nat (length tags) <= tagsPerRequest (self s))%Z ->
  device s (log s ++ [ReadTags (auth_cookies (self s)) tags]) = Response code body jar ->
  startswith body "#E_NEED_LOGIN" = false ->
  startswith body "#E_TOO_MANY_USERS" = true ->
  _read_tags (S d) (S f) tags r rs s =
  (Ok RNone,
   mkState (self s) (device s) (log s ++ [ReadTags (auth_cookies (self s)) tags])).
Proof.
  intros Hlen Hd H1 H2. rewrite read_tags_S. cbv zeta.
  unfold bind at 1. rewrite while_chunks_stop by assumption.
  unfold bind at 1. unfold get_self at 1.
  unfold bind at 1. rewrite http_get_eq, Hd, H1, H2. reflexivity.
Qed.

Lemma plain_run_app (dev : list request -> reply) (jar : option cookies)
    (h : list request) (a b : list (list string)) :
  plain_run dev jar h (a ++ b) <->
  plain_run dev jar h a /\ plain_run dev jar (h ++ map (ReadTags jar) a) b.
Proof.
  revert h. induction a as [|ch a IH]; intros h.
  - cbn. rewrite app_nil_r. tauto.
  - cbn [app plain_run map]. rewrite IH, <- app_assoc. cbn [app]. tauto.
Qed.

(** The loop over chunks that are all answered plainly, as
    [while_chunks_run], with the replies required only for the calls
    that the loop makes. *)
Lemma while_chunks_run_local (c d f n : nat) :
  (1 <= c)%nat ->
  forall (tags : list string) (r : raw_values) (rs : raw_status) (s : state),
    plain_run (device s) (auth_cookies (self s)) (log s) (loop_chunks n c tags) ->
    tagsPerRequest (self s) = Z.of_nat c ->
    (length tags <= n)%nat ->
    while_chunks (_read_tags (S d) (S f)) (S n) tags (Some r) (Some rs) s =
    (let '(h, r', rs') :=
       run_chunks (device s) (auth_cookies (self s)) (loop_chunks n c tags) (log s) r rs in
     (Ok (loop_rest n c tags, Some r', Some rs'), mkState (self s) (device s) h)).
Proof.
  intros Hc. induction n as [|n IH]; intros tags r rs s Hrun Htpr Hlen.
  - rewrite while_chunks_stop by (rewrite Htpr; lia).
    cbn. destruct s; reflexivity.
  - cbn [loop_chunks loop_rest]. cbn [loop_chunks] in Hrun.
    destruct (Nat.ltb_spec c (length tags)) as [Hlt|Hge].
    + rewrite while_chunks_S. unfold bind at 1. unfold get_self at 1.
      destruct (Z.gtb_spec (Z.of_nat (length tags)) (tagsPerRequest (self s))) as [_|Hn];
        [|rewrite Htpr in Hn; lia].
      rewrite Htpr, slice_to_nat, slice_from_nat.
      cbn [plain_run] in Hrun. destruct Hrun as [(code & body & jar & Hd & Hp) Hrun].
      unfold bind at 1.
      rewrite (read_tags_one_chunk d f (firstn c tags) (Some r) (Some rs) s code body jar);
        [| rewrite Htpr, length_firstn; lia | exact Hd | exact Hp].
      cbn [unpack or_empty]. unfold bind at 1. cbn [ret fst snd].
      rewrite IH.
      * cbn [run_chunks self device log]. rewrite Hd. reflexivity.
      * exact Hrun.
      * exact Htpr.
      * cbn. rewrite length_skipn. lia.
    + rewrite while_chunks_stop by (rewrite Htpr; lia).
      cbn. destruct s; reflexivity.
Qed.

(** The loop when the recursive call for one of its chunks ends
    without a pair: an exception of the call leaves the loop, and a
    returned [None] is a [TypeError] when it is unpacked. *)
Lemma while_chunks_fails (c d f : nat) (ch : list string) (post : list (list string))
    (x : outcome tags_result) :
  (1 <= c)%nat ->
  (x = Ok RNone \/ exists e, x = Raise e) ->
  forall (pre : list (list string)) (n : nat) (tags : list string)
         (r : raw_values) (rs : raw_status) (s : state) (s2 : state),
    tagsPerRequest (self s) = Z.of_nat c ->
    loop_chunks n c tags = pre ++ ch :: post ->
    plain_run (device s) (auth_cookies (self s)) (log s) pre ->
    (forall r1 rs1,
       _read_tags (S d) (S f) ch (Some r1) (Some rs1)
         (mkState (self s) (device s)
            (log s ++ map (ReadTags (auth_cookies (self s))) pre)) = (x, s2)) ->
    while_chunks (_read_tags (S d) (S f)) (S n) tags (Some r) (Some rs) s =
    (match x with Raise e => Raise e | _ => Raise TypeError end, s2).
Proof.
  intros Hc Hx. induction pre as [|p pre IH]; intros n tags r rs s s2 Htpr Hloop Hrun Hch.
  - destruct n as [|n]; [discriminate Hloop|]. cbn [loop_chunks] in Hloop.
    destruct (Nat.ltb_spec c (length tags)) as [Hlt|Hge]; [|discriminate Hloop].
    cbn [app] in Hloop. injection Hloop as Hfirst Hrest.
    rewrite while_chunks_S. unfold bind at 1. unfold get_self at 1.
    destruct (Z.gtb_spec (Z.of_nat (length tags)) (tagsPerRequest (self s))) as [_|Hn];
      [|rewrite Htpr in Hn; lia].
    rewrite Htpr, slice_to_nat, Hfirst.
    specialize (Hch r rs). cbn [map] in Hch. rewrite app_nil_r in Hch.
    replace (mkState (self s) (device s) (log s)) with s in Hch by (destruct s; reflexivity).
    unfold bind at 1. rewrite Hch.
    destruct Hx as [->|[e ->]]; reflexivity.
  - destruct n as [|n]; [discriminate Hloop|]. cbn [loop_chunks] in Hloop.
    destruct (Nat.ltb_spec c (length tags)) as [Hlt|Hge]; [|discriminate Hloop].
    cbn [app] in Hloop. injection Hloop as Hfirst Hrest. subst p.
    cbn [plain_run] in Hrun. destruct Hrun as [(code & body & jar & Hd & Hp) Hrun].
    rewrite while_chunks_S. unfold bind at 1. unfold get_self at 1.
    destruct (Z.gtb_spec (Z.of_nat (length tags)) (tagsPerRequest (self s))) as [_|Hn];
      [|rewrite Htpr in Hn; lia].
    rewrite Htpr, slice_to_nat, slice_from_nat.
    unfold bind at 1.
    rewrite (read_tags_one_chunk d f (firstn c tags) (Some r) (Some rs) s code body jar);
      [| rewrite Htpr, length_firstn; lia | exact Hd | exact Hp].
    cbn [unpack or_empty]. unfold bind at 1. cbn [ret fst snd].
    apply (IH n (skipn c tags) _ _
             (mkState (self s) (device s)
                (log s ++ [ReadTags (auth_cookies (self s)) (firstn c tags)])) s2).
    + exact Htpr.
    + exact Hrest.
    + exact Hrun.
    + intros r1 rs1. cbn [self device log]. rewrite <- app_assoc. apply (Hch r1 rs1).
Qed.

Lemma split_snoc {A : Type} (pre post loop : list A) (ch rest : A) :
  pre ++ ch :: post = loop ++ [rest] ->
  (post = [] /\ pre = loop /\ ch = rest) \/
  (exists post', post = post' ++ [rest] /\ loop = pre ++ ch :: post').
Proof.
  intros H. destruct post as [|y post].
  - left. apply app_inj_tail in H. tauto.
  - right. destruct (exists_last (l := y :: post)) as (post' & z & E); [discriminate|].
    rewrite E in H. rewrite app_comm_cons, app_assoc in H.
    apply app_inj_tail in H. destruct H as [H1 H2]. subst z.
    exists post'. split; [exact E|]. rewrite <- H1. reflexivity.
Qed.

Lemma chunk_fits (c : nat) (tags : list string) (pre post : list (list string))
    (ch : list string) :
  (1 <= c)%nat -> chunks c tags = pre ++ ch :: post -> (length ch <= c)%nat.
Proof.
  intros Hc E. unfold chunks in E.
  destruct (loop_sizes c Hc (length tags) tags (le_n _)) as (F & L & _).
  symmetry in E. apply split_snoc in E.
  destruct E as [(_ & _ & ->)|(post' & _ & E)]; [exact L|].
  rewrite E in F. apply Forall_app in F. destruct F as [_ F].
  inversion F as [|? ? Hch _]; subst. lia.
Qed.

(** After its loop, a call goes on as a call for the list that the
    loop has left, with the dictionaries that the loop has left. *)
Lemma read_tags_after_loop (d f : nat) (tags rest : list string)
    (r : option raw_values) (rs : option raw_status) (r' : raw_values) (rs' : raw_status)
    (s s1 : state) :
  while_chunks (_read_tags d (S f)) (S f) tags
    (match r with None => Some PyDict.empty | Some _ => r end)
    (match rs with None => Some PyDict.empty | Some _ => rs end) s
  = (Ok (rest, Some r', Some rs'), s1) ->
  (Z.of_nat (length rest) <= tagsPerRequest (self s1))%Z ->
  _read_tags (S d) (S f) tags r rs s = _read_tags (S d) (S f) rest (Some r') (Some rs') s1.
Proof.
  intros Hw Hlen. rewrite !read_tags_S. cbv zeta.
  unfold bind at 1. rewrite Hw.
  symmetry. unfold bind at 1. rewrite while_chunks_stop by assumption. reflexivity.
Qed.

(** A read in which the call for one chunk ends without a pair, the
    chunks before it having been answered plainly. *)
Lemma read_tags_chunk_fails (c d f : nat) (tags : list string) (s s2 : state)
    (pre post : list (list string)) (ch : list string) (x : outcome tags_result) :
  (1 <= c)%nat ->
  tagsPerRequest (self s) = Z.of_nat c ->
  (2 <= d)%nat ->
  (length tags + 1 <= f)%nat ->
  chunks c tags = pre ++ ch :: post ->
  plain_run (device s) (auth_cookies (self s)) (log s) pre ->
  (x = Ok RNone \/ exists e, x = Raise e) ->
  (forall g r1 rs1,
     _read_tags (S g) f ch (Some r1) (Some rs1)
       (mkState (self s) (device s)
          (log s ++ map (ReadTags (auth_cookies (self s))) pre)) = (x, s2)) ->
  _read_tags d f tags None None s =
  (match post with
   | [] => x
   | _ => match x with Raise e => Raise e | _ => Raise TypeError end
   end, s2).
Proof.
  intros Hc Htpr Hd Hf Hchunks Hrun Hx Hone.
  destruct d as [|[|d]]; try lia. destruct f as [|f]; try lia.
  unfold chunks in Hchunks.
  destruct (loop_fuel c Hc f (length tags) tags) as [E1 E2]; try lia.
  rewrite <- E1, <- E2 in Hchunks. symmetry in Hchunks.
  apply split_snoc in Hchunks.
  destruct Hchunks as [(-> & -> & ->)|(post' & -> & Hloop)].
  - pose proof (while_chunks_run_local c d f f Hc tags PyDict.empty PyDict.empty s
                  Hrun Htpr) as W.
    pose proof (run_chunks_log (device s) (auth_cookies (self s))
                  (loop_chunks f c tags) (log s) PyDict.empty PyDict.empty) as L.
    destruct (run_chunks (device s) (auth_cookies (self s)) (loop_chunks f c tags)
                (log s) PyDict.empty PyDict.empty) as [[h r'] rs'].
    cbn [fst] in L. subst h.
    rewrite (read_tags_after_loop (S d) f tags (loop_rest f c tags) None None r' rs' s
               (mkState (self s) (device s)
                  (log s ++ map (ReadTags (auth_cookies (self s)))
                                (loop_chunks f c tags))));
      [apply Hone|apply W; lia|].
    cbn [self]. rewrite Htpr.
    destruct (loop_sizes c Hc f tags) as (_ & L' & _); lia.
  - rewrite read_tags_S. cbv beta iota zeta. unfold bind at 1.
    pose proof (while_chunks_fails c d f ch post' x Hc Hx pre f tags
                  PyDict.empty PyDict.empty s s2 Htpr Hloop Hrun (Hone d)) as Wf.
    unfold raw_values, raw_status in Wf. rewrite Wf.
    destruct post'; destruct Hx as [->|[e ->]]; reflexivity.
Qed.

(** If the call for any chunk of a read gets no response, after plain
    replies to the chunks before it, the whole read ends in the
    transport's exception, right after that call: [_read_tags] raises
    it and so does [read_values], and the chunks after it are not
    asked for. *)
Theorem read_fails_when_a_chunk_gets_no_response
    (list_set : list string -> list string) (c d f : nat) (ds : list TagData) (s : state)
    (pre post : list (list string)) (ch : list string) :
  let e_tags := list_set (flat_tags ds) in
  let jar := auth_cookies (self s) in
  let s2 := mkState (self s) (device s) (log s ++ map (ReadTags jar) (pre ++ [ch])) in
  (1 <= c)%nat ->
  tagsPerRequest (self s) = Z.of_nat c ->
  (2 <= d)%nat ->
  (length e_tags + 1 <= f)%nat ->
  chunks c e_tags = pre ++ ch :: post ->
  plain_run (device s) jar (log s) pre ->
  device s (log s ++ map (ReadTags jar) (pre ++ [ch])) = NoResponse ->
  _read_tags d f e_tags None None s = (Raise ClientError, s2) /\
  read_values list_set d f ds s = (Raise ClientError, s2).
Proof.
  intros e_tags jar s2 Hc Htpr Hd2 Hf Hchunks Hrun Hd.
  assert (E : _read_tags d f e_tags None None s = (Raise ClientError, s2)).
  { rewrite (read_tags_chunk_fails c d f e_tags s s2 pre post ch (Raise ClientError)
               Hc Htpr Hd2 Hf Hchunks Hrun (or_intror (ex_intro _ ClientError eq_refl))).
    - destruct post; reflexivity.
    - intros g r1 rs1. destruct f as [|f]; [lia|].
      rewrite read_tags_one_chunk_no_response.
      + unfold s2, jar. cbn [self device log]. rewrite map_app, app_assoc. reflexivity.
      + cbn [self]. rewrite Htpr. pose proof (chunk_fits c e_tags pre post ch Hc Hchunks). lia.
      + cbn [self device log]. rewrite <- app_assoc.
        rewrite map_app in Hd. exact Hd. }
  split; [exact E|].
  unfold read_values. fold e_tags. unfold bind at 1. rewrite E. reflexivity.
Qed.

(** If the call for any chunk of a read is answered with the
    too-many-users sentinel, after plain replies to the chunks before
    it, the read stops right after that call: [_read_tags] returns
    [None] when the chunk is the last one and ends in a [TypeError]
    otherwise, and [read_values] ends in a [TypeError] in both
    cases. *)
Theorem read_stops_when_a_chunk_reports_too_many_users
    (list_set : list string -> list string) (c d f : nat) (ds : list TagData) (s : state)
    (pre post : list (list string)) (ch : list string)
    (code : Z) (body : string) (j : cookies) :
  let e_tags := list_set (flat_tags ds) in
  let jar := auth_cookies (self s) in
  let s2 := mkState (self s) (device s) (log s ++ map (ReadTags jar) (pre ++ [ch])) in
  (1 <= c)%nat ->
  tagsPerRequest (self s) = Z.of_nat c ->
  (2 <= d)%nat ->
  (length e_tags + 1 <= f)%nat ->
  chunks c e_tags = pre ++ ch :: post ->
  plain_run (device s) jar (log s) pre ->
  device s (log s ++ map (ReadTags jar) (pre ++ [ch])) = Response code body j ->
  startswith body "#E_NEED_LOGIN" = false ->
  startswith body "#E_TOO_MANY_USERS" = true ->
  _read_tags d f e_tags None None s =
  (match post with [] => Ok RNone | _ => Raise TypeError end, s2) /\
  read_values list_set d f ds s = (Raise TypeError, s2).
Proof.
  intros e_tags jar s2 Hc Htpr Hd2 Hf Hchunks Hrun Hd H1 H2.
  assert (E : _read_tags d f e_tags None None s =
              (match post with [] => Ok RNone | _ => Raise TypeError end, s2)).
  { rewrite (read_tags_chunk_fails c d f e_tags s s2 pre post ch (Ok RNone)
               Hc Htpr Hd2 Hf Hchunks Hrun (or_introl eq_refl)).
    - reflexivity.
    - intros g r1 rs1. destruct f as [|f]; [lia|].
      rewrite (read_tags_one_chunk_too_many g f ch _ _ _ code body j).
      + unfold s2, jar. cbn [self device log]. rewrite map_app, app_assoc. reflexivity.
      + cbn [self]. rewrite Htpr. pose proof (chunk_fits c e_tags pre post ch Hc Hchunks). lia.
      + cbn [self device log]. rewrite <- app_assoc.
        rewrite map_app in Hd. exact Hd.
      + exact H1.
      + exact H2. }
  split; [exact E|].
  unfold read_values. fold e_tags. unfold bind at 1. rewrite E.
  destruct post; reflexivity.
Qed.

Lemma read_fails_when_a_chunk_gets_no_response_witness :
  read_values dedup 2 4
    [TEMPERATURE_OUTSIDE; TEMPERATURE_OUTSIDE_1H; TEMPERATURE_OUTSIDE_24H]
    (start 1 (scripted [Response 200 (block "A1" "S_OK" "215") ""]))
  = (Raise ClientError,
     mkState (bridge0 1) (scripted [Response 200 (block "A1" "S_OK" "215") ""])
       [ReadTags None ["A1"]; ReadTags None ["A2"]]).
Proof.
  apply (read_fails_when_a_chunk_gets_no_response dedup 1 2 4
           [TEMPERATURE_OUTSIDE; TEMPERATURE_OUTSIDE_1H; TEMPERATURE_OUTSIDE_24H]
           (start 1 (scripted [Response 200 (block "A1" "S_OK" "215") ""]))
           [["A1"]] [["A3"]] ["A2"]).
  - lia.
  - reflexivity.
  - lia.
  - cbn. lia.
  - reflexivity.
  - cbn. split; [|exact I]. eexists. eexists. eexists. split; reflexivity.
  - reflexivity.
Defined.

Lemma read_stops_when_a_chunk_reports_too_many_users_witness :
  read_values dedup 2 4
    [TEMPERATURE_OUTSIDE; TEMPERATURE_OUTSIDE_1H; TEMPERATURE_OUTSIDE_24H]
    (start 1 (scripted [Response 200 (block "A1" "S_OK" "215") "";
                        Response 200 "#E_TOO_MANY_USERS" ""]))
  = (Raise TypeError,
     mkState (bridge0 1) (scripted [Response 200 (block "A1" "S_OK" "215") "";
                                    Response 200 "#E_TOO_MANY_USERS" ""])
       [ReadTags None ["A1"]; ReadTags None ["A2"]]).
Proof.
  apply (read_stops_when_a_chunk_reports_too_many_users dedup 1 2 4
           [TEMPERATURE_OUTSIDE; TEMPERATURE_OUTSIDE_1H; TEMPERATURE_OUTSIDE_24H]
           (start 1 (scripted [Response 200 (block "A1" "S_OK" "215") "";
                               Response 200 "#E_TOO_MANY_USERS" ""]))
           [["A1"]] [["A3"]] ["A2"] 200 "#E_TOO_MANY_USERS" "").
  - lia.
  - reflexivity.
  - lia.
  - cbn. lia.
  - reflexivity.
  - cbn. split; [|exact I]. eexists. eexists. eexists. split; reflexivity.
  - reflexivity.
  - reflexivity.
  - reflexivity.
Defined.

(** ** A re-login that fails *)

(** What [login] raises, by the controller's reply, when it is not a
    status error. *)
Lemma login_fails_outright (u p : string) (s : state) (e : exn) :
  match device s (log s ++ [Login u p]) with
  | NoResponse => e = ClientError
  | Response code body _ =>
      if (code =? 200)%Z
      then search_status true body = None /\ e = InvalidResponseException
      else e = AssertionError
  end ->
  login u p s =
  (Raise e, mkState (mkBridge (hostname (self s)) u p (tagsPerRequest (self s))
                       (auth_cookies (self s)) (lang_map (self s)))
                    (device s) (log s ++ [Login u p])) /\
  is_StatusException e = false.
Proof.
  intros H. unfold login, bind, set_credentials. rewrite http_get_eq. cbn.
  destruct (device s (log s ++ [Login u p])) as [code body jar|]; cbn.
  - destruct (code =? 200)%Z; cbn.
    + destruct H as [Hs ->]. unfold get_status_response. rewrite Hs. split; reflexivity.
    + subst e. split; reflexivity.
  - subst e. split; reflexivity.
Qed.

(** A needs-login reply followed by a login that gets no response, a
    status other than 200 or a body without a status line: the
    exception of [login] is not a status error, so it leaves
    [_read_tags], [read_values], [_write_tags] and [write_value] as it
    is, after the one login and with no further call. *)
Theorem failed_relogin_propagates (list_set : list string -> list string) (d f : nat)
    (ds : list TagData) (a : TagData) (v : pyval) (to_write : PyDict.t string)
    (s : state) (c1 : Z) (need : string) (j1 : cookies) (R : reply)
    (rest : list reply) (e : exn) :
  let e_tags := list_set (flat_tags ds) in
  let u := username (self s) in
  let p := password (self s) in
  let after (call : request) :=
    mkState (mkBridge (hostname (self s)) u p (tagsPerRequest (self s))
               (auth_cookies (self s)) (lang_map (self s)))
            (device s) (log s ++ [call; Login u p]) in
  (Z.of_nat (length e_tags) <= tagsPerRequest (self s))%Z ->
  writeable a = true ->
  encode_function a v PyDict.empty = inl to_write ->
  startswith need "#E_NEED_LOGIN" = true ->
  follows s (Response c1 need j1 :: R :: rest) ->
  match R with
  | NoResponse => e = ClientError
  | Response code body _ =>
      if (code =? 200)%Z
      then search_status true body = None /\ e = InvalidResponseException
      else e = AssertionError
  end ->
  read_values list_set (S d) (S f) ds s
  = (Raise e, after (ReadTags (auth_cookies (self s)) e_tags)) /\
  write_value (S d) a v s
  = (Raise e, after (WriteTags (auth_cookies (self s)) (PyDict.keys to_write)
                       (PyDict.values to_write))).
Proof.
  intros e_tags u p after Hlen Hw Henc Hneed Hf HR. split.
  - unfold read_values. fold e_tags. unfold bind at 1.
    rewrite read_tags_S. cbv zeta.
    unfold bind at 1. rewrite while_chunks_stop by assumption.
    unfold bind at 1. unfold get_self at 1.
    unfold bind at 1. rewrite http_get_eq.
    rewrite (follows_head s _ _ _ Hf). rewrite Hneed.
    set (s1 := mkState (self s) (device s)
                 (log s ++ [ReadTags (auth_cookies (self s)) e_tags])).
    assert (Hf1 : follows s1 (R :: rest)).
    { eapply follows_tail; [exact Hf|reflexivity|reflexivity]. }
    unfold try_except. unfold bind at 1. unfold get_self at 1. unfold bind at 1.
    destruct (login_fails_outright (username (self s1)) (password (self s1)) s1 e)
      as [El He].
    { rewrite (follows_head s1 _ _ _ Hf1). exact HR. }
    rewrite El, He. unfold after, s1. cbn [self device log hostname tagsPerRequest
                                            auth_cookies lang_map username password].
    rewrite <- app_assoc. reflexivity.
  - unfold write_value, write_values. cbn [write_values_loop].
    rewrite Hw. cbn [negb]. unfold bind at 1. rewrite Henc. cbn [lift ret].
    unfold bind at 1. rewrite write_tags_S.
    rewrite keys_values_length, Nat.ltb_irrefl.
    rewrite <- (keys_values_length to_write), firstn_all.
    unfold bind at 1. unfold get_self at 1.
    unfold bind at 1. rewrite http_get_eq.
    rewrite (follows_head s _ _ _ Hf). rewrite Hneed.
    set (s1 := mkState (self s) (device s)
                 (log s ++ [WriteTags (auth_cookies (self s)) (PyDict.keys to_write)
                              (PyDict.values to_write)])).
    assert (Hf1 : follows s1 (R :: rest)).
    { eapply follows_tail; [exact Hf|reflexivity|reflexivity]. }
    unfold try_except. unfold bind at 1. unfold get_self at 1. unfold bind at 1.
    destruct (login_fails_outright (username (self s1)) (password (self s1)) s1 e)
      as [El He].
    { rewrite (follows_head s1 _ _ _ Hf1). exact HR. }
    rewrite El, He. unfold after, s1. cbn [self device log hostname tagsPerRequest
                                            auth_cookies lang_map username password].
    rewrite <- app_assoc. reflexivity.
Qed.

Lemma failed_relogin_propagates_witness :
  read_values dedup 1 1 [TEMPERATURE_OUTSIDE]
    (start 10 (scripted [Response 200 "#E_NEED_LOGIN" ""; Response 503 "" ""]))
  = (Raise AssertionError,
     mkState (bridge0 10)
       (scripted [Response 200 "#E_NEED_LOGIN" ""; Response 503 "" ""])
       [ReadTags None ["A1"]; Login "waterkotte" "waterkotte"]) /\
  write_value 1 TEMPERATURE_ROOM_TARGET (PyFloat 215)
    (start 10 (scripted [Response 200 "#E_NEED_LOGIN" ""; Response 503 "" ""]))
  = (Raise AssertionError,
     mkState (bridge0 10)
       (scripted [Response 200 "#E_NEED_LOGIN" ""; Response 503 "" ""])
       [WriteTags None ["A100"] ["215"]; Login "waterkotte" "waterkotte"]).
Proof.
  split.
  - apply (failed_relogin_propagates dedup 0 0 [TEMPERATURE_OUTSIDE]
             TEMPERATURE_ROOM_TARGET (PyFloat 215) [("A100", "215")]
             (start 10 (scripted [Response 200 "#E_NEED_LOGIN" ""; Response 503 "" ""]))
             200 "#E_NEED_LOGIN" "" (Response 503 "" "") [] AssertionError);
      try reflexivity.
    + cbn. lia.
    + apply follows_scripted.
  - apply (failed_relogin_propagates dedup 0 0 [TEMPERATURE_OUTSIDE]
             TEMPERATURE_ROOM_TARGET (PyFloat 215) [("A100", "215")]
             (start 10 (scripted [Response 200 "#E_NEED_LOGIN" ""; Response 503 "" ""]))
             200 "#E_NEED_LOGIN" "" (Response 503 "" "") [] AssertionError);
      try reflexivity.
    + cbn. lia.
    + apply follows_scripted.
Defined.

(** A batch whose registers fit one request, and a write: a
    needs-login reply followed by a login that the controller answers
    with a status other than [S_OK] (wrong password, too many users).
    [read_values] returns an empty map and raises nothing, whereas
    [write_value] ends in a [TypeError]; in both cases one login has
    been made and nothing has been sent again. (A read of several
    chunks goes on with the next chunk.) *)
Theorem rejected_relogin_reads_empty_and_breaks_writes
    (list_set : list string -> list string) (d f : nat)
    (ds : list TagData) (a : TagData) (v : pyval) (to_write : PyDict.t string)
    (s : state) (c1 : Z) (need : string) (j1 : cookies) (bad g : string) (jar : cookies)
    (rest : list reply) :
  let e_tags := list_set (flat_tags ds) in
  let u := username (self s) in
  let p := password (self s) in
  (Z.of_nat (length e_tags) <= tagsPerRequest (self s))%Z ->
  writeable a = true ->
  encode_function a v PyDict.empty = inl to_write ->
  startswith need "#E_NEED_LOGIN" = true ->
  search_status true bad = Some g ->
  g <> "S_OK" ->
  follows s (Response c1 need j1 :: Response 200 bad jar :: rest) ->
  (exists s',
     read_values list_set (S d) (S f) ds s = (Ok PyDict.empty, s') /\
     log s' = log s ++ [ReadTags (auth_cookies (self s)) e_tags; Login u p]) /\
  (exists s',
     write_value (S d) a v s = (Raise TypeError, s') /\
     log s' = log s ++ [WriteTags (auth_cookies (self s)) (PyDict.keys to_write)
                          (PyDict.values to_write); Login u p]).
Proof.
  intros e_tags u p Hlen Hw Henc Hneed Hbad Hg Hf. split.
  - destruct (read_tags_relogin_rejected d f s e_tags None None c1 need j1 bad g jar rest
                Hlen Hneed Hbad Hg Hf) as (s' & E & L).
    exists s'. split; [|exact L].
    unfold read_values. fold e_tags. unfold bind at 1. rewrite E. reflexivity.
  - destruct (write_tags_relogin_rejected d s (PyDict.keys to_write)
                (PyDict.values to_write) c1 need j1 bad g jar rest
                (keys_values_length to_write) Hneed Hbad Hg Hf) as (s' & E & L).
    exists s'. split; [|exact L].
    unfold write_value, write_values. cbn [write_values_loop].
    rewrite Hw. cbn [negb]. unfold bind at 1. rewrite Henc. cbn [lift ret].
    unfold bind at 1. rewrite E. reflexivity.
Qed.

Lemma rejected_relogin_reads_empty_and_breaks_writes_witness :
  (exists s',
     read_values dedup 1 1 [TEMPERATURE_OUTSIDE]
       (start 10 (scripted [Response 200 "#E_NEED_LOGIN" "";
                            Response 200 "#E_PASS_DONT_MATCH" ""]))
     = (Ok PyDict.empty, s') /\
     log s' = [] ++ [ReadTags None ["A1"]; Login "waterkotte" "waterkotte"]) /\
  (exists s',
     write_value 1 TEMPERATURE_ROOM_TARGET (PyFloat 215)
       (start 10 (scripted [Response 200 "#E_NEED_LOGIN" "";
                            Response 200 "#E_PASS_DONT_MATCH" ""]))
     = (Raise TypeError, s') /\
     log s' = [] ++ [WriteTags None ["A100"] ["215"]; Login "waterkotte" "waterkotte"]).
Proof.
  apply (rejected_relogin_reads_empty_and_breaks_writes dedup 0 0 [TEMPERATURE_OUTSIDE]
           TEMPERATURE_ROOM_TARGET (PyFloat 215) [("A100", "215")]
           (start 10 (scripted [Response 200 "#E_NEED_LOGIN" "";
                                Response 200 "#E_PASS_DONT_MATCH" ""]))
           200 "#E_NEED_LOGIN" "" "#E_PASS_DONT_MATCH" "E_PASS_DONT_MATCH" "" []);
    try reflexivity.
  - cbn. lia.
  - discriminate.
  - apply follows_scripted.
Defined.

(** ** Writes that are not confirmed *)

(** A write of a writeable descriptor that the controller answers
    plainly, but with a status other than [S_OK] for one of the
    written registers (a register that is inactive or not listed
    among them): [write_value] returns the empty map without
    decoding the echo, and raises nothing. *)
Theorem write_value_not_confirmed (f : nat) (a : TagData) (v : pyval) (s : state)
    (to_write : PyDict.t string) (code : Z) (body : string) (jar : cookies) :
  let call := WriteTags (auth_cookies (self s)) (PyDict.keys to_write)
                (PyDict.values to_write) in
  writeable a = true ->
  encode_function a v PyDict.empty = inl to_write ->
  device s (log s ++ [call]) = Response code body jar ->
  plain body = true ->
  all_ok (record_status body (PyDict.keys to_write) PyDict.empty) = false ->
  write_value (S f) a v s =
  (Ok PyDict.empty, mkState (self s) (device s) (log s ++ [call])).
Proof.
  intros call Hw Henc Hd Hp Hbad.
  unfold write_value, write_values. cbn [write_values_loop].
  rewrite Hw. cbn [negb]. unfold bind at 1. rewrite Henc. cbn [lift ret].
  unfold bind at 1.
  rewrite (write_tags_plain f _ _ s code body jar (keys_values_length to_write) Hd Hp).
  unfold bind at 1. cbn [unpack ret fst snd].
  unfold bind at 1. unfold after_write. rewrite Hbad.
  destruct (0 <? length (record_values body (PyDict.keys to_write) PyDict.empty))%nat;
    reflexivity.
Qed.

Lemma write_value_not_confirmed_witness :
  write_value 1 TEMPERATURE_ROOM_TARGET (PyFloat 215)
    (start 10 (steady (inactive_block "A100")))
  = (Ok PyDict.empty,
     mkState (bridge0 10) (steady (inactive_block "A100"))
       [WriteTags None ["A100"] ["215"]]).
Proof.
  apply (write_value_not_confirmed 0 TEMPERATURE_ROOM_TARGET (PyFloat 215)
           (start 10 (steady (inactive_block "A100")))
           [("A100", "215")] 200 (inactive_block "A100") ""); reflexivity.
Defined.

(** A write whose call gets no response ends in the transport's
    exception after that one call. *)
Theorem write_value_no_response (f : nat) (a : TagData) (v : pyval) (s : state)
    (to_write : PyDict.t string) :
  let call := WriteTags (auth_cookies (self s)) (PyDict.keys to_write)
                (PyDict.values to_write) in
  writeable a = true ->
  encode_function a v PyDict.empty = inl to_write ->
  device s (log s ++ [call]) = NoResponse ->
  write_value (S f) a v s =
  (Raise ClientError, mkState (self s) (device s) (log s ++ [call])).
Proof.
  intros call Hw Henc Hd.
  unfold write_value, write_values. cbn [write_values_loop].
  rewrite Hw. cbn [negb]. unfold bind at 1. rewrite Henc. cbn [lift ret].
  unfold bind at 1. rewrite write_tags_S.
  rewrite keys_values_length, Nat.ltb_irrefl.
  rewrite <- (keys_values_length to_write), firstn_all.
  unfold bind at 1. unfold get_self at 1.
  unfold bind at 1. rewrite http_get_eq. fold call. rewrite Hd. reflexivity.
Qed.

Lemma write_value_no_response_witness :
  write_value 1 TEMPERATURE_ROOM_TARGET (PyFloat 215) (start 10 (scripted []))
  = (Raise ClientError,
     mkState (bridge0 10) (scripted []) [WriteTags None ["A100"] ["215"]]).
Proof.
  apply (write_value_no_response 0 TEMPERATURE_ROOM_TARGET (PyFloat 215)
           (start 10 (scripted [])) [("A100", "215")]); reflexivity.
Defined.

(** ** The result of a batch read *)

Lemma set_new {V : Type} (d : PyDict.t V) (k : string) (v : V) :
  PyDict.mem d k = false -> PyDict.set d k v = d ++ [(k, v)].
Proof.
  unfold PyDict.mem. induction d as [|[k' v'] d IH]; intros H; [reflexivity|].
  cbn [PyDict.get] in H. cbn [PyDict.set app].
  destruct (String.eqb k k'); [discriminate H|]. rewrite IH by exact H. reflexivity.
Qed.

Lemma mem_app_one {V : Type} (d : PyDict.t V) (k k' : string) (v : V) :
  PyDict.mem (d ++ [(k, v)]) k' = PyDict.mem d k' || String.eqb k' k.
Proof.
  unfold PyDict.mem. induction d as [|[k0 v0] d IH]; cbn [app PyDict.get].
  - destruct (String.eqb k' k); reflexivity.
  - destruct (String.eqb k' k0); [reflexivity|exact IH].
Qed.

(** One descriptor of the loop of [read_values] when its registers
    are all there: what the body leaves in [result]. *)
Lemma try_body_entry (lm : PyDict.t (list string)) (ev : raw_values) (es : raw_status)
    (a : TagData) (f : frame) :
  (forall t, In t (tags a) -> PyDict.mem ev t = true) ->
  (forall t, In t (tags a) -> PyDict.mem es t = true) ->
  exists tv ts oe,
    try_body lm ev (Some es) a f =
    (mkFrame (match entry_of lm ev es a with
              | Some e => PyDict.set (result f) (name a) e
              | None => result f
              end) (Some tv) (Some ts), oe).
Proof.
  intros Hev Hes.
  destruct (lookup_all_total ev (tags a) Hev) as (tv & Etv & Ltv).
  destruct (lookup_all_total es (tags a) Hes) as (ts & Ets & Lts).
  exists tv, ts. unfold try_body, entry_of, shown_value. rewrite Etv, Ets.
  destruct (decode_function a tv) as [v|e].
  - destruct ts as [|st0 ts']; [eexists; reflexivity|].
    destruct (translate a); [|eexists; reflexivity].
    destruct (tags a) as [|t0 rest]; [eexists; reflexivity|].
    destruct (PyDict.get lm t0) as [value_map|]; [|eexists; reflexivity].
    destruct (translate_value value_map v); eexists; reflexivity.
  - destruct ts; eexists; reflexivity.
Qed.

Lemma for_eco_tags_entries (lm : PyDict.t (list string)) (ev : raw_values) (es : raw_status)
    (ds : list TagData) :
  covers ev ds -> covers es ds ->
  NoDup (map name ds) ->
  forall f : frame,
    (forall a, In a ds -> PyDict.mem (result f) (name a) = false) ->
    for_eco_tags lm ev (Some es) ds f = inl (result f ++ entries_of lm ev es ds).
Proof.
  induction ds as [|a ds IH]; intros Cev Ces Hnd f Hfresh.
  - cbn. rewrite app_nil_r. reflexivity.
  - assert (Cev' : covers ev ds) by (intros x t Hx Ht; apply (Cev x t); [right|]; assumption).
    assert (Ces' : covers es ds) by (intros x t Hx Ht; apply (Ces x t); [right|]; assumption).
    cbn [map] in Hnd. inversion Hnd as [|? ? Hnot Hnd']; subst.
    destruct (try_body_entry lm ev es a f
                (fun t Ht => Cev a t (or_introl eq_refl) Ht)
                (fun t Ht => Ces a t (or_introl eq_refl) Ht)) as (tv & ts & oe & E).
    cbn [for_eco_tags]. rewrite E.
    set (f' := mkFrame _ (Some tv) (Some ts)).
    assert (Step : for_eco_tags lm ev (Some es) ds f' =
                   inl (result f ++ entries_of lm ev es (a :: ds))).
    { rewrite (IH Cev' Ces' Hnd' f').
      - unfold f'. cbn [result entries_of flat_map].
        destruct (entry_of lm ev es a) as [e|]; [|reflexivity].
        rewrite set_new by (apply Hfresh; left; reflexivity).
        rewrite <- app_assoc. reflexivity.
      - intros x Hx. unfold f'. cbn [result].
        destruct (entry_of lm ev es a) as [e|]; [|apply Hfresh; right; exact Hx].
        rewrite set_new by (apply Hfresh; left; reflexivity).
        rewrite mem_app_one, (Hfresh x (or_intror Hx)). cbn [orb].
        apply String.eqb_neq. intros Heq. apply Hnot. rewrite <- Heq.
        apply in_map. exact Hx. }
    destruct oe as [e|]; [|exact Step].
    unfold handler, f'. cbn [t_values t_states]. exact Step.
Qed.

Lemma read_values_entries (list_set : list string -> list string) (d f : nat)
    (ds : list TagData) (s s' : state) (ev : raw_values) (es : raw_status) :
  _read_tags d f (list_set (flat_tags ds)) None None s = (Ok (RPair (Some ev) (Some es)), s') ->
  covers ev ds -> covers es ds ->
  ev <> [] ->
  NoDup (map name ds) ->
  read_values list_set d f ds s = (Ok (entries_of (lang_map (self s')) ev es ds), s').
Proof.
  intros E Cev Ces Hne Hnd.
  unfold read_values. unfold bind at 1. rewrite E.
  unfold bind at 1. cbn [unpack ret].
  destruct ev as [|kv ev]; [contradiction|]. cbn [length Nat.ltb Nat.leb].
  unfold bind, get_self.
  rewrite (for_eco_tags_entries (lang_map (self s')) (kv :: ev) es ds Cev Ces Hnd
             (mkFrame PyDict.empty None None)); [reflexivity|].
  intros a _. reflexivity.
Qed.

(** Whenever the raw read of a batch of differently named descriptors
    has returned the value and status of every register of the batch,
    [read_values] returns, in the order of the batch, one entry for
    each descriptor whose raw values decode: the decoded value (or its
    labels, for a translated descriptor) with the status of the
    descriptor's first register. A descriptor whose decoding raises
    has no entry, and a translated descriptor whose labels cannot be
    looked up keeps the decoded value. *)
Theorem read_values_result (list_set : list string -> list string) (d f : nat)
    (ds : list TagData) (s s' : state) (ev : raw_values) (es : raw_status) :
  _read_tags d f (list_set (flat_tags ds)) None None s = (Ok (RPair (Some ev) (Some es)), s') ->
  covers ev ds -> covers es ds ->
  ev <> [] ->
  NoDup (map name ds) ->
  read_values list_set d f ds s = (Ok (entries_of (lang_map (self s')) ev es ds), s').
Proof. exact (read_values_entries list_set d f ds s s' ev es). Qed.

Lemma read_values_result_witness :
  read_values dedup 2 4 [HOLIDAY_ENABLED; TEMPERATURE_OUTSIDE; TEMPERATURE_OUTSIDE_1H]
    (start 10 (steady (block "D420" "S_OK" "2" ++ block "A1" "S_OK" "215")%string))
  = (Ok [("TEMPERATURE_OUTSIDE", mkResult (PyFloat 215) "S_OK");
         ("TEMPERATURE_OUTSIDE_1H", mkResult PyNone "E_NOTFOUND")],
     snd (_read_tags 2 4 ["D420"; "A1"; "A2"] None None
            (start 10 (steady (block "D420" "S_OK" "2" ++ block "A1" "S_OK" "215")%string)))).
Proof.
  apply (read_values_result dedup 2 4
           [HOLIDAY_ENABLED; TEMPERATURE_OUTSIDE; TEMPERATURE_OUTSIDE_1H]
           (start 10 (steady (block "D420" "S_OK" "2" ++ block "A1" "S_OK" "215")%string))
           _ [("D420", Some "2"); ("A1", Some "215"); ("A2", None)]
           [("D420", "S_OK"); ("A1", "S_OK"); ("A2", "E_NOTFOUND")]).
  - vm_compute. reflexivity.
  - intros a t [<-|[<-|[<-|[]]]] [<-|[]]; reflexivity.
  - intros a t [<-|[<-|[<-|[]]]] [<-|[]]; reflexivity.
  - discriminate.
  - apply NoDup_by_nodup. reflexivity.
Defined.

(** [read_value] of a descriptor whose registers the raw read has
    returned gives the descriptor's entry, and [None] when the raw
    values do not decode: the decoder's exception does not reach the
    caller. *)
Theorem read_value_returns_entry_or_None (list_set : list string -> list string) (d f : nat)
    (a : TagData) (s s' : state) (ev : raw_values) (es : raw_status) :
  _read_tags d f (list_set (flat_tags [a])) None None s = (Ok (RPair (Some ev) (Some es)), s') ->
  covers ev [a] -> covers es [a] ->
  ev <> [] ->
  read_value list_set d f a s = (Ok (entry_of (lang_map (self s')) ev es a), s') /\
  (forall tv e, lookup_all ev (tags a) = inl tv -> decode_function a tv = inr e ->
     read_value list_set d f a s = (Ok None, s')).
Proof.
  intros E Cev Ces Hne.
  assert (R : read_value list_set d f a s = (Ok (entry_of (lang_map (self s')) ev es a), s')).
  { unfold read_value. unfold bind at 1.
    rewrite (read_values_entries list_set d f [a] s s' ev es E Cev Ces Hne
               (NoDup_cons _ (fun H : In (name a) [] => H) (NoDup_nil _))).
    cbn [entries_of flat_map]. unfold ret.
    destruct (entry_of (lang_map (self s')) ev es a) as [e|]; cbn [app PyDict.get].
    - rewrite String.eqb_refl. reflexivity.
    - reflexivity. }
  split; [exact R|].
  intros tv e Htv Hdec. rewrite R. unfold entry_of. rewrite Htv, Hdec.
  destruct (lookup_all es (tags a)) as [[|? ?]|]; reflexivity.
Qed.


Lemma read_value_returns_entry_or_None_witness :
  read_value dedup 2 2 HOLIDAY_ENABLED (start 10 (steady (block "D420" "S_OK" "2")))
  = (Ok None, snd (_read_tags 2 2 ["D420"] None None
                     (start 10 (steady (block "D420" "S_OK" "2"))))).
Proof.
  destruct (read_value_returns_entry_or_None dedup 2 2 HOLIDAY_ENABLED
              (start 10 (steady (block "D420" "S_OK" "2")))
              (snd (_read_tags 2 2 ["D420"] None None
                      (start 10 (steady (block "D420" "S_OK" "2")))))
              [("D420", Some "2")] [("D420", "S_OK")]) as [_ H].
  - vm_compute. reflexivity.
  - intros a t [<-|[]] [<-|[]]; reflexivity.
  - intros a t [<-|[]] [<-|[]]; reflexivity.
  - discriminate.
  - apply (H [Some "2"] ValueError); reflexivity.
Defined.

(** ** Registers that the raw read has lost *)

Lemma try_body_keeps_bound (lm : PyDict.t (list string)) (ev : raw_values)
    (es : option raw_status) (a : TagData) (f : frame) :
  t_values f <> None -> t_states f <> None ->
  t_values (fst (try_body lm ev es a f)) <> None /\
  t_states (fst (try_body lm ev es a f)) <> None.
Proof.
  intros Hv Hs. unfold try_body.
  destruct (lookup_all ev (tags a)) as [tv|e]; [|split; assumption].
  destruct (match es with None => inr TypeError | Some es0 => lookup_all es0 (tags a) end)
    as [ts|e]; [|cbn; split; [discriminate|assumption]].
  destruct (decode_function a tv) as [v|e]; [|cbn; split; discriminate].
  destruct ts as [|st0 ts']; [cbn; split; discriminate|].
  destruct (translate a); [|cbn; split; discriminate].
  destruct (tags a) as [|t0 rest]; [cbn; split; discriminate|].
  destruct (PyDict.get lm t0) as [value_map|]; [|cbn; split; discriminate].
  destruct (translate_value value_map v); cbn; split; discriminate.
Qed.

(** Once [t_values] and [t_states] are bound the loop does not raise
    any more, whatever the remaining descriptors do. *)
Lemma for_eco_tags_bound (lm : PyDict.t (list string)) (ev : raw_values)
    (es : option raw_status) (ds : list TagData) :
  forall f : frame,
    t_values f <> None -> t_states f <> None ->
    exists res, for_eco_tags lm ev es ds f = inl res.
Proof.
  induction ds as [|a ds IH]; intros f Hv Hs; [eexists; reflexivity|].
  cbn [for_eco_tags].
  destruct (try_body_keeps_bound lm ev es a f Hv Hs) as [Hv' Hs'].
  destruct (try_body lm ev es a f) as [f' oe]. cbn [fst] in Hv', Hs'.
  destruct oe as [e|]; [rewrite handler_bound by assumption|]; apply IH; assumption.
Qed.

(** When the raw read has returned dictionaries that lack a register
    (the chunk that carried it was lost), the first descriptor of the
    batch decides: if one of its registers is missing, [read_values]
    ends in [UnboundLocalError], raised while the [KeyError] handler
    formats its message; if its registers are there, [read_values]
    returns normally and the descriptors with a missing register just
    have no entry. *)
Theorem read_values_first_descriptor_decides (list_set : list string -> list string)
    (d f : nat) (a : TagData) (rest : list TagData) (s s' : state)
    (ev : raw_values) (es : raw_status) :
  _read_tags d f (list_set (flat_tags (a :: rest))) None None s
  = (Ok (RPair (Some ev) (Some es)), s') ->
  ev <> [] ->
  ((exists e, lookup_all ev (tags a) = inr e) ->
   read_values list_set d f (a :: rest) s = (Raise UnboundLocalError, s')) /\
  ((exists tv ts, lookup_all ev (tags a) = inl tv /\ lookup_all es (tags a) = inl ts) ->
   exists res, read_values list_set d f (a :: rest) s = (Ok res, s')).
Proof.
  intros E Hne.
  assert (R : read_values list_set d f (a :: rest) s =
              lift (for_eco_tags (lang_map (self s')) ev (Some es) (a :: rest)
                      (mkFrame PyDict.empty None None)) s').
  { unfold read_values. unfold bind at 1. rewrite E.
    unfold bind at 1. cbn [unpack ret].
    destruct ev as [|kv ev]; [contradiction|]. reflexivity. }
  split.
  - intros [e He]. rewrite R. cbn [for_eco_tags]. unfold try_body. rewrite He.
    reflexivity.
  - intros (tv & ts & Hv & Hs). rewrite R. cbn [for_eco_tags].
    pose proof (for_eco_tags_bound (lang_map (self s')) ev (Some es) rest) as B.
    assert (T : t_values (fst (try_body (lang_map (self s')) ev (Some es) a
                                 (mkFrame PyDict.empty None None))) <> None /\
                t_states (fst (try_body (lang_map (self s')) ev (Some es) a
                                 (mkFrame PyDict.empty None None))) <> None).
    { unfold try_body. rewrite Hv, Hs.
      destruct (decode_function a tv) as [v|e]; [|cbn; split; discriminate].
      destruct ts as [|st0 ts']; [cbn; split; discriminate|].
      destruct (translate a); [|cbn; split; discriminate].
      destruct (tags a) as [|t0 r0]; [cbn; split; discriminate|].
      destruct (PyDict.get (lang_map (self s')) t0) as [value_map|];
        [|cbn; split; discriminate].
      destruct (translate_value value_map v); cbn; split; discriminate. }
    destruct (try_body (lang_map (self s')) ev (Some es) a
                (mkFrame PyDict.empty None None)) as [f' oe].
    cbn [fst] in T. destruct T as [Tv Ts].
    destruct (B f' Tv Ts) as [res Eres].
    exists res. destruct oe as [e|]; [rewrite handler_bound by assumption|];
      rewrite Eres; reflexivity.
Qed.

Lemma read_values_first_descriptor_decides_witness :
  let dev := scripted [Response 200 "#E_NEED_LOGIN" "";
                       Response 200 "#E_PASS_DONT_MATCH" "";
                       Response 200 (block "A2" "S_OK" "215") "";
                       Response 200 (block "A3" "S_OK" "-37") ""] in
  fst (read_values dedup 2 4
         [TEMPERATURE_OUTSIDE; TEMPERATURE_OUTSIDE_1H; TEMPERATURE_OUTSIDE_24H]
         (start 1 dev)) = Raise UnboundLocalError /\
  exists res,
    fst (read_values (fun l => rev (dedup l)) 2 4
           [TEMPERATURE_OUTSIDE; TEMPERATURE_OUTSIDE_1H; TEMPERATURE_OUTSIDE_24H]
           (start 1 (scripted [Response 200 "#E_NEED_LOGIN" "";
                               Response 200 "#E_PASS_DONT_MATCH" "";
                               Response 200 (block "A2" "S_OK" "215") "";
                               Response 200 (block "A1" "S_OK" "-37") ""]))) = Ok res.
Proof.
  cbv zeta. split.
  - destruct (read_values_first_descriptor_decides dedup 2 4 TEMPERATURE_OUTSIDE
                [TEMPERATURE_OUTSIDE_1H; TEMPERATURE_OUTSIDE_24H]
                (start 1 (scripted [Response 200 "#E_NEED_LOGIN" "";
                                    Response 200 "#E_PASS_DONT_MATCH" "";
                                    Response 200 (block "A2" "S_OK" "215") "";
                                    Response 200 (block "A3" "S_OK" "-37") ""]))
                (snd (_read_tags 2 4 ["A1"; "A2"; "A3"] None None
                        (start 1 (scripted [Response 200 "#E_NEED_LOGIN" "";
                                            Response 200 "#E_PASS_DONT_MATCH" "";
                                            Response 200 (block "A2" "S_OK" "215") "";
                                            Response 200 (block "A3" "S_OK" "-37") ""]))))
                [("A2", Some "215"); ("A3", Some "-37")]
                [("A2", "S_OK"); ("A3", "S_OK")]) as [H _].
    + vm_compute. reflexivity.
    + discriminate.
    + rewrite H; [reflexivity|]. exists KeyError. reflexivity.
  - destruct (read_values_first_descriptor_decides (fun l => rev (dedup l)) 2 4
                TEMPERATURE_OUTSIDE
                [TEMPERATURE_OUTSIDE_1H; TEMPERATURE_OUTSIDE_24H]
                (start 1 (scripted [Response 200 "#E_NEED_LOGIN" "";
                                    Response 200 "#E_PASS_DONT_MATCH" "";
                                    Response 200 (block "A2" "S_OK" "215") "";
                                    Response 200 (block "A1" "S_OK" "-37") ""]))
                (snd (_read_tags 2 4 ["A3"; "A2"; "A1"] None None
                        (start 1 (scripted [Response 200 "#E_NEED_LOGIN" "";
                                            Response 200 "#E_PASS_DONT_MATCH" "";
                                            Response 200 (block "A2" "S_OK" "215") "";
                                            Response 200 (block "A1" "S_OK" "-37") ""]))))
                [("A2", Some "215"); ("A1", Some "-37")]
                [("A2", "S_OK"); ("A1", "S_OK")]) as [_ H].
    + vm_compute. reflexivity.
    + discriminate.
    + destruct H as [res Hres].
      * exists [Some "-37"], ["S_OK"]. split; reflexivity.
      * exists res. rewrite Hres. reflexivity.
Defined.

(** ** Translated values *)

Lemma append_nil_r (s : string) : (s ++ "")%string = s.
Proof. induction s as [|c s IH]; cbn; [|rewrite IH]; reflexivity. Qed.

Lemma substring_all (s : string) : String.substring 0 (String.length s) s = s.
Proof. induction s as [|c s IH]; cbn; [|rewrite IH]; reflexivity. Qed.

Lemma skipn_nth_error {A : Type} (l : list A) :
  forall (i : nat) (x : A), nth_error l i = Some x -> skipn i l = x :: skipn (S i) l.
Proof.
  induction l as [|y l IH]; intros [|i] x H; cbn in H; try discriminate.
  - injection H as ->. reflexivity.
  - cbn [skipn]. rewrite (IH i x H). reflexivity.
Qed.

(** The text that the loop has built after the labels [sel]: each one
    preceded by a comma and a blank. *)
Lemma translate_loop_bits (value_map : list string) (bits : list bool) :
  forall (idx : nat) (acc : string),
    (idx + length bits <= length value_map)%nat ->
    translate_loop value_map idx (map PyBool bits) acc
    = inl (fold_left (fun t label => (t ++ ", " ++ label)%string)
             (selected bits (skipn idx value_map)) acc).
Proof.
  induction bits as [|b bits IH]; intros idx acc Hlen; [reflexivity|].
  cbn [length] in Hlen. cbn [map translate_loop py_truth].
  destruct (nth_error value_map idx) as [label|] eqn:En.
  2:{ apply nth_error_None in En. lia. }
  rewrite (skipn_nth_error value_map idx label En).
  unfold selected. cbn [combine filter fst map snd].
  destruct b; cbn [map snd fold_left]; rewrite IH by lia; reflexivity.
Qed.

Lemma translate_loop_out_of_range (value_map : list string) (bits : list bool) :
  forall (idx : nat) (acc : string),
    (exists i, nth_error bits i = Some true /\ (length value_map <= idx + i)%nat) ->
    translate_loop value_map idx (map PyBool bits) acc = inr IndexError.
Proof.
  induction bits as [|b bits IH]; intros idx acc (i & Hi & Hle).
  - destruct i; discriminate Hi.
  - cbn [map translate_loop py_truth].
    destruct i as [|i].
    + cbn in Hi. injection Hi as ->.
      destruct (nth_error value_map idx) eqn:En; [|reflexivity].
      assert (nth_error value_map idx <> None) as Hn by (rewrite En; discriminate).
      apply nth_error_Some in Hn. lia.
    + cbn [nth_error] in Hi.
      assert (R : forall acc', translate_loop value_map (S idx) (map PyBool bits) acc'
                               = inr IndexError).
      { intros acc'. apply IH. exists i. split; [exact Hi|lia]. }
      destruct b; [|apply R].
      destruct (nth_error value_map idx); [apply R|reflexivity].
Qed.

Lemma fold_labels_app (sel : list string) :
  forall acc : string,
    fold_left (fun t label => (t ++ ", " ++ label)%string) sel acc
    = (acc ++ fold_left (fun t label => (t ++ ", " ++ label)%string) sel "")%string.
Proof.
  induction sel as [|x sel IH]; intros acc; cbn [fold_left].
  - rewrite append_nil_r. reflexivity.
  - rewrite (IH (acc ++ ", " ++ x)%string), (IH ("" ++ ", " ++ x)%string).
    cbn [append]. rewrite !append_assoc. reflexivity.
Qed.

Lemma fold_labels_concat (x : string) (sel : list string) :
  (x ++ fold_left (fun t label => (t ++ ", " ++ label)%string) sel "")%string
  = String.concat ", " (x :: sel).
Proof.
  revert x. induction sel as [|y sel IH]; intros x.
  - cbn. apply append_nil_r.
  - cbn [fold_left]. rewrite fold_labels_app. cbn [append].
    change (String.concat ", " (x :: y :: sel))
      with (x ++ ", " ++ String.concat ", " (y :: sel))%string.
    rewrite <- (IH y). reflexivity.
Qed.

(** The value shown for a list of flags is the labels of the flags
    that are set, in order and separated by a comma and a blank, as
    long as there is a label for every flag; a set flag beyond the
    labels ends the translation in an [IndexError] (and the entry
    then keeps the list, see [shown_value]). *)
Theorem translate_value_joins_the_labels_of_set_flags
    (value_map : list string) (bits : list bool) :
  ((length bits <= length value_map)%nat ->
   translate_value value_map (PyList (map PyBool bits))
   = inl (String.concat ", " (selected bits value_map))) /\
  ((exists i, nth_error bits i = Some true /\ (length value_map <= i)%nat) ->
   translate_value value_map (PyList (map PyBool bits)) = inr IndexError).
Proof.
  split.
  - intros Hlen. unfold translate_value. cbn [py_items].
    rewrite translate_loop_bits by (cbn; lia). cbn [skipn].
    destruct (selected bits value_map) as [|x sel]; [reflexivity|].
    cbn [fold_left]. rewrite fold_labels_app. cbn [append].
    rewrite fold_labels_concat.
    cbn [String.length Nat.ltb Nat.leb Nat.sub String.substring].
    rewrite Nat.sub_0_r, substring_all. reflexivity.
  - intros (i & Hi & Hle). unfold translate_value. cbn [py_items].
    rewrite translate_loop_out_of_range; [reflexivity|].
    exists i. split; [exact Hi|cbn; lia].
Qed.

Lemma translate_value_joins_the_labels_of_set_flags_witness :
  translate_value ["Heating"; "Cooling"; "Water"; "Pool"]
    (PyList (map PyBool [true; false; true]))
  = inl "Heating, Water" /\
  translate_value ["Heating"; "Cooling"]
    (PyList (map PyBool [true; false; true])) = inr IndexError.
Proof.
  split.
  - apply (proj1 (translate_value_joins_the_labels_of_set_flags
                    ["Heating"; "Cooling"; "Water"; "Pool"] [true; false; true])).
    cbn. lia.
  - apply (proj2 (translate_value_joins_the_labels_of_set_flags
                    ["Heating"; "Cooling"] [true; false; true])).
    exists 2%nat. split; [reflexivity|cbn; lia].
Defined.

(** ** The status line of a reply *)

Lemma span_parts (p : ascii -> bool) (s : string) :
  forall a b : string,
    span p s = (a, b) ->
    s = (a ++ b)%string /\ all_chars p a = true /\
    match b with EmptyString => True | String c _ => p c = false end.
Proof.
  induction s as [|c s IH]; intros a b H; cbn in H.
  - injection H as <- <-. repeat split.
  - destruct (p c) eqn:Pc.
    + destruct (span p s) as [a' b'] eqn:Sp. injection H as <- <-.
      destruct (IH a' b' eq_refl) as (E & A & B).
      cbn. rewrite Pc, A, <- E. repeat split. exact B.
    + injection H as <- <-. cbn. repeat split. exact Pc.
Qed.

Lemma search_status_found (r : string) :
  forall (b : bool) (g : string),
    search_status b r = Some g ->
    status_ok g = true /\
    exists pre post,
      r = (pre ++ String "#" (g ++ post))%string /\
      at_line_start b pre = true /\ status_ends post = true.
Proof.
  induction r as [|c r IH]; intros b g H; cbn [search_status] in H; [discriminate|].
  assert (Rec : search_status (Ascii.eqb c NL) r = Some g ->
                status_ok g = true /\
                exists pre post,
                  String c r = (pre ++ String "#" (g ++ post))%string /\
                  at_line_start b pre = true /\ status_ends post = true).
  { intros H'. destruct (IH _ _ H') as (Hg & pre & post & E & L & P).
    split; [exact Hg|]. exists (String c pre), post. cbn. rewrite <- E.
    repeat split; assumption. }
  destruct (b && Ascii.eqb c "#") eqn:Hb; [|exact (Rec H)].
  destruct (span is_status_char r) as [run rest] eqn:Sp.
  destruct (is_empty run) eqn:Em; [exact (Rec H)|].
  injection H as <-.
  apply andb_true_iff in Hb. destruct Hb as [-> Hc].
  apply Ascii.eqb_eq in Hc. subst c.
  destruct (span_parts _ _ _ _ Sp) as (E & A & B).
  split.
  - unfold status_ok. rewrite Em, A. reflexivity.
  - exists EmptyString, rest. cbn [append at_line_start]. rewrite E.
    repeat split. destruct rest as [|c0 rest]; [reflexivity|].
    cbn. rewrite B. reflexivity.
Qed.

Lemma search_status_finds (pre g post : string) :
  status_ok g = true ->
  forall b : bool,
    at_line_start b pre = true ->
    search_status b (pre ++ String "#" (g ++ post))%string <> None.
Proof.
  intros Hg. induction pre as [|c pre IH]; intros b Hb.
  - cbn in Hb. subst b. cbn [append search_status andb].
    change (Ascii.eqb "#" "#") with true. cbv iota.
    destruct g as [|c0 g]; [discriminate Hg|].
    unfold status_ok in Hg. cbn in Hg. apply andb_true_iff in Hg.
    destruct Hg as [Hc0 _]. cbn [append span]. rewrite Hc0.
    destruct (span is_status_char (g ++ post)%string). cbn. discriminate.
  - cbn [append search_status]. cbn [at_line_start] in Hb.
    destruct (b && Ascii.eqb c "#").
    + destruct (span is_status_char (pre ++ String "#" (g ++ post))%string) as [run rest].
      destruct (is_empty run); [apply IH; exact Hb|discriminate].
    + apply IH. exact Hb.
Qed.

(** What [get_status_response] returns is a non-empty run of capital
    letters and underscores that follows a [#] at the start of a line
    of the reply and is not continued; it raises
    [InvalidResponseException] exactly when no line of the reply
    starts with [#] and such a character. *)
Theorem get_status_response_reads_a_status_line (r : string) (s : state) :
  match get_status_response r s with
  | (Ok g, s') =>
      s' = s /\ status_ok g = true /\
      exists pre post,
        r = (pre ++ String "#" (g ++ post))%string /\
        at_line_start true pre = true /\ status_ends post = true
  | (Raise e, s') =>
      s' = s /\ e = InvalidResponseException /\
      forall pre g post,
        status_ok g = true -> at_line_start true pre = true ->
        r <> (pre ++ String "#" (g ++ post))%string
  | (OutOfFuel, _) => False
  end.
Proof.
  unfold get_status_response.
  destruct (search_status true r) as [g|] eqn:E; cbn.
  - split; [reflexivity|]. exact (search_status_found r true g E).
  - split; [reflexivity|]. split; [reflexivity|].
    intros pre g post Hg Hpre ->.
    exact (search_status_finds pre g post Hg true Hpre E).
Qed.

(** ** The cookie of a login *)

(** [login] stores the cookies of the response only when the response
    has the HTTP status 200 and the status [S_OK]; every other login
    ends in an exception and leaves the cookies that the bridge had,
    without clearing them. *)
Theorem login_sets_cookie_only_when_accepted (u p : string) (s : state) :
  exists o s',
    login u p s = (o, s') /\
    ((exists body jar,
        device s (log s ++ [Login u p]) = Response 200 body jar /\
        search_status true body = Some "S_OK" /\
        o = Ok tt /\ auth_cookies (self s') = Some jar) \/
     ((exists e, o = Raise e) /\ auth_cookies (self s') = auth_cookies (self s))).
Proof.
  destruct (device s (log s ++ [Login u p])) as [code body jar|] eqn:D.
  - destruct (code =? 200)%Z eqn:C.
    + destruct (search_status true body) as [g|] eqn:G.
      * apply Z.eqb_eq in C. subst code.
        destruct (String.eqb g "S_OK") eqn:Eg.
        -- apply String.eqb_eq in Eg. subst g.
           rewrite (login_accepted u p s body jar D G).
           eexists _, _. split; [reflexivity|]. left.
           exists body, jar. repeat split; try reflexivity. exact G.
        -- apply String.eqb_neq in Eg.
           destruct (login_rejected u p s body g jar D G Eg) as (e & _ & E).
           rewrite E. eexists _, _. split; [reflexivity|]. right.
           split; [exists e; reflexivity|reflexivity].
      * pose proof (login_fails_outright u p s InvalidResponseException) as H.
        rewrite D, C in H. destruct (H (conj G eq_refl)) as [E _].
        rewrite E. eexists _, _. split; [reflexivity|]. right.
        split; [eexists; reflexivity|reflexivity].
    + pose proof (login_fails_outright u p s AssertionError) as H.
      rewrite D, C in H. destruct (H eq_refl) as [E _].
      rewrite E. eexists _, _. split; [reflexivity|]. right.
      split; [eexists; reflexivity|reflexivity].
  - pose proof (login_fails_outright u p s ClientError) as H.
    rewrite D in H. destruct (H eq_refl) as [E _].
    rewrite E. eexists _, _. split; [reflexivity|]. right.
    split; [eexists; reflexivity|reflexivity].
Qed.

(** ** Batches of writes *)

Lemma bind_Ok {A B : Type} (c : M A) (k : A -> M B) (s s' : state) (y : B) :
  bind c k s = (Ok y, s') ->
  exists x s1, c s = (Ok x, s1) /\ k x s1 = (Ok y, s').
Proof.
  unfold bind. destruct (c s) as [[x|e|] s1]; intros H; try discriminate H.
  exists x, s1. split; [reflexivity|exact H].
Qed.

(** One pair of the loop of [write_values] whose call is answered
    plainly. *)
Lemma write_values_loop_step (f : nat) (a : TagData) (v : pyval)
    (rest : list (TagData * pyval)) (tw tw' : PyDict.t string)
    (res res' : PyDict.t Result) (s : state) (code : Z) (body : string) (jar : cookies) :
  let call := WriteTags (auth_cookies (self s)) (PyDict.keys tw') (PyDict.values tw') in
  writeable a = true ->
  encode_function a v tw = inl tw' ->
  device s (log s ++ [call]) = Response code body jar ->
  plain body = true ->
  after_write a v (Some (record_values body (PyDict.keys tw') PyDict.empty))
    (Some (record_status body (PyDict.keys tw') PyDict.empty)) res = inl res' ->
  write_values_loop (S f) ((a, v) :: rest) tw res s =
  write_values_loop (S f) rest tw' res'
    (mkState (self s) (device s) (log s ++ [call])).
Proof.
  intros call Hw Henc Hd Hp Haft.
  cbn [write_values_loop]. rewrite Hw. cbn [negb].
  unfold bind at 1. rewrite Henc. cbn [lift ret].
  unfold bind at 1.
  rewrite (write_tags_plain f _ _ s code body jar (keys_values_length tw') Hd Hp).
  unfold bind at 1. cbn [unpack ret fst snd].
  unfold bind at 1. rewrite Haft. reflexivity.
Qed.

Lemma write_values_loop_readonly (f : nat) (a : TagData) (v : pyval)
    (post : list (TagData * pyval)) (pre : list (TagData * pyval)) :
  writeable a = false ->
  forall (tw : PyDict.t string) (res r : PyDict.t Result) (s s' : state),
    write_values_loop f (pre ++ (a, v) :: post) tw res s <> (Ok r, s').
Proof.
  intros Hw. induction pre as [|[a' v'] pre IH]; intros tw res r s s' H.
  - cbn [app write_values_loop] in H. rewrite Hw in H. discriminate H.
  - cbn [app write_values_loop] in H.
    destruct (negb (writeable a')); [discriminate H|].
    apply bind_Ok in H. destruct H as (tw1 & s1 & _ & H).
    apply bind_Ok in H. destruct H as (r1 & s2 & _ & H).
    apply bind_Ok in H. destruct H as (p1 & s3 & _ & H).
    apply bind_Ok in H. destruct H as (res1 & s4 & _ & H).
    exact (IH _ _ _ _ _ H).
Qed.

(** A batch that holds a read-only descriptor, at whatever place,
    never returns a result, whatever the controller answers and
    whatever the other pairs are. *)
Theorem write_values_with_a_readonly_pair_never_returns (f : nat) (a : TagData) (v : pyval)
    (pre post : list (TagData * pyval)) (s s' : state) (r : PyDict.t Result) :
  writeable a = false ->
  write_values f (pre ++ (a, v) :: post) s <> (Ok r, s').
Proof.
  intros Hw. unfold write_values.
  exact (write_values_loop_readonly f a v post pre Hw _ _ r s s').
Qed.

Lemma write_values_with_a_readonly_pair_never_returns_witness :
  write_values 1 ([(TEMPERATURE_ROOM_TARGET, PyFloat 215)] ++
                  (TEMPERATURE_OUTSIDE, PyFloat 100) :: [(HOLIDAY_ENABLED, PyBool true)])
    (start 10 (steady (block "A100" "S_OK" "215")))
  <> (Ok [("TEMPERATURE_ROOM_TARGET", mkResult (PyFloat 215) "S_OK")],
      start 10 (steady (block "A100" "S_OK" "215"))).
Proof.
  apply (write_values_with_a_readonly_pair_never_returns 1 TEMPERATURE_OUTSIDE (PyFloat 100)
           [(TEMPERATURE_ROOM_TARGET, PyFloat 215)] [(HOLIDAY_ENABLED, PyBool true)]).
  reflexivity.
Defined.

(** The check for a read-only descriptor is made pair by pair: when
    the pair before it is writeable and its call is answered, that
    write has been sent to the controller by the time
    [InvalidValueException] is raised, and its result is not
    returned. *)
Theorem write_values_writes_before_the_readonly_check (f : nat) (a1 a2 : TagData)
    (v1 v2 : pyval) (rest : list (TagData * pyval)) (tw : PyDict.t string)
    (res : PyDict.t Result) (s : state) (code : Z) (body : string) (jar : cookies) :
  let call := WriteTags (auth_cookies (self s)) (PyDict.keys tw) (PyDict.values tw) in
  writeable a1 = true ->
  encode_function a1 v1 PyDict.empty = inl tw ->
  device s (log s ++ [call]) = Response code body jar ->
  plain body = true ->
  after_write a1 v1 (Some (record_values body (PyDict.keys tw) PyDict.empty))
    (Some (record_status body (PyDict.keys tw) PyDict.empty)) PyDict.empty = inl res ->
  writeable a2 = false ->
  write_values (S f) ((a1, v1) :: (a2, v2) :: rest) s =
  (Raise InvalidValueException, mkState (self s) (device s) (log s ++ [call])).
Proof.
  intros call Hw Henc Hd Hp Haft Hro. unfold write_values.
  rewrite (write_values_loop_step f a1 v1 _ PyDict.empty tw PyDict.empty res s
             code body jar Hw Henc Hd Hp Haft).
  cbn [write_values_loop]. rewrite Hro. reflexivity.
Qed.

Lemma write_values_writes_before_the_readonly_check_witness :
  write_values 1 [(TEMPERATURE_ROOM_TARGET, PyFloat 215); (TEMPERATURE_OUTSIDE, PyFloat 100)]
    (start 10 (steady (block "A100" "S_OK" "215")))
  = (Raise InvalidValueException,
     mkState (bridge0 10) (steady (block "A100" "S_OK" "215"))
       [WriteTags None ["A100"] ["215"]]).
Proof.
  apply (write_values_writes_before_the_readonly_check 0 TEMPERATURE_ROOM_TARGET
           TEMPERATURE_OUTSIDE (PyFloat 215) (PyFloat 100) [] [("A100", "215")]
           [("TEMPERATURE_ROOM_TARGET", mkResult (PyFloat 215) "S_OK")]
           (start 10 (steady (block "A100" "S_OK" "215")))
           200 (block "A100" "S_OK" "215") ""); reflexivity.
Defined.

(** [to_write] is one dictionary for the whole batch: the call for the
    second pair carries what the second descriptor encodes into the
    dictionary of the first, so the registers of the first pair are
    written a second time, and the statuses of all of them decide
    whether the second pair gets a result. *)
Theorem write_values_second_call_carries_both_pairs (f : nat) (a1 a2 : TagData)
    (v1 v2 : pyval) (tw1 tw2 : PyDict.t string) (res1 res2 : PyDict.t Result)
    (s : state) (c1 c2 : Z) (body1 body2 : string) (j1 j2 : cookies) :
  let call1 := WriteTags (auth_cookies (self s)) (PyDict.keys tw1) (PyDict.values tw1) in
  let call2 := WriteTags (auth_cookies (self s)) (PyDict.keys tw2) (PyDict.values tw2) in
  writeable a1 = true -> writeable a2 = true ->
  encode_function a1 v1 PyDict.empty = inl tw1 ->
  encode_function a2 v2 tw1 = inl tw2 ->
  device s (log s ++ [call1]) = Response c1 body1 j1 -> plain body1 = true ->
  device s (log s ++ [call1; call2]) = Response c2 body2 j2 -> plain body2 = true ->
  after_write a1 v1 (Some (record_values body1 (PyDict.keys tw1) PyDict.empty))
    (Some (record_status body1 (PyDict.keys tw1) PyDict.empty)) PyDict.empty = inl res1 ->
  after_write a2 v2 (Some (record_values body2 (PyDict.keys tw2) PyDict.empty))
    (Some (record_status body2 (PyDict.keys tw2) PyDict.empty)) res1 = inl res2 ->
  write_values (S f) [(a1, v1); (a2, v2)] s =
  (Ok res2, mkState (self s) (device s) (log s ++ [call1; call2])).
Proof.
  intros call1 call2 Hw1 Hw2 He1 He2 Hd1 Hp1 Hd2 Hp2 Ha1 Ha2. unfold write_values.
  rewrite (write_values_loop_step f a1 v1 _ PyDict.empty tw1 PyDict.empty res1 s
             c1 body1 j1 Hw1 He1 Hd1 Hp1 Ha1).
  fold call1.
  rewrite (write_values_loop_step f a2 v2 [] tw1 tw2 res1 res2
             (mkState (self s) (device s) (log s ++ [call1])) c2 body2 j2 Hw2 He2).
  - cbn [self device log write_values_loop]. fold call2.
    rewrite <- app_assoc. reflexivity.
  - cbn [self device log]. fold call2. rewrite <- app_assoc. exact Hd2.
  - exact Hp2.
  - exact Ha2.
Qed.

Lemma write_values_second_call_carries_both_pairs_witness :
  write_values 1 [(TEMPERATURE_ROOM_TARGET, PyFloat 215); (HOLIDAY_ENABLED, PyBool true)]
    (start 10 (steady (block "A100" "S_OK" "215" ++ block "D420" "S_OK" "1")%string))
  = (Ok [("TEMPERATURE_ROOM_TARGET", mkResult (PyFloat 215) "S_OK");
         ("HOLIDAY_ENABLED", mkResult (PyBool true) "S_OK")],
     mkState (bridge0 10)
       (steady (block "A100" "S_OK" "215" ++ block "D420" "S_OK" "1")%string)
       ([] ++ [WriteTags None ["A100"] ["215"];
               WriteTags None ["A100"; "D420"] ["215"; "1"]])).
Proof.
  apply (write_values_second_call_carries_both_pairs 0 TEMPERATURE_ROOM_TARGET
           HOLIDAY_ENABLED (PyFloat 215) (PyBool true)
           [("A100", "215")] [("A100", "215"); ("D420", "1")]
           [("TEMPERATURE_ROOM_TARGET", mkResult (PyFloat 215) "S_OK")]
           [("TEMPERATURE_ROOM_TARGET", mkResult (PyFloat 215) "S_OK");
            ("HOLIDAY_ENABLED", mkResult (PyBool true) "S_OK")]
           (start 10 (steady (block "A100" "S_OK" "215" ++ block "D420" "S_OK" "1")%string))
           200 200
           (block "A100" "S_OK" "215" ++ block "D420" "S_OK" "1")%string
           (block "A100" "S_OK" "215" ++ block "D420" "S_OK" "1")%string "" "");
    reflexivity.
Defined.

(** ** The size of a request *)

(** A bridge made by [__init__] with a chunk size of at least one
    never asks an answering controller for more than 75 registers,
    nor for more than the chunk size, in one call; the calls of a read
    carry the requested registers in order, each one once. *)
Theorem read_calls_carry_at_most_75_registers
    (TRANSLATIONS : PyDict.t (PyDict.t (list string))) (host lang : string) (n : Z)
    (b : EcotouchBridge) (dev : list request -> reply) (h0 : list request)
    (d f : nat) (tags : list string) :
  __init__ TRANSLATIONS host n lang = inl b ->
  (1 <= n)%Z ->
  answers (mkState b dev h0) ->
  (2 <= d)%nat ->
  (length tags + 1 <= f)%nat ->
  exists r s' chs,
    _read_tags d f tags None None (mkState b dev h0) = (Ok r, s') /\
    log s' = h0 ++ map (ReadTags None) chs /\
    concat chs = tags /\
    Forall (fun ch => (length ch <= 75)%nat /\ (Z.of_nat (length ch) <= n)%Z) chs.
Proof.
  intros Hinit Hn Hans Hd Hf.
  unfold __init__ in Hinit.
  destruct (if PyDict.mem TRANSLATIONS lang then PyDict.get TRANSLATIONS lang
            else PyDict.get TRANSLATIONS "en") as [m|]; [|discriminate Hinit].
  injection Hinit as <-.
  set (b := mkBridge host "waterkotte" "waterkotte" (Z.min n 75) None m) in *.
  set (c := Z.to_nat (Z.min n 75)).
  assert (Hc : (1 <= c)%nat) by (unfold c; lia).
  assert (Hb : tagsPerRequest (self (mkState b dev h0)) = Z.of_nat c)
    by (unfold c; cbn; lia).
  rewrite (read_tags_plain c d f tags (mkState b dev h0) Hc Hans Hb Hd Hf).
  cbn [self device log auth_cookies b].
  pose proof (run_chunks_log dev None (chunks c tags) h0 PyDict.empty PyDict.empty) as L.
  destruct (run_chunks dev None (chunks c tags) h0 PyDict.empty PyDict.empty)
    as [[h r] rs].
  cbn [fst] in L. eexists _, _, (chunks c tags). split; [reflexivity|].
  cbn [log]. split; [exact L|]. split; [apply chunks_concat|].
  unfold chunks. apply Forall_app.
  destruct (loop_sizes c Hc (length tags) tags (le_n _)) as (A & B & _).
  split.
  - eapply Forall_impl; [|exact A]. intros ch Hch. cbv beta in Hch.
    rewrite Hch. unfold c. clear - Hn. split; lia.
  - constructor; [|constructor].
    assert (Hc75 : (c <= 75)%nat /\ (Z.of_nat c <= n)%Z) by (unfold c; clear - Hn; split; lia).
    split; lia.
Qed.

Lemma read_calls_carry_at_most_75_registers_witness :
  exists r s' chs,
    _read_tags 2 201 (codes 200) None None
      (mkState (mkBridge "192.168.0.2" "waterkotte" "waterkotte" (Z.min 100 75) None [])
         (steady "#S_OK") [])
    = (Ok r, s') /\
    log s' = [] ++ map (ReadTags None) chs /\
    concat chs = codes 200 /\
    Forall (fun ch => (length ch <= 75)%nat /\ (Z.of_nat (length ch) <= 100)%Z) chs.
Proof.
  apply (read_calls_carry_at_most_75_registers [("en", [])] "192.168.0.2" "de" 100).
  - reflexivity.
  - lia.
  - apply answers_steady. reflexivity.
  - lia.
  - vm_compute. lia.
Defined.

(** ** A batch read from a controller *)

Lemma get_map_keys {V : Type} (g : string -> V) (keys : list string) (t : string) :
  In t keys -> PyDict.get (map (fun k => (k, g k)) keys) t = Some (g t).
Proof.
  induction keys as [|k keys IH]; intros Hin; [contradiction|].
  cbn [map PyDict.get]. destruct (String.eqb t k) eqn:E.
  - apply String.eqb_eq in E. subst k. reflexivity.
  - destruct Hin as [->|Hin]; [rewrite String.eqb_refl in E; discriminate|].
    apply IH. exact Hin.
Qed.

Lemma lookup_all_map_keys {V : Type} (g : string -> V) (keys ks : list string) :
  (forall t, In t ks -> In t keys) ->
  lookup_all (map (fun k => (k, g k)) keys) ks = inl (map g ks).
Proof.
  induction ks as [|k ks IH]; intros Hsub; [reflexivity|].
  cbn [lookup_all map].
  rewrite (get_map_keys g keys k (Hsub k (or_introl eq_refl))).
  rewrite IH by (intros t Ht; apply Hsub; right; exact Ht). reflexivity.
Qed.

Lemma entries_of_table (lm : PyDict.t (list string)) (table : list (string * cell))
    (keys : list string) (ds : list TagData) :
  (forall a t, In a ds -> In t (tags a) -> In t keys) ->
  entries_of lm (map (fun t => (t, cell_value (lookup_cell t table))) keys)
    (map (fun t => (t, cell_status (lookup_cell t table))) keys) ds
  = flat_map (fun a => match entry_of_table lm table a with
                       | Some e => [(name a, e)]
                       | None => []
                       end) ds.
Proof.
  induction ds as [|a ds IH]; intros Hsub; [reflexivity|].
  unfold entries_of in *. cbn [flat_map].
  rewrite IH by (intros x t Hx Ht; apply (Hsub x t); [right|]; assumption).
  f_equal. unfold entry_of, entry_of_table.
  rewrite !lookup_all_map_keys
    by (intros t Ht; apply (Hsub a t); [left; reflexivity|exact Ht]).
  destruct (map (fun t => cell_status (lookup_cell t table)) (tags a)); reflexivity.
Qed.

(** End to end: a batch of differently named descriptors read from a
    controller that holds [table] gives, in the order of the batch,
    one entry per descriptor whose registers decode: the decoding of
    the values that the table holds for its registers, with the status
    that the table gives its first register. The chunk size and the
    order in which the set of registers is enumerated make no
    difference. *)
Theorem read_values_returns_the_decoded_table (list_set : list string -> list string)
    (c d f : nat) (ds : list TagData) (table : list (string * cell))
    (b : EcotouchBridge) (h0 : list request) :
  (1 <= c)%nat ->
  tagsPerRequest b = Z.of_nat c ->
  enumerates list_set ->
  flat_tags ds <> [] ->
  forallb code_ok (flat_tags ds) = true ->
  NoDup (map name ds) ->
  forallb entry_ok table = true ->
  NoDup (map fst table) ->
  (2 <= d)%nat ->
  (length (list_set (flat_tags ds)) + 1 <= f)%nat ->
  fst (read_values list_set d f ds (mkState b (controller table) h0))
  = Ok (flat_map (fun a => match entry_of_table (lang_map b) table a with
                           | Some e => [(name a, e)]
                           | None => []
                           end) ds).
Proof.
  intros Hc Htpr Henum Hne Hcodes Hnames Hok Hkeys Hd Hf.
  set (e_tags := list_set (flat_tags ds)) in *.
  destruct (Henum (flat_tags ds)) as [Hnd Hin]. fold e_tags in Hnd, Hin.
  assert (Hcodes' : forallb code_ok e_tags = true).
  { apply forallb_forall. intros t Ht. rewrite forallb_forall in Hcodes.
    apply Hcodes, Hin, Ht. }
  assert (Hsub : forall a t, In a ds -> In t (tags a) -> In t e_tags).
  { intros a t Ha Ht. apply Hin. unfold flat_tags. apply in_flat_map.
    exists a. split; assumption. }
  destruct (read_tags_table c d f e_tags table b h0 Hc Htpr Hnd Hcodes' Hok Hkeys Hd Hf)
    as (s' & E & Hself).
  rewrite (read_values_entries list_set d f ds _ s' _ _ E).
  - cbn [fst]. rewrite Hself. rewrite entries_of_table by exact Hsub. reflexivity.
  - intros a t Ha Ht. apply mem_of_key. unfold PyDict.keys.
    rewrite map_map. cbn [fst]. rewrite map_id. exact (Hsub a t Ha Ht).
  - intros a t Ha Ht. apply mem_of_key. unfold PyDict.keys.
    rewrite map_map. cbn [fst]. rewrite map_id. exact (Hsub a t Ha Ht).
  - destruct e_tags as [|t0 rest] eqn:Ee; [|discriminate].
    exfalso. destruct (flat_tags ds) as [|t l]; [apply Hne; reflexivity|].
    apply (proj2 (Hin t)). left. reflexivity.
  - exact Hnames.
Qed.

Lemma read_values_returns_the_decoded_table_witness :
  fst (read_values (fun l => rev (dedup l)) 2 5
         [TEMPERATURE_OUTSIDE; HOLIDAY_ENABLED; TEMPERATURE_OUTSIDE_1H;
          TEMPERATURE_ROOM_TARGET]
         (mkState (bridge0 3)
            (controller [("A100", Inactive); ("D420", Active "S_OK" "7");
                         ("A1", Active "S_OK" "-37")]) []))
  = Ok [("TEMPERATURE_OUTSIDE", mkResult (PyFloat (-37)) "S_OK");
        ("TEMPERATURE_OUTSIDE_1H", mkResult PyNone "E_NOTFOUND");
        ("TEMPERATURE_ROOM_TARGET", mkResult PyNone "E_INACTIVE")].
Proof.
  apply (read_values_returns_the_decoded_table (fun l => rev (dedup l)) 3 2 5
           [TEMPERATURE_OUTSIDE; HOLIDAY_ENABLED; TEMPERATURE_OUTSIDE_1H;
            TEMPERATURE_ROOM_TARGET]
           [("A100", Inactive); ("D420", Active "S_OK" "7"); ("A1", Active "S_OK" "-37")]
           (bridge0 3) []).
  - lia.
  - reflexivity.
  - intros l. split.
    + apply NoDup_rev. apply NoDup_nodup.
    + intros x. rewrite <- in_rev. apply nodup_In.
  - discriminate.
  - reflexivity.
  - apply NoDup_by_nodup. reflexivity.
  - reflexivity.
  - apply NoDup_by_nodup. reflexivity.
  - lia.
  - vm_compute. lia.
Defined.

(** ** The session cookie across calls *)

Lemma covers_record_values (body : string) (e_tags : list string) (ds : list TagData) :
  (forall a t, In a ds -> In t (tags a) -> In t e_tags) ->
  covers (record_values body e_tags PyDict.empty) ds /\
  covers (record_status body e_tags PyDict.empty) ds.
Proof.
  intros Hsub. split; intros a t Ha Ht; unfold PyDict.mem, record_values, record_status;
    rewrite PyDictFacts.fold_set_get_in by exact (Hsub a t Ha Ht); reflexivity.
Qed.

Lemma enumerates_sub (list_set : list string -> list string) (ds : list TagData) :
  enumerates list_set ->
  forall a t, In a ds -> In t (tags a) -> In t (list_set (flat_tags ds)).
Proof.
  intros Henum a t Ha Ht. apply (proj2 (Henum (flat_tags ds))).
  unfold flat_tags. apply in_flat_map. exists a. split; assumption.
Qed.

(** A batch read whose registers fit into one call that is answered
    plainly. *)
Lemma read_values_one_call (list_set : list string -> list string) (d f : nat)
    (ds : list TagData) (s : state) (code : Z) (body : string) (jar : cookies) :
  let e_tags := list_set (flat_tags ds) in
  enumerates list_set ->
  (Z.of_nat (length e_tags) <= tagsPerRequest (self s))%Z ->
  device s (log s ++ [ReadTags (auth_cookies (self s)) e_tags]) = Response code body jar ->
  plain body = true ->
  exists res,
    read_values list_set (S d) (S f) ds s =
    (Ok res, mkState (self s) (device s)
               (log s ++ [ReadTags (auth_cookies (self s)) e_tags])).
Proof.
  intros e_tags Henum Hlen Hd Hp.
  pose proof (read_tags_one_chunk d f e_tags None None s code body jar Hlen Hd Hp) as E.
  cbn [or_empty] in E.
  destruct (covers_record_values body e_tags ds (enumerates_sub list_set ds Henum))
    as [Cv Cs].
  destruct (read_values_covered list_set (S d) (S f) ds s _ _ _ E Cv Cs) as (res & R & _).
  exists res. exact R.
Qed.

(** One needs-login reply, an accepted login and a plain reply to the
    call that is made again, with the state that is left. *)
Lemma read_tags_relogin_once (d f : nat) (tags : list string) (s : state)
    (c1 : Z) (need : string) (j1 : cookies) (ok : string) (jar : cookies)
    (code : Z) (body : string) (jar' : cookies) :
  let u := username (self s) in
  let p := password (self s) in
  let call0 := ReadTags (auth_cookies (self s)) tags in
  (Z.of_nat (length tags) <= tagsPerRequest (self s))%Z ->
  device s (log s ++ [call0]) = Response c1 need j1 ->
  startswith need "#E_NEED_LOGIN" = true ->
  device s (log s ++ [call0; Login u p]) = Response 200 ok jar ->
  search_status true ok = Some "S_OK" ->
  device s (log s ++ [call0; Login u p; ReadTags (Some jar) tags]) = Response code body jar' ->
  plain body = true ->
  _read_tags (S (S d)) (S f) tags None None s =
  (Ok (RPair (Some (record_values body tags PyDict.empty))
             (Some (record_status body tags PyDict.empty))),
   mkState (mkBridge (hostname (self s)) u p (tagsPerRequest (self s)) (Some jar)
              (lang_map (self s)))
     (device s) (log s ++ [call0; Login u p; ReadTags (Some jar) tags])).
Proof.
  intros u p call0 Hlen Hd0 Hneed Hd1 Hok Hd2 Hp.
  rewrite read_tags_S. cbv zeta.
  unfold bind at 1. rewrite while_chunks_stop by assumption.
  unfold bind at 1. unfold get_self at 1.
  unfold bind at 1. rewrite http_get_eq. fold call0. rewrite Hd0, Hneed.
  set (s1 := mkState (self s) (device s) (log s ++ [call0])).
  unfold try_except. unfold bind at 1. unfold get_self at 1. unfold bind at 1.
  assert (Hd1' : device s1 (log s1 ++ [Login (username (self s1)) (password (self s1))])
                 = Response 200 ok jar).
  { unfold s1. cbn [device log self]. rewrite <- app_assoc. exact Hd1. }
  rewrite (login_accepted _ _ s1 ok jar Hd1' Hok).
  set (s2 := mkState _ (device s1) _).
  assert (Hd2' : device s2 (log s2 ++ [ReadTags (auth_cookies (self s2)) tags])
                 = Response code body jar').
  { unfold s2, s1. cbn [device log self auth_cookies].
    rewrite <- !app_assoc. exact Hd2. }
  rewrite (read_tags_one_chunk d f tags _ _ s2 code body jar' Hlen Hd2' Hp).
  unfold s2, s1. cbn [device log self auth_cookies or_empty username password
                      hostname tagsPerRequest lang_map].
  rewrite <- !app_assoc. reflexivity.
Qed.

(** The cookies of an accepted login are sent with the read that
    follows it, and a logout that gets a response stops that: the
    read after the logout carries no cookies. *)
Theorem cookie_is_sent_from_login_until_logout (list_set : list string -> list string)
    (d f : nat) (u p : string) (ds1 ds2 : list TagData) (s : state)
    (ok : string) (jar : cookies) (c1 : Z) (body1 : string) (j1 : cookies)
    (c2 : Z) (body2 : string) (j2 : cookies) (c3 : Z) (body3 : string) (j3 : cookies) :
  let e1 := list_set (flat_tags ds1) in
  let e2 := list_set (flat_tags ds2) in
  let calls := [Login u p; ReadTags (Some jar) e1; Logout; ReadTags None e2] in
  enumerates list_set ->
  (Z.of_nat (length e1) <= tagsPerRequest (self s))%Z ->
  (Z.of_nat (length e2) <= tagsPerRequest (self s))%Z ->
  device s (log s ++ firstn 1 calls) = Response 200 ok jar ->
  search_status true ok = Some "S_OK" ->
  device s (log s ++ firstn 2 calls) = Response c1 body1 j1 -> plain body1 = true ->
  device s (log s ++ firstn 3 calls) = Response c2 body2 j2 ->
  device s (log s ++ calls) = Response c3 body3 j3 -> plain body3 = true ->
  exists res1 res2 s',
    (login u p ;;
     r1 <- read_values list_set (S d) (S f) ds1 ;;
     logout ;;
     r2 <- read_values list_set (S d) (S f) ds2 ;;
     ret (r1, r2)) s = (Ok (res1, res2), s') /\
    log s' = log s ++ calls /\
    auth_cookies (self s') = None.
Proof.
  intros e1 e2 calls Henum Hl1 Hl2 Hd1 Hok Hd2 Hp1 Hd3 Hd4 Hp3.
  cbn [firstn calls] in Hd1, Hd2, Hd3.
  unfold bind at 1. rewrite (login_accepted u p s ok jar Hd1 Hok).
  set (s1 := mkState _ (device s) (log s ++ [Login u p])).
  destruct (read_values_one_call list_set d f ds1 s1 c1 body1 j1 Henum) as (res1 & R1).
  { exact Hl1. }
  { unfold s1. cbn [device log self auth_cookies]. rewrite <- app_assoc. exact Hd2. }
  { exact Hp1. }
  unfold bind at 1. rewrite R1.
  set (s2 := mkState (self s1) (device s1) _).
  unfold bind at 1. unfold logout. unfold bind at 1. rewrite http_get_eq.
  assert (Hd3' : device s2 (log s2 ++ [Logout]) = Response c2 body2 j2).
  { unfold s2, s1. cbn [device log self auth_cookies]. rewrite <- !app_assoc. exact Hd3. }
  rewrite Hd3'. unfold set_auth_cookies.
  set (s3 := mkState _ _ _).
  destruct (read_values_one_call list_set d f ds2 s3 c3 body3 j3 Henum) as (res2 & R2).
  { exact Hl2. }
  { unfold s3, s2, s1. cbn [device log self auth_cookies]. rewrite <- !app_assoc.
    exact Hd4. }
  { exact Hp3. }
  unfold bind at 1. rewrite R2.
  exists res1, res2. eexists. split; [reflexivity|].
  unfold s3, s2, s1. cbn [device log self auth_cookies]. rewrite <- !app_assoc.
  split; reflexivity.
Qed.

Lemma cookie_is_sent_from_login_until_logout_witness :
  exists res1 res2 s',
    (login "admin" "secret" ;;
     r1 <- read_values dedup 1 1 [TEMPERATURE_OUTSIDE] ;;
     logout ;;
     r2 <- read_values dedup 1 1 [TEMPERATURE_ROOM_TARGET] ;;
     ret (r1, r2))
      (start 10 (controller [("A1", Active "S_OK" "215"); ("A100", Active "S_OK" "200")]))
    = (Ok (res1, res2), s') /\
    log s' = [] ++ [Login "admin" "secret"; ReadTags (Some "IDALToken=1") ["A1"];
                    Logout; ReadTags None ["A100"]] /\
    auth_cookies (self s') = None.
Proof.
  apply (cookie_is_sent_from_login_until_logout dedup 0 0 "admin" "secret"
           [TEMPERATURE_OUTSIDE] [TEMPERATURE_ROOM_TARGET]
           (start 10 (controller [("A1", Active "S_OK" "215"); ("A100", Active "S_OK" "200")]))
           "#S_OK" "IDALToken=1"
           200 (block "A1" "S_OK" "215") ""
           200 "#S_OK" "IDALToken=1"
           200 (block "A100" "S_OK" "200") "");
    try reflexivity.
  - apply enumerates_dedup.
  - cbn. lia.
  - cbn. lia.
Defined.

(** A login that [_read_tags] makes after a needs-login reply is
    remembered: the call that is made again and the next batch read
    both carry the new cookies, and the next read needs no login. *)
Theorem relogin_cookie_is_kept_for_the_next_read (list_set : list string -> list string)
    (d f : nat) (ds1 ds2 : list TagData) (s : state)
    (c0 : Z) (need : string) (j0 : cookies) (ok : string) (jar : cookies)
    (c1 : Z) (body1 : string) (j1 : cookies) (c2 : Z) (body2 : string) (j2 : cookies) :
  let e1 := list_set (flat_tags ds1) in
  let e2 := list_set (flat_tags ds2) in
  let calls := [ReadTags (auth_cookies (self s)) e1;
                Login (username (self s)) (password (self s));
                ReadTags (Some jar) e1; ReadTags (Some jar) e2] in
  enumerates list_set ->
  (Z.of_nat (length e1) <= tagsPerRequest (self s))%Z ->
  (Z.of_nat (length e2) <= tagsPerRequest (self s))%Z ->
  device s (log s ++ firstn 1 calls) = Response c0 need j0 ->
  startswith need "#E_NEED_LOGIN" = true ->
  device s (log s ++ firstn 2 calls) = Response 200 ok jar ->
  search_status true ok = Some "S_OK" ->
  device s (log s ++ firstn 3 calls) = Response c1 body1 j1 -> plain body1 = true ->
  device s (log s ++ calls) = Response c2 body2 j2 -> plain body2 = true ->
  exists res1 res2 s',
    (r1 <- read_values list_set (S (S d)) (S f) ds1 ;;
     r2 <- read_values list_set (S d) (S f) ds2 ;;
     ret (r1, r2)) s = (Ok (res1, res2), s') /\
    log s' = log s ++ calls /\
    auth_cookies (self s') = Some jar.
Proof.
  intros e1 e2 calls Henum Hl1 Hl2 Hd0 Hneed Hd1 Hok Hd2 Hp1 Hd3 Hp2.
  cbn [firstn calls] in Hd0, Hd1, Hd2.
  pose proof (read_tags_relogin_once d f e1 s c0 need j0 ok jar c1 body1 j1
                Hl1 Hd0 Hneed Hd1 Hok Hd2 Hp1) as E.
  destruct (covers_record_values body1 e1 ds1 (enumerates_sub list_set ds1 Henum))
    as [Cv Cs].
  destruct (read_values_covered list_set (S (S d)) (S f) ds1 s _ _ _ E Cv Cs)
    as (res1 & R1 & _).
  unfold bind at 1. rewrite R1.
  set (s1 := mkState _ (device s) _).
  destruct (read_values_one_call list_set d f ds2 s1 c2 body2 j2 Henum) as (res2 & R2).
  { exact Hl2. }
  { unfold s1. cbn [device log self auth_cookies]. rewrite <- !app_assoc. exact Hd3. }
  { exact Hp2. }
  unfold bind at 1. rewrite R2.
  exists res1, res2. eexists. split; [reflexivity|].
  unfold s1. cbn [device log self auth_cookies]. rewrite <- !app_assoc.
  split; reflexivity.
Qed.

Lemma relogin_cookie_is_kept_for_the_next_read_witness :
  exists res1 res2 s',
    (r1 <- read_values dedup 2 1 [TEMPERATURE_OUTSIDE] ;;
     r2 <- read_values dedup 1 1 [TEMPERATURE_ROOM_TARGET] ;;
     ret (r1, r2))
      (start 10 (scripted [Response 200 "#E_NEED_LOGIN" "";
                           Response 200 "#S_OK" "IDALToken=7";
                           Response 200 (block "A1" "S_OK" "215") "";
                           Response 200 (block "A100" "S_OK" "200") ""]))
    = (Ok (res1, res2), s') /\
    log s' = [] ++ [ReadTags None ["A1"]; Login "waterkotte" "waterkotte";
                    ReadTags (Some "IDALToken=7") ["A1"];
                    ReadTags (Some "IDALToken=7") ["A100"]] /\
    auth_cookies (self s') = Some "IDALToken=7".
Proof.
  apply (relogin_cookie_is_kept_for_the_next_read dedup 0 0
           [TEMPERATURE_OUTSIDE] [TEMPERATURE_ROOM_TARGET]
           (start 10 (scripted [Response 200 "#E_NEED_LOGIN" "";
                                Response 200 "#S_OK" "IDALToken=7";
                                Response 200 (block "A1" "S_OK" "215") "";
                                Response 200 (block "A100" "S_OK" "200") ""]))
           200 "#E_NEED_LOGIN" "" "#S_OK" "IDALToken=7"
           200 (block "A1" "S_OK" "215") "" 200 (block "A100" "S_OK" "200") "");
    try reflexivity.
  - apply enumerates_dedup.
  - cbn. lia.
  - cbn. lia.
Defined.

(** ** Re-login in a read of any length *)

(** The last request of a read whose earlier chunks are answered
    plainly: the call goes on as a call for the last chunk, with the
    dictionaries that the loop has filled. *)
Lemma read_tags_last_request (c d f : nat) (tags : list string) (s : state)
    (pre : list (list string)) (last : list string) :
  (1 <= c)%nat ->
  tagsPerRequest (self s) = Z.of_nat c ->
  (length tags <= f)%nat ->
  chunks c tags = pre ++ [last] ->
  plain_run (device s) (auth_cookies (self s)) (log s) pre ->
  _read_tags (S (S d)) (S f) tags None None s =
  (let '(h, r, rs) :=
     run_chunks (device s) (auth_cookies (self s)) pre (log s) PyDict.empty PyDict.empty in
   _read_tags (S (S d)) (S f) last (Some r) (Some rs) (mkState (self s) (device s) h)).
Proof.
  intros Hc Htpr Hf Hchunks Hrun.
  unfold chunks in Hchunks. apply app_inj_tail in Hchunks. destruct Hchunks as [Hpre Hlast].
  destruct (loop_fuel c Hc f (length tags) tags) as [E1 E2]; try lia.
  rewrite <- E1 in Hpre. rewrite <- E2 in Hlast. subst pre last.
  pose proof (while_chunks_run_local c d f f Hc tags PyDict.empty PyDict.empty s
                Hrun Htpr Hf) as W.
  destruct (run_chunks (device s) (auth_cookies (self s)) (loop_chunks f c tags)
              (log s) PyDict.empty PyDict.empty) as [[h r'] rs'].
  apply (read_tags_after_loop (S d) f tags (loop_rest f c tags) None None r' rs' s
           (mkState (self s) (device s) h)).
  - exact W.
  - cbn [self]. rewrite Htpr.
    destruct (loop_sizes c Hc f tags) as (_ & L' & _); lia.
Qed.

(** The loop when the login that follows a needs-login reply to its
    last chunk is rejected: the call for that chunk returns the pair
    of [None]s, which the loop takes for its two dictionaries. *)
Lemma while_chunks_rejected_last (c d f : nat) (ch : list string) (s2 : state) :
  (1 <= c)%nat ->
  tagsPerRequest (self s2) = Z.of_nat c ->
  forall (pre : list (list string)) (n : nat) (tags : list string)
         (r : raw_values) (rs : raw_status) (s : state),
    tagsPerRequest (self s) = Z.of_nat c ->
    (length tags <= n)%nat ->
    loop_chunks n c tags = pre ++ [ch] ->
    plain_run (device s) (auth_cookies (self s)) (log s) pre ->
    (forall r1 rs1,
       _read_tags (S d) (S f) ch (Some r1) (Some rs1)
         (mkState (self s) (device s)
            (log s ++ map (ReadTags (auth_cookies (self s))) pre))
       = (Ok (RPair None None), s2)) ->
    while_chunks (_read_tags (S d) (S f)) (S n) tags (Some r) (Some rs) s =
    (Ok (loop_rest n c tags, None, None), s2).
Proof.
  intros Hc Htpr2. induction pre as [|p pre IH];
    intros n tags r rs s Htpr Hlen Hloop Hrun Hch.
  - destruct n as [|n]; [discriminate Hloop|]. cbn [loop_chunks] in Hloop.
    cbn [loop_rest].
    destruct (Nat.ltb_spec c (length tags)) as [Hlt|Hge]; [|discriminate Hloop].
    cbn [app] in Hloop. injection Hloop as Hfirst Hrest.
    rewrite while_chunks_S. unfold bind at 1. unfold get_self at 1.
    destruct (Z.gtb_spec (Z.of_nat (length tags)) (tagsPerRequest (self s))) as [_|Hn];
      [|rewrite Htpr in Hn; lia].
    rewrite Htpr, slice_to_nat, slice_from_nat, Hfirst.
    specialize (Hch r rs). cbn [map] in Hch. rewrite app_nil_r in Hch.
    replace (mkState (self s) (device s) (log s)) with s in Hch by (destruct s; reflexivity).
    unfold bind at 1. rewrite Hch. cbn [unpack]. unfold bind at 1. cbn [ret fst snd].
    assert (Hfit : (length (skipn c tags) <= c)%nat).
    { destruct n as [|n].
      - rewrite length_skipn. lia.
      - cbn [loop_chunks] in Hrest.
        destruct (Nat.ltb_spec c (length (skipn c tags))); [discriminate Hrest|lia]. }
    assert (Hrest' : loop_rest n c (skipn c tags) = skipn c tags).
    { destruct n as [|n]; [reflexivity|]. cbn [loop_rest].
      destruct (Nat.ltb_spec c (length (skipn c tags))); [lia|reflexivity]. }
    rewrite Hrest'.
    destruct n as [|n]; [rewrite length_skipn in Hfit; lia|].
    apply while_chunks_stop. rewrite Htpr2. lia.
  - destruct n as [|n]; [discriminate Hloop|]. cbn [loop_chunks] in Hloop.
    cbn [loop_rest].
    destruct (Nat.ltb_spec c (length tags)) as [Hlt|Hge]; [|discriminate Hloop].
    cbn [app] in Hloop. injection Hloop as Hfirst Hrest. subst p.
    cbn [plain_run] in Hrun. destruct Hrun as [(code & body & jar & Hd & Hp) Hrun].
    rewrite while_chunks_S. unfold bind at 1. unfold get_self at 1.
    destruct (Z.gtb_spec (Z.of_nat (length tags)) (tagsPerRequest (self s))) as [_|Hn];
      [|rewrite Htpr in Hn; lia].
    rewrite Htpr, slice_to_nat, slice_from_nat.
    unfold bind at 1.
    rewrite (read_tags_one_chunk d f (firstn c tags) (Some r) (Some rs) s code body jar);
      [| rewrite Htpr, length_firstn; lia | exact Hd | exact Hp].
    cbn [unpack or_empty]. unfold bind at 1. cbn [ret fst snd].
    apply (IH n (skipn c tags) _ _
             (mkState (self s) (device s)
                (log s ++ [ReadTags (auth_cookies (self s)) (firstn c tags)]))).
    + exact Htpr.
    + rewrite length_skipn. lia.
    + exact Hrest.
    + exact Hrun.
    + intros r1 rs1. cbn [self device log]. rewrite <- app_assoc. apply (Hch r1 rs1).
Qed.

Lemma for_tags_without_dictionaries (body : string) (t : string) (tags : list string)
    (s : state) :
  for_tags body (t :: tags) None None s = (Raise TypeError, s).
Proof.
  cbn [for_tags]. destruct (search_block t body) as [[st v]|]; reflexivity.
Qed.

(** A read in which the login for the chunk before the last request
    is rejected: the last chunk is still asked for, and recording its
    reply in the [None] that the loop has kept is a [TypeError]. *)
Lemma read_tags_rejected_before_last (c d f : nat) (tags : list string) (s : state)
    (pre : list (list string)) (ch last : list string)
    (c1 : Z) (need : string) (j1 : cookies) (bad g : string) (jar : cookies)
    (code : Z) (body : string) (j2 : cookies) :
  let jar0 := auth_cookies (self s) in
  let relogin := Login (username (self s)) (password (self s)) in
  let h1 := log s ++ map (ReadTags jar0) pre in
  (1 <= c)%nat ->
  tagsPerRequest (self s) = Z.of_nat c ->
  (length tags <= f)%nat ->
  chunks c tags = pre ++ [ch; last] ->
  plain_run (device s) jar0 (log s) pre ->
  device s (h1 ++ [ReadTags jar0 ch]) = Response c1 need j1 ->
  startswith need "#E_NEED_LOGIN" = true ->
  device s (h1 ++ [ReadTags jar0 ch; relogin]) = Response 200 bad jar ->
  search_status true bad = Some g ->
  g <> "S_OK" ->
  device s (h1 ++ [ReadTags jar0 ch; relogin; ReadTags jar0 last]) = Response code body j2 ->
  plain body = true ->
  _read_tags (S (S d)) (S f) tags None None s =
  (Raise TypeError,
   mkState (self s) (device s) (h1 ++ [ReadTags jar0 ch; relogin; ReadTags jar0 last])).
Proof.
  intros jar0 relogin h1 Hc Htpr Hf Hchunks Hrun Hd0 Hneed Hd1 Hbad Hg Hd2 Hp.
  pose proof (chunk_fits c tags pre [last] ch Hc Hchunks) as Hfit.
  unfold chunks in Hchunks.
  change (pre ++ [ch; last]) with (pre ++ [ch] ++ [last]) in Hchunks.
  rewrite app_assoc in Hchunks.
  apply app_inj_tail in Hchunks. destruct Hchunks as [Hloop Hlast].
  destruct (loop_fuel c Hc f (length tags) tags) as [E1 E2]; try lia.
  rewrite <- E1 in Hloop. rewrite <- E2 in Hlast.
  set (s1 := mkState (self s) (device s) h1).
  set (s2 := mkState (self s) (device s) (h1 ++ [ReadTags jar0 ch; relogin])).
  assert (Hcall : forall r1 rs1,
             _read_tags (S d) (S f) ch (Some r1) (Some rs1) s1 = (Ok (RPair None None), s2)).
  { intros r1 rs1.
    apply (read_tags_relogin_rejected_state d f s1 ch (Some r1) (Some rs1)
             c1 need j1 bad g jar).
    - cbn [self s1]. rewrite Htpr. lia.
    - exact Hd0.
    - exact Hneed.
    - exact Hd1.
    - exact Hbad.
    - exact Hg. }
  assert (Hne : last <> []).
  { destruct (loop_sizes c Hc f tags Hf) as (_ & _ & L').
    rewrite Hlast in L'. intros ->.
    assert (length tags = 0%nat) as L0.
    { destruct (Nat.eq_dec (length tags) 0) as [E0|N0]; [exact E0|].
      specialize (L' ltac:(lia)). cbn in L'. lia. }
    destruct tags; [|discriminate L0].
    destruct f; destruct pre; discriminate Hloop. }
  rewrite read_tags_S. cbv zeta. unfold bind at 1.
  pose proof (while_chunks_rejected_last c d f ch s2 Hc Htpr pre f tags
                PyDict.empty PyDict.empty s Htpr Hf Hloop Hrun Hcall) as W.
  unfold raw_values, raw_status in W. rewrite W. rewrite Hlast.
  unfold bind at 1. unfold get_self at 1.
  unfold bind at 1. rewrite http_get_eq.
  assert (Hd2' : device s2 (log s2 ++ [ReadTags (auth_cookies (self s2)) last])
                 = Response code body j2).
  { unfold s2. cbn [device log self]. rewrite <- app_assoc. exact Hd2. }
  rewrite Hd2'.
  destruct (plain_inv _ Hp) as [H1 H2]. rewrite H1, H2.
  destruct last as [|t last]; [contradiction|].
  unfold bind at 1. rewrite for_tags_without_dictionaries.
  unfold s2. cbn [self device log]. rewrite <- app_assoc. reflexivity.
Qed.

Lemma removelast_trace_logins (k : nat) (chunk : option cookies -> request) (u p : string)
    (jar0 : option cookies) (jar : cookies) :
  (forall c, is_Login (chunk c) = false) ->
  count is_Login (removelast (relogin_trace k chunk u p jar0 jar)) = k.
Proof.
  intros Hc. revert jar0. induction k as [|k IH]; intros jar0; [reflexivity|].
  rewrite removelast_relogin_trace. specialize (IH (Some jar)).
  unfold count in *. cbn [filter]. rewrite Hc. cbn [is_Login length]. rewrite IH.
  reflexivity.
Qed.

(** C1, as amended. The rule is stated for each call that sends a
    request: a call of [_read_tags] for a list that fits one request,
    whatever dictionaries it is given, and a call of [_write_tags].
    The loop of a read makes such a call for every chunk, with the
    dictionaries filled so far, and the last request of a read whose
    earlier chunks were answered plainly is made as by such a call
    (fourth part). Each of these calls treats a reply that starts
    with the needs-login sentinel in the same way: it logs in once
    with the stored credentials.
    - When the controller accepts the login, the same request is sent
      once more and its reply is treated by the same rule: after [k]
      needs-login replies in a row and a plain reply the call has
      logged in [k] times and has sent the chunk [k + 1] times, and it
      returns what the last reply lists, added to the dictionaries it
      was given. There is no limit of one re-login per call.
    - Each new attempt is a nested call, so the number of attempts is
      bounded by Python's recursion limit only: with room for [k]
      nested calls the call ends in [RecursionError] after [k]
      requests and [k] logins.
    - When the controller answers the login with a status other than
      [S_OK], that call sends nothing more and raises nothing:
      [_read_tags] returns the pair of [None]s and [_write_tags]
      returns [None]. For a read of one request this is the result of
      the read.
    - In a read of several chunks the rejected login does not end the
      read: when it happens in the chunk before the last request, the
      last chunk is still asked for and, its reply being plain,
      [_read_tags] and [read_values] end in a [TypeError]. *)
Theorem relogin_follows_every_needs_login_reply
    (tags value : list string) (c1 : Z) (need : string) (j1 : cookies) :
  length value = length tags ->
  startswith need "#E_NEED_LOGIN" = true ->
  (forall (k d f : nat) (s : state) (r : option raw_values) (rs : option raw_status)
          (ok : string) (jar : cookies) (code : Z) (body : string) (jar' : cookies),
     (Z.of_nat (length tags) <= tagsPerRequest (self s))%Z ->
     search_status true ok = Some "S_OK" ->
     plain body = true ->
     follows s (relogin_script k (Response c1 need j1) (Response 200 ok jar)
                  [Response code body jar']) ->
     let u := username (self s) in
     let p := password (self s) in
     let reads := relogin_trace k (fun c => ReadTags c tags) u p (auth_cookies (self s)) jar in
     let writes :=
       relogin_trace k (fun c => WriteTags c tags value) u p (auth_cookies (self s)) jar in
     (exists s',
        _read_tags (k + S d) (S f) tags r rs s =
        (Ok (RPair (Some (record_values body tags (or_empty r)))
                   (Some (record_status body tags (or_empty rs)))), s') /\
        log s' = log s ++ reads) /\
     count is_Login reads = k /\ count is_ReadTags reads = S k /\
     (exists s',
        _write_tags (k + S d) tags value s =
        (Ok (RPair (Some (record_values body tags PyDict.empty))
                   (Some (record_status body tags PyDict.empty))), s') /\
        log s' = log s ++ writes) /\
     count is_Login writes = k /\ count is_WriteTags writes = S k) /\
  (forall (k f : nat) (s : state) (r : option raw_values) (rs : option raw_status)
          (ok : string) (jar : cookies) (rest : list reply),
     (Z.of_nat (length tags) <= tagsPerRequest (self s))%Z ->
     search_status true ok = Some "S_OK" ->
     follows s (relogin_script k (Response c1 need j1) (Response 200 ok jar) rest) ->
     let u := username (self s) in
     let p := password (self s) in
     let reads :=
       removelast (relogin_trace k (fun c => ReadTags c tags) u p
                     (auth_cookies (self s)) jar) in
     let writes :=
       removelast (relogin_trace k (fun c => WriteTags c tags value) u p
                     (auth_cookies (self s)) jar) in
     (exists s',
        _read_tags k (S f) tags r rs s = (Raise RecursionError, s') /\
        log s' = log s ++ reads) /\
     count is_Login reads = k /\ count is_ReadTags reads = k /\
     (exists s',
        _write_tags k tags value s = (Raise RecursionError, s') /\
        log s' = log s ++ writes) /\
     count is_Login writes = k /\ count is_WriteTags writes = k) /\
  (forall (d f : nat) (s : state) (r : option raw_values) (rs : option raw_status)
          (bad g : string) (jar : cookies) (rest : list reply),
     (Z.of_nat (length tags) <= tagsPerRequest (self s))%Z ->
     search_status true bad = Some g ->
     g <> "S_OK" ->
     follows s (Response c1 need j1 :: Response 200 bad jar :: rest) ->
     (exists s',
        _read_tags (S d) (S f) tags r rs s = (Ok (RPair None None), s') /\
        log s' = log s ++ [ReadTags (auth_cookies (self s)) tags;
                           Login (username (self s)) (password (self s))]) /\
     (exists s',
        _write_tags (S d) tags value s = (Ok RNone, s') /\
        log s' = log s ++ [WriteTags (auth_cookies (self s)) tags value;
                           Login (username (self s)) (password (self s))])) /\
  (forall (c d f : nat) (all : list string) (pre : list (list string)) (s : state),
     (1 <= c)%nat ->
     tagsPerRequest (self s) = Z.of_nat c ->
     (length all <= f)%nat ->
     chunks c all = pre ++ [tags] ->
     plain_run (device s) (auth_cookies (self s)) (log s) pre ->
     _read_tags (S (S d)) (S f) all None None s =
     (let '(h, r, rs) :=
        run_chunks (device s) (auth_cookies (self s)) pre (log s)
          PyDict.empty PyDict.empty in
      _read_tags (S (S d)) (S f) tags (Some r) (Some rs)
        (mkState (self s) (device s) h))) /\
  (forall (list_set : list string -> list string) (ds : list TagData)
          (c d f : nat) (pre : list (list string)) (last : list string) (s : state)
          (bad g : string) (jar : cookies) (code : Z) (body : string) (j2 : cookies),
     let jar0 := auth_cookies (self s) in
     let relogin := Login (username (self s)) (password (self s)) in
     let h1 := log s ++ map (ReadTags jar0) pre in
     let s3 := mkState (self s) (device s)
                 (h1 ++ [ReadTags jar0 tags; relogin; ReadTags jar0 last]) in
     (1 <= c)%nat ->
     tagsPerRequest (self s) = Z.of_nat c ->
     (length (list_set (flat_tags ds)) <= f)%nat ->
     chunks c (list_set (flat_tags ds)) = pre ++ [tags; last] ->
     plain_run (device s) jar0 (log s) pre ->
     device s (h1 ++ [ReadTags jar0 tags]) = Response c1 need j1 ->
     device s (h1 ++ [ReadTags jar0 tags; relogin]) = Response 200 bad jar ->
     search_status true bad = Some g ->
     g <> "S_OK" ->
     device s (h1 ++ [ReadTags jar0 tags; relogin; ReadTags jar0 last])
     = Response code body j2 ->
     plain body = true ->
     _read_tags (S (S d)) (S f) (list_set (flat_tags ds)) None None s
     = (Raise TypeError, s3) /\
     read_values list_set (S (S d)) (S f) ds s = (Raise TypeError, s3)).
Proof.
  intros Hlen Hneed. split; [|split; [|split; [|split]]].
  - intros k d f s r rs ok jar code body jar' Htpr Hok Hp Hf. cbv zeta.
    destruct (read_tags_relogin k d f s tags r rs c1 need j1 ok jar code body jar'
                Htpr Hneed Hok Hp Hf) as (s1 & E1 & L1 & _ & _).
    destruct (write_tags_relogin k d s tags value c1 need j1 ok jar code body jar'
                Hlen Hneed Hok Hp Hf) as (s2 & E2 & L2 & _ & _).
    split; [exists s1; split; [exact E1|exact L1]|].
    split; [apply relogin_trace_counts; reflexivity|].
    split; [apply relogin_trace_chunks; reflexivity|].
    split; [exists s2; split; [exact E2|exact L2]|].
    split; [apply relogin_trace_counts; reflexivity|].
    apply relogin_trace_chunks; reflexivity.
  - intros k f s r rs ok jar rest Htpr Hok Hf. cbv zeta.
    destruct (read_tags_relogin_overflow k f s tags r rs c1 need j1 ok jar rest
                Htpr Hneed Hok Hf) as (s1 & E1 & L1).
    destruct (write_tags_relogin_overflow k s tags value c1 need j1 ok jar rest
                Hlen Hneed Hok Hf) as (s2 & E2 & L2).
    split; [exists s1; split; [exact E1|exact L1]|].
    split; [apply removelast_trace_logins; reflexivity|].
    split; [apply removelast_trace_counts; reflexivity|].
    split; [exists s2; split; [exact E2|exact L2]|].
    split; [apply removelast_trace_logins; reflexivity|].
    apply removelast_trace_counts; reflexivity.
  - intros d f s r rs bad g jar rest Htpr Hbad Hg Hf. split.
    + apply (read_tags_relogin_rejected d f s tags r rs c1 need j1 bad g jar rest);
        assumption.
    + apply (write_tags_relogin_rejected d s tags value c1 need j1 bad g jar rest);
        assumption.
  - intros c d f all pre s Hc Htpr Hf Hchunks Hrun.
    apply (read_tags_last_request c d f all s pre tags); assumption.
  - intros list_set ds c d f pre last s bad g jar code body j2 jar0 relogin h1 s3
           Hc Htpr Hf Hchunks Hrun Hd0 Hd1 Hbad Hg Hd2 Hp.
    assert (E : _read_tags (S (S d)) (S f) (list_set (flat_tags ds)) None None s
                = (Raise TypeError, s3)).
    { apply (read_tags_rejected_before_last c d f (list_set (flat_tags ds)) s pre tags last
               c1 need j1 bad g jar code body j2); assumption. }
    split; [exact E|].
    unfold read_values. unfold bind at 1. rewrite E. reflexivity.
Qed.

Lemma relogin_follows_every_needs_login_reply_witness :
  (exists s',
     _read_tags 4 1 ["A1"] None None
       (start 10 (scripted (relogin_script 3 (Response 200 "#E_NEED_LOGIN" "")
                              (Response 200 "#S_OK" "IDALToken=1")
                              [Response 200 (block "A1" "S_OK" "215") ""])))
     = (Ok (RPair (Some (record_values (block "A1" "S_OK" "215") ["A1"] PyDict.empty))
                  (Some (record_status (block "A1" "S_OK" "215") ["A1"] PyDict.empty))), s') /\
     log s' = [] ++ relogin_trace 3 (fun c => ReadTags c ["A1"]) "waterkotte" "waterkotte"
                      None "IDALToken=1") /\
  (exists s',
     _read_tags 3 1 ["A1"] None None
       (start 10 (scripted (relogin_script 3 (Response 200 "#E_NEED_LOGIN" "")
                              (Response 200 "#S_OK" "IDALToken=1")
                              [Response 200 (block "A1" "S_OK" "215") ""])))
     = (Raise RecursionError, s') /\
     log s' = [] ++ removelast (relogin_trace 3 (fun c => ReadTags c ["A1"])
                                  "waterkotte" "waterkotte" None "IDALToken=1")) /\
  (exists s',
     _write_tags 1 ["A1"] ["215"]
       (start 10 (scripted [Response 200 "#E_NEED_LOGIN" "";
                            Response 200 "#E_PASS_DONT_MATCH" ""]))
     = (Ok RNone, s') /\
     log s' = [] ++ [WriteTags None ["A1"] ["215"]; Login "waterkotte" "waterkotte"]) /\
  read_values dedup 2 3 [TEMPERATURE_OUTSIDE; TEMPERATURE_OUTSIDE_1H]
    (start 1 (scripted [Response 200 "#E_NEED_LOGIN" "";
                        Response 200 "#E_PASS_DONT_MATCH" "";
                        Response 200 (block "A2" "S_OK" "180") ""]))
  = (Raise TypeError,
     mkState (bridge0 1)
       (scripted [Response 200 "#E_NEED_LOGIN" "";
                  Response 200 "#E_PASS_DONT_MATCH" "";
                  Response 200 (block "A2" "S_OK" "180") ""])
       (([] ++ map (ReadTags None) [])
        ++ [ReadTags None ["A1"]; Login "waterkotte" "waterkotte"; ReadTags None ["A2"]])).
Proof.
  destruct (relogin_follows_every_needs_login_reply ["A1"] ["215"] 200
              "#E_NEED_LOGIN" "" eq_refl eq_refl)
    as (Rounds & Limit & Rejected & _ & Longer).
  split; [|split; [|split]].
  - destruct (Rounds 3%nat 0%nat 0%nat
                (start 10 (scripted (relogin_script 3 (Response 200 "#E_NEED_LOGIN" "")
                                       (Response 200 "#S_OK" "IDALToken=1")
                                       [Response 200 (block "A1" "S_OK" "215") ""])))
                None None "#S_OK" "IDALToken=1" 200%Z (block "A1" "S_OK" "215") "")
      as (R & _).
    + cbn. lia.
    + reflexivity.
    + reflexivity.
    + apply follows_scripted.
    + exact R.
  - destruct (Limit 3%nat 0%nat
                (start 10 (scripted (relogin_script 3 (Response 200 "#E_NEED_LOGIN" "")
                                       (Response 200 "#S_OK" "IDALToken=1")
                                       [Response 200 (block "A1" "S_OK" "215") ""])))
                None None "#S_OK" "IDALToken=1"
                [Response 200 (block "A1" "S_OK" "215") ""])
      as (R & _).
    + cbn. lia.
    + reflexivity.
    + apply follows_scripted.
    + exact R.
  - destruct (Rejected 0%nat 0%nat
                (start 10 (scripted [Response 200 "#E_NEED_LOGIN" "";
                                     Response 200 "#E_PASS_DONT_MATCH" ""]))
                None None "#E_PASS_DONT_MATCH" "E_PASS_DONT_MATCH" "" [])
      as (_ & W).
    + cbn. lia.
    + reflexivity.
    + discriminate.
    + apply follows_scripted.
    + exact W.
  - apply (Longer dedup [TEMPERATURE_OUTSIDE; TEMPERATURE_OUTSIDE_1H] 1%nat 0%nat 2%nat
             [] ["A2"]
             (start 1 (scripted [Response 200 "#E_NEED_LOGIN" "";
                                 Response 200 "#E_PASS_DONT_MATCH" "";
                                 Response 200 (block "A2" "S_OK" "180") ""]))
             "#E_PASS_DONT_MATCH" "E_PASS_DONT_MATCH" "" 200%Z (block "A2" "S_OK" "180") "").
    + lia.
    + reflexivity.
    + cbn. lia.
    + reflexivity.
    + exact I.
    + reflexivity.
    + reflexivity.
    + reflexivity.
    + discriminate.
    + reflexivity.
    + reflexivity.
Defined.

(** A read of three chunks in which the login for the first chunk is
    rejected: the second chunk is read into new dictionaries, and the
    read returns the registers of the second and third chunk only. *)
Example rejected_relogin_loses_a_chunk :
  let s := start 1 (scripted [Response 200 "#E_NEED_LOGIN" "";
                              Response 200 "#E_PASS_DONT_MATCH" "";
                              Response 200 (block "A2" "S_OK" "180") "";
                              Response 200 (block "A3" "S_OK" "-37") ""]) in
  let run := _read_tags 2 4 ["A1"; "A2"; "A3"] None None s in
  fst run = Ok (RPair (Some [("A2", Some "180"); ("A3", Some "-37")])
                      (Some [("A2", "S_OK"); ("A3", "S_OK")])) /\
  log (snd run) = [ReadTags None ["A1"]; Login "waterkotte" "waterkotte";
                   ReadTags None ["A2"]; ReadTags None ["A3"]].
Proof. vm_compute. split; reflexivity. Qed.

(** ** Registers without a value, against a controller *)

(** C5. A batch read from a controller that answers each call with
    the blocks of the requested registers that it holds. The raw read
    returns normally with one entry per requested code, whatever the
    chunk size: a register that the controller holds is recorded with
    the status and the value of its block, a register whose block is
    missing from the reply with [E_NOTFOUND] and no value, and a
    register that is answered with the inactive-tag sentinel with
    [E_INACTIVE] and no value. Neither aborts the call: [read_values]
    returns normally, with one entry for each descriptor whose
    registers decode, made of the decoding of what the controller
    holds for the descriptor's registers and of the status of its
    first register, whatever the entries of the other registers
    are. *)
Theorem read_records_missing_registers (list_set : list string -> list string)
    (c d f : nat) (ds : list TagData) (table : list (string * cell))
    (b : EcotouchBridge) (h0 : list request) :
  let e_tags := list_set (flat_tags ds) in
  let s := mkState b (controller table) h0 in
  (1 <= c)%nat ->
  tagsPerRequest b = Z.of_nat c ->
  enumerates list_set ->
  forallb code_ok (flat_tags ds) = true ->
  NoDup (map name ds) ->
  forallb entry_ok table = true ->
  NoDup (map fst table) ->
  (2 <= d)%nat ->
  (length e_tags + 1 <= f)%nat ->
  exists r rs s',
    _read_tags d f e_tags None None s = (Ok (RPair (Some r) (Some rs)), s') /\
    length r = length e_tags /\
    length rs = length e_tags /\
    (forall t, In t (flat_tags ds) ->
       match lookup_cell t table with
       | Some (Active st v) =>
           PyDict.get rs t = Some st /\ PyDict.get r t = Some (Some v)
       | Some Inactive =>
           PyDict.get rs t = Some "E_INACTIVE" /\ PyDict.get r t = Some None
       | None =>
           PyDict.get rs t = Some "E_NOTFOUND" /\ PyDict.get r t = Some None
       end) /\
    read_values list_set d f ds s
    = (Ok (flat_map (fun a => match entry_of_table (lang_map b) table a with
                              | Some e => [(name a, e)]
                              | None => []
                              end) ds), s').
Proof.
  intros e_tags s Hc Htpr Henum Hcodes Hnames Hok Hkeys Hd Hf.
  destruct (Henum (flat_tags ds)) as [Hnd Hin]. fold e_tags in Hnd, Hin.
  assert (Hcodes' : forallb code_ok e_tags = true).
  { apply forallb_forall. intros t Ht. rewrite forallb_forall in Hcodes.
    apply Hcodes, Hin, Ht. }
  assert (Hsub : forall a t, In a ds -> In t (tags a) -> In t e_tags).
  { exact (enumerates_sub list_set ds Henum). }
  destruct (read_tags_table c d f e_tags table b h0 Hc Htpr Hnd Hcodes' Hok Hkeys Hd Hf)
    as (s' & E & Hself).
  fold s in E.
  exists (map (fun t => (t, cell_value (lookup_cell t table))) e_tags),
         (map (fun t => (t, cell_status (lookup_cell t table))) e_tags), s'.
  split; [exact E|]. split; [apply length_map|]. split; [apply length_map|]. split.
  - intros t Ht. apply Hin in Ht.
    rewrite (get_map_keys (fun t => cell_status (lookup_cell t table)) e_tags t Ht).
    rewrite (get_map_keys (fun t => cell_value (lookup_cell t table)) e_tags t Ht).
    destruct (lookup_cell t table) as [[st v|]|]; split; reflexivity.
  - destruct e_tags as [|t0 rest] eqn:Ee.
    + assert (Hnil : forall a, In a ds -> tags a = []).
      { intros a Ha. destruct (tags a) as [|t l] eqn:Et; [reflexivity|].
        exfalso. apply (Hsub a t Ha). rewrite Et. left. reflexivity. }
      assert (Hflat : flat_map (fun a => match entry_of_table (lang_map b) table a with
                                         | Some e => [(name a, e)]
                                         | None => []
                                         end) ds = []).
      { clear - Hnil. induction ds as [|a ds IH]; [reflexivity|].
        cbn [flat_map]. rewrite IH by (intros x Hx; apply Hnil; right; exact Hx).
        unfold entry_of_table. rewrite (Hnil a (or_introl eq_refl)). reflexivity. }
      rewrite Hflat.
      unfold read_values. fold e_tags. rewrite Ee. unfold bind at 1. rewrite E.
      reflexivity.
    + rewrite <- Ee in *.
      rewrite (read_values_entries list_set d f ds s s' _ _ E).
      * rewrite Hself. rewrite entries_of_table by exact Hsub. reflexivity.
      * intros a t Ha Ht. apply mem_of_key. unfold PyDict.keys.
        rewrite map_map. cbn [fst]. rewrite map_id. exact (Hsub a t Ha Ht).
      * intros a t Ha Ht. apply mem_of_key. unfold PyDict.keys.
        rewrite map_map. cbn [fst]. rewrite map_id. exact (Hsub a t Ha Ht).
      * rewrite Ee. discriminate.
      * exact Hnames.
Qed.

Lemma read_records_missing_registers_witness :
  let s := mkState (bridge0 3)
             (controller [("A100", Inactive); ("A3", Active "S_OK" "-37");
                          ("A1", Active "S_OK" "215")]) [] in
  exists r rs s',
    _read_tags 2 5 ["A1"; "A2"; "A3"; "A100"] None None s
    = (Ok (RPair (Some r) (Some rs)), s') /\
    length r = 4%nat /\
    (PyDict.get rs "A1" = Some "S_OK" /\ PyDict.get r "A1" = Some (Some "215")) /\
    (PyDict.get rs "A2" = Some "E_NOTFOUND" /\ PyDict.get r "A2" = Some None) /\
    (PyDict.get rs "A3" = Some "S_OK" /\ PyDict.get r "A3" = Some (Some "-37")) /\
    (PyDict.get rs "A100" = Some "E_INACTIVE" /\ PyDict.get r "A100" = Some None) /\
    read_values dedup 2 5
      [TEMPERATURE_OUTSIDE; TEMPERATURE_OUTSIDE_1H; TEMPERATURE_OUTSIDE_24H;
       TEMPERATURE_ROOM_TARGET] s
    = (Ok [("TEMPERATURE_OUTSIDE", mkResult (PyFloat 215) "S_OK");
           ("TEMPERATURE_OUTSIDE_1H", mkResult PyNone "E_NOTFOUND");
           ("TEMPERATURE_OUTSIDE_24H", mkResult (PyFloat (-37)) "S_OK");
           ("TEMPERATURE_ROOM_TARGET", mkResult PyNone "E_INACTIVE")], s').
Proof.
  cbv zeta.
  destruct (read_records_missing_registers dedup 3 2 5
              [TEMPERATURE_OUTSIDE; TEMPERATURE_OUTSIDE_1H; TEMPERATURE_OUTSIDE_24H;
               TEMPERATURE_ROOM_TARGET]
              [("A100", Inactive); ("A3", Active "S_OK" "-37"); ("A1", Active "S_OK" "215")]
              (bridge0 3) [])
    as (r & rs & s' & E & Lr & _ & G & R).
  - lia.
  - reflexivity.
  - exact enumerates_dedup.
  - reflexivity.
  - apply NoDup_by_nodup. reflexivity.
  - reflexivity.
  - apply NoDup_by_nodup. reflexivity.
  - lia.
  - vm_compute. lia.
  - exists r, rs, s'. split; [exact E|]. split; [exact Lr|].
    split; [exact (G "A1" (or_introl eq_refl))|].
    split; [exact (G "A2" (or_intror (or_introl eq_refl)))|].
    split; [exact (G "A3" (or_intror (or_intror (or_introl eq_refl))))|].
    split; [exact (G "A100" (or_intror (or_intror (or_intror (or_introl eq_refl)))))|].
    exact R.
Defined.

(** ** A read with a chunk size of at least 1 always ends *)

Lemma login_ends (u p : string) (s : state) : fst (login u p s) <> OutOfFuel.
Proof.
  unfold login, bind, set_credentials. rewrite http_get_eq. cbn.
  destruct (device s (log s ++ [Login u p])) as [code body jar|]; cbn; [|discriminate].
  destruct (code =? 200)%Z; cbn; [|discriminate].
  unfold get_status_response.
  destruct (search_status true body) as [g|]; cbn; [|discriminate].
  destruct (String.eqb g "S_OK"); cbn; [discriminate|].
  destruct (startswith g "E_TOO_MANY_USERS"); cbn; discriminate.
Qed.

Lemma for_tags_state (body : string) (tags : list string)
    (r : option raw_values) (rs : option raw_status) (s : state) :
  snd (for_tags body tags r rs s) = s.
Proof.
  revert r rs. induction tags as [|t tags IH]; intros r rs; [reflexivity|].
  cbn [for_tags].
  destruct (search_block t body) as [[st v]|]; unfold bind, setitem;
    destruct rs as [rs|]; cbn; try reflexivity;
    destruct r as [r|]; cbn; try reflexivity; apply IH.
Qed.

(** The loop ends when every call it makes ends: an iteration takes at
    least one code off the list. *)
Lemma while_chunks_total (c f : nat)
    (rec : list string -> option raw_values -> option raw_status -> M tags_result) :
  (1 <= c)%nat ->
  (forall tags r rs s,
     tagsPerRequest (self s) = Z.of_nat c -> (length tags + 1 <= f)%nat ->
     exists o s', rec tags r rs s = (o, s') /\ o <> OutOfFuel /\
                  tagsPerRequest (self s') = Z.of_nat c) ->
  forall (n : nat) (tags : list string) (r : option raw_values) (rs : option raw_status)
         (s : state),
    tagsPerRequest (self s) = Z.of_nat c ->
    (length tags <= n)%nat ->
    (length tags + 1 <= f)%nat ->
    exists o s',
      while_chunks rec (S n) tags r rs s = (o, s') /\ o <> OutOfFuel /\
      tagsPerRequest (self s') = Z.of_nat c /\
      (forall tags' r' rs', o = Ok (tags', r', rs') -> (length tags' <= length tags)%nat).
Proof.
  intros Hc Hrec. induction n as [|n IH]; intros tags r rs s Htpr Hn Hf.
  - rewrite while_chunks_stop by (rewrite Htpr; lia).
    eexists. eexists. split; [reflexivity|]. split; [discriminate|].
    split; [exact Htpr|]. intros tags' r' rs' E. injection E as <- _ _. lia.
  - rewrite while_chunks_S. unfold bind at 1. unfold get_self at 1.
    destruct (Z.gtb_spec (Z.of_nat (length tags)) (tagsPerRequest (self s))) as [Hgt|Hle].
    + rewrite Htpr, slice_to_nat, slice_from_nat.
      destruct (Hrec (firstn c tags) r rs s Htpr) as (o1 & s1 & E1 & T1 & P1);
        [rewrite length_firstn; lia|].
      unfold bind at 1. rewrite E1.
      destruct o1 as [x|e|]; [| |contradiction T1; reflexivity].
      * unfold bind at 1. destruct x as [|a b]; cbn [unpack].
        -- eexists. eexists. split; [reflexivity|]. split; [discriminate|].
           split; [exact P1|]. intros tags' r' rs' E. discriminate E.
        -- cbn [ret fst snd].
           destruct (IH (skipn c tags) a b s1 P1) as (o & s' & E & T & P & L).
           ++ rewrite length_skipn. rewrite Htpr in Hgt. lia.
           ++ rewrite length_skipn. lia.
           ++ exists o, s'. split; [exact E|]. split; [exact T|]. split; [exact P|].
              intros tags' r' rs' Eo. specialize (L tags' r' rs' Eo).
              rewrite length_skipn in L. lia.
      * eexists. eexists. split; [reflexivity|]. split; [discriminate|].
        split; [exact P1|]. intros tags' r' rs' E. discriminate E.
    + eexists. eexists. split; [reflexivity|]. split; [discriminate|].
      split; [exact Htpr|]. intros tags' r' rs' E. injection E as <- _ _. lia.
Qed.

(** Whatever the controller answers, a call of [_read_tags] with a
    chunk size of at least 1 ends, by induction on the room that the
    recursion limit leaves. *)
Lemma read_tags_total (c f : nat) :
  (1 <= c)%nat ->
  forall (d : nat) (tags : list string) (r : option raw_values) (rs : option raw_status)
         (s : state),
    tagsPerRequest (self s) = Z.of_nat c ->
    (length tags + 1 <= f)%nat ->
    exists o s',
      _read_tags d f tags r rs s = (o, s') /\ o <> OutOfFuel /\
      tagsPerRequest (self s') = Z.of_nat c.
Proof.
  intros Hc. induction d as [|d IH]; intros tags r rs s Htpr Hf.
  - exists (Raise RecursionError), s. split; [reflexivity|]. split; [discriminate|exact Htpr].
  - destruct f as [|f]; [lia|].
    rewrite read_tags_S. cbv zeta. unfold bind at 1.
    destruct (while_chunks_total c (S f) (_read_tags d (S f)) Hc IH f tags
                (match r with None => Some PyDict.empty | Some _ => r end)
                (match rs with None => Some PyDict.empty | Some _ => rs end) s Htpr)
      as (o1 & s1 & E1 & T1 & P1 & L1); [lia|exact Hf|].
    rewrite E1.
    destruct o1 as [x|e|]; [| |contradiction T1; reflexivity].
    2:{ eexists. eexists. split; [reflexivity|]. split; [discriminate|exact P1]. }
    destruct x as [[tags' r'] rs']. specialize (L1 tags' r' rs' eq_refl).
    unfold bind at 1. unfold get_self at 1. unfold bind at 1. rewrite http_get_eq.
    set (s2 := mkState (self s1) (device s1)
                 (log s1 ++ [ReadTags (auth_cookies (self s1)) tags'])).
    destruct (device s1 (log s1 ++ [ReadTags (auth_cookies (self s1)) tags']))
      as [code body jar|].
    2:{ eexists. eexists. split; [reflexivity|]. split; [discriminate|exact P1]. }
    destruct (startswith body "#E_NEED_LOGIN").
    + unfold try_except. unfold bind at 1. unfold get_self at 1. unfold bind at 1.
      pose proof (login_ends (username (self s2)) (password (self s2)) s2) as Tl.
      pose proof (login_frame (username (self s2)) (password (self s2)) s2) as Fl.
      cbv zeta in Fl. destruct Fl as (_ & _ & _ & Pl & _).
      destruct (login (username (self s2)) (password (self s2)) s2) as [[u|e|] s3];
        cbn [fst snd] in Tl, Pl.
      * destruct (IH tags' r' rs' s3) as (o4 & s4 & E4 & T4 & P4);
          [rewrite Pl; exact P1|lia|].
        rewrite E4. destruct o4 as [y|e|]; [| |contradiction T4; reflexivity].
        -- eexists. eexists. split; [reflexivity|]. split; [discriminate|exact P4].
        -- destruct (is_StatusException e).
           ++ eexists. eexists. split; [reflexivity|]. split; [discriminate|exact P4].
           ++ eexists. eexists. split; [reflexivity|]. split; [discriminate|exact P4].
      * destruct (is_StatusException e).
        -- eexists. eexists. split; [reflexivity|]. split; [discriminate|].
           rewrite Pl. exact P1.
        -- eexists. eexists. split; [reflexivity|]. split; [discriminate|].
           rewrite Pl. exact P1.
      * contradiction Tl. reflexivity.
    + destruct (startswith body "#E_TOO_MANY_USERS").
      * eexists. eexists. split; [reflexivity|]. split; [discriminate|exact P1].
      * unfold bind.
        pose proof (for_tags_ends body tags' r' rs' s2) as [Ft _].
        pose proof (for_tags_state body tags' r' rs' s2) as Fs.
        destruct (for_tags body tags' r' rs' s2) as [[y|e|] s5]; cbn [fst snd] in Ft, Fs.
        -- eexists. eexists. split; [reflexivity|]. split; [discriminate|].
           subst s5. exact P1.
        -- eexists. eexists. split; [reflexivity|]. split; [discriminate|].
           subst s5. exact P1.
        -- contradiction Ft. reflexivity.
Qed.

(** With a chunk size of at least 1 a read ends, whatever the
    controller answers and whatever room the recursion limit leaves:
    when the loop may run once more than there are codes, the outcome
    of [_read_tags] and of [read_values] is a result or an exception
    (the exception is [RecursionError] when the controller goes on
    asking for a new login), and never a loop that is not over. *)
Theorem read_with_positive_chunk_size_always_ends
    (list_set : list string -> list string) (d f : nat) (tags : list string)
    (ds : list TagData) (s : state) :
  (1 <= tagsPerRequest (self s))%Z ->
  ((length tags + 1 <= f)%nat ->
   fst (_read_tags d f tags None None s) <> OutOfFuel) /\
  ((length (list_set (flat_tags ds)) + 1 <= f)%nat ->
   fst (read_values list_set d f ds s) <> OutOfFuel).
Proof.
  intros Hpos.
  assert (Hc : (1 <= Z.to_nat (tagsPerRequest (self s)))%nat) by lia.
  assert (Htpr : tagsPerRequest (self s) = Z.of_nat (Z.to_nat (tagsPerRequest (self s))))
    by lia.
  split; intros Hf.
  - destruct (read_tags_total _ f Hc d tags None None s Htpr Hf) as (o & s' & E & T & _).
    rewrite E. exact T.
  - unfold read_values.
    destruct (read_tags_total _ f Hc d (list_set (flat_tags ds)) None None s Htpr Hf)
      as (o & s' & E & T & _).
    unfold bind at 1. rewrite E.
    destruct o as [x|e|]; [|discriminate|contradiction T; reflexivity].
    unfold bind at 1. destruct x as [|a b]; cbn [unpack]; [discriminate|].
    cbn [ret]. destruct a as [ev|]; [|discriminate].
    destruct (0 <? length ev)%nat; [|discriminate].
    unfold bind, get_self.
    destruct (for_eco_tags (lang_map (self s')) ev b ds (mkFrame PyDict.empty None None));
      discriminate.
Qed.

Lemma read_with_positive_chunk_size_always_ends_witness :
  fst (_read_tags 60 2 ["A1"] None None (start 10 forgetful)) <> OutOfFuel /\
  fst (read_values dedup 60 2 [TEMPERATURE_OUTSIDE] (start 10 forgetful)) <> OutOfFuel.
Proof.
  destruct (read_with_positive_chunk_size_always_ends dedup 60 2 ["A1"]
              [TEMPERATURE_OUTSIDE] (start 10 forgetful)) as [A B].
  - cbn. lia.
  - split; [apply A; cbn; lia|apply B; vm_compute; lia].
Defined.
